(** * Visitor management: the record lifecycle and the reports

    A shallow embedding of the request handlers of [vms-backend/server.js]
    (create, checkout, list, daily and monthly reports) and of the timestamp
    normalisation of [loadVisitors] in [src/App.jsx], with the properties of
    the visitor lifecycle stated and proved over them.

    Conventions of the embedding.
    - A JavaScript value that reaches the handlers through a JSON or
      multipart body is a [JsVal]: undefined, null, a boolean, a number or a
      string.  Numbers are the integer-valued doubles in the safe range,
      carried as [Z], and NaN; objects and arrays are left out.
    - Strings are sequences of code units below 256.
    - [Date.now()], the results of [uuidv4()], the outcome of the disk write,
      the server's time zone (the offset of local time from UTC at each
      time, which may change with the date) and the verdict of [jwt.verify]
      are inputs of a handler.
    - The [visitors] table of [migrations.sql] is a list of rows in insertion
      order; [run], [get] and [all] of [db.js] execute their SQL statement on
      it with SQLite's meaning.  The user that a verified token names is
      taken to be in [users].

    Beside the visitor lifecycle the development embeds the /auth routes of
    [server.js] and [scripts/reset-password.js] over the [users] and [otps]
    tables ([bcrypt] and [signToken] are inputs), the client functions
    [apiFetch], [submitCheckin], [loadStats], [loadAll], [downloadCSV] and
    the login of [src/App.jsx], and the components [pagination.jsx] and [toasts.jsx]. *)

From Stdlib Require Import ZArith List String Ascii Bool Lia Permutation Sorted.
Import ListNotations.
Open Scope string_scope.
Open Scope Z_scope.

(** ** JavaScript values *)

Inductive JsVal : Type :=
| JUndefined
| JNull
| JBool (b : bool)
| JNum (n : Z)
| JNaN
| JStr (s : string).

(** ToBoolean. *)
Definition truthy (v : JsVal) : bool :=
  match v with
  | JUndefined | JNull | JNaN => false
  | JBool b => b
  | JNum n => negb (n =? 0)
  | JStr s => negb (s =? "")%string
  end.

(** [a || b]. *)
Definition js_or (a b : JsVal) : JsVal := if truthy a then a else b.

(** ** Strings *)

Definition digit (d : Z) : ascii := ascii_of_N (48 + Z.to_N d).

Definition digit_val (c : ascii) : option Z :=
  let n := Z.of_N (N_of_ascii c) in
  if (48 <=? n) && (n <=? 57) then Some (n - 48) else None.

Fixpoint digits_acc (fuel : nat) (n : Z) (acc : string) : string :=
  match fuel with
  | O => acc
  | S f =>
      let acc' := String (digit (n mod 10)) acc in
      if n <? 10 then acc' else digits_acc f (n / 10) acc'
  end.

(** The decimal numeral of a non-negative integer. *)
Definition decimal (n : Z) : string := digits_acc (S (Z.to_nat (Z.log2 n))) n "".

(** Number::toString on an integer, and [String(n)]. *)
Definition Number_toString (n : Z) : string :=
  if n <? 0 then "-" ++ decimal (- n) else decimal n.

(** ToString. *)
Definition ToString (v : JsVal) : string :=
  match v with
  | JUndefined => "undefined"
  | JNull => "null"
  | JBool true => "true"
  | JBool false => "false"
  | JNum n => Number_toString n
  | JNaN => "NaN"
  | JStr s => s
  end.

(** White space and line terminators that [parseInt] skips. *)
Definition is_space (c : ascii) : bool :=
  let n := N_of_ascii c in
  ((9 <=? n) && (n <=? 13) || (n =? 32) || (n =? 160))%N.

Fixpoint trim_start (s : string) : string :=
  match s with
  | String c r => if is_space c then trim_start r else s
  | EmptyString => s
  end.

(** The longest prefix of decimal digits, read as a number; [None] when
    there is no digit. *)
Fixpoint parse_digits (s : string) (acc : option Z) : option Z :=
  match s with
  | String c r =>
      match digit_val c with
      | Some d =>
          parse_digits r (Some (10 * match acc with Some a => a | None => 0 end + d))
      | None => acc
      end
  | EmptyString => acc
  end.

(** [parseInt(s, 10)] on a string; [None] is NaN. *)
Definition parseInt_string (s : string) : option Z :=
  match trim_start s with
  | String "-" r => option_map Z.opp (parse_digits r None)
  | String "+" r => parse_digits r None
  | r => parse_digits r None
  end.

(** [parseInt(v, 10)]. *)
Definition parseInt (v : JsVal) : option Z := parseInt_string (ToString v).

(** [s.startsWith(p)]. *)
Definition startsWith (s p : string) : bool := String.prefix p s.

(** [s.slice(n)] for [0 <= n]. *)
Fixpoint slice_from (n : nat) (s : string) : string :=
  match n, s with
  | O, _ => s
  | S k, String _ r => slice_from k r
  | S _, EmptyString => EmptyString
  end.

Fixpoint strip_prefix (p s : string) : option string :=
  match p, s with
  | EmptyString, _ => Some s
  | String a p', String b s' => if Ascii.eqb a b then strip_prefix p' s' else None
  | String _ _, EmptyString => None
  end.

Definition is_letter (c : ascii) : bool :=
  let n := N_of_ascii c in
  ((65 <=? n) && (n <=? 90) || (97 <=? n) && (n <=? 122))%N.

Fixpoint span_letters (s : string) : string * string :=
  match s with
  | String c r =>
      if is_letter c then let (l, t) := span_letters r in (String c l, t)
      else (EmptyString, s)
  | EmptyString => (EmptyString, EmptyString)
  end.

Fixpoint has_line_terminator (s : string) : bool :=
  match s with
  | String c r =>
      let n := N_of_ascii c in
      ((n =? 10) || (n =? 13))%N || has_line_terminator r
  | EmptyString => false
  end.

(** ** The visitors table *)

(** A row of [visitors] (migrations.sql).  A TEXT column holds a text or
    NULL; [name] and [checkin_time] are NOT NULL. *)
Record Visitor : Type := mkVisitor {
  row_id : string;
  row_name : string;
  row_phone : option string;
  row_address : option string;
  row_purpose : option string;
  row_company : option string;
  row_personToMeet : option string;
  row_photo : option string;
  row_checkin_time : Z;
  row_checkout_time : option Z;
  row_created_by : option string
}.

Definition Table : Type := list Visitor.
Bind Scope list_scope with Table.

Definition ids (db : Table) : list string := map row_id db.

Definition has_id (id : string) (db : Table) : bool :=
  existsb (fun r => (row_id r =? id)%string) db.

(** [SELECT * FROM visitors WHERE id = ?]: the first row with that id. *)
Definition find_visitor (id : string) (db : Table) : option Visitor :=
  find (fun r => (row_id r =? id)%string) db.

(** A parameter bound to a TEXT column: null, undefined and NaN are NULL, a
    boolean is bound as 0 or 1, and a number is stored as its numeral (as the
    column writes an integer of the 32-bit range). *)
Definition bind_text (v : JsVal) : option string :=
  match v with
  | JUndefined | JNull | JNaN => None
  | JBool b => Some (if b then "1" else "0")
  | JNum n => Some (Number_toString n)
  | JStr s => Some s
  end.

(** [INSERT INTO visitors (id, ..., checkin_time, created_by) VALUES ...].
    [checkout_time] is not listed and is NULL in the new row.  The statement
    fails ([None]) on the PRIMARY KEY of [id] and on the NOT NULL of [name]
    and of [checkin_time]; a NaN is bound as NULL. *)
Definition insert_visitor (id : string)
    (name phone address purpose company personToMeet photo : JsVal)
    (checkin : option Z) (created_by : JsVal) (db : Table) : option Table :=
  match bind_text name, checkin with
  | Some n, Some c =>
      if has_id id db then None
      else Some (db ++ [mkVisitor id n (bind_text phone) (bind_text address)
                          (bind_text purpose) (bind_text company)
                          (bind_text personToMeet) (bind_text photo)
                          c None (bind_text created_by)])%list
  | _, _ => None
  end.

Definition set_checkout (t : Z) (r : Visitor) : Visitor :=
  mkVisitor (row_id r) (row_name r) (row_phone r) (row_address r)
    (row_purpose r) (row_company r) (row_personToMeet r) (row_photo r)
    (row_checkin_time r) (Some t) (row_created_by r).

(** [UPDATE visitors SET checkout_time = ? WHERE id = ?]. *)
Definition update_checkout (t : Z) (id : string) (db : Table) : Table :=
  map (fun r => if (row_id r =? id)%string then set_checkout t r else r) db.

(** [checkin_time BETWEEN ? AND ?]; a NaN bound is NULL and no row passes. *)
Definition between (from to : option Z) (r : Visitor) : bool :=
  match from, to with
  | Some a, Some b => (a <=? row_checkin_time r) && (row_checkin_time r <=? b)
  | _, _ => false
  end.

Fixpoint insert_desc (r : Visitor) (l : list Visitor) : list Visitor :=
  match l with
  | [] => [r]
  | h :: t =>
      if row_checkin_time h <=? row_checkin_time r then r :: l
      else h :: insert_desc r t
  end.

(** [ORDER BY checkin_time DESC]. *)
Definition order_by_checkin_desc (l : list Visitor) : list Visitor :=
  fold_right insert_desc [] l.

(** [SELECT * FROM visitors WHERE checkin_time BETWEEN ? AND ?
     ORDER BY checkin_time DESC]. *)
Definition select_between (from to : option Z) (db : Table) : list Visitor :=
  order_by_checkin_desc (filter (between from to) db).

(** [SELECT COUNT( * ) as c FROM visitors WHERE checkin_time BETWEEN ? AND ?]. *)
Definition count_between (from to : Z) (db : Table) : Z :=
  Z.of_nat (List.length (filter (between (Some from) (Some to)) db)).

(** ** Requests and responses *)

(** The fields that the create handler reads from [req.body]; a field that
    is absent is [JUndefined], and so is every field of an absent body. *)
Record Body : Type := mkBody {
  name : JsVal;
  phone : JsVal;
  address : JsVal;
  purpose : JsVal;
  company : JsVal;
  personToMeet : JsVal;
  photo : JsVal;
  checkin_time : JsVal
}.

(** What the conditional multer step leaves behind: nothing for a request
    that is not multipart, [req.file.filename] (if a file came in the
    [photoFile] field) for one that is, or the error it rejects with. *)
Inductive Multer : Type :=
| NotMultipart
| MultipartOk (filename : option string)
| MultipartErr.

Record Query : Type := mkQuery {
  q_from : option string;
  q_to : option string;
  q_days : option string;
  q_months : option string
}.

Record Request : Type := mkRequest {
  authorization : option string;   (* req.headers.authorization *)
  upload : Multer;
  body : Body;
  params_id : string;              (* req.params.id *)
  query : Query;
  base : string                    (* req.protocol + '://' + req.get('host') *)
}.

(** A visitor as [GET /visitors] returns it: [{ ...r, photo }]. *)
Record VisitorJson : Type := mkVisitorJson {
  row : Visitor;
  photo_url : option string
}.

Inductive Json : Type :=
| ErrorJson (error : string)
| CreatedJson (id : string)
    (name phone address purpose company personToMeet photo : JsVal)
    (checkin_time : Z)
| CheckoutJson (id : string) (checkout_time : Z)
| VisitorsJson (rows : list VisitorJson)
| DailyJson (days : list (string * Z))
| MonthlyJson (months : list (string * Z)).

Record Response : Type := mkResponse {
  status : Z;
  json : Json
}.

Definition ok (j : Json) : Response := mkResponse 200 j.
Definition fail (code : Z) (msg : string) : Response := mkResponse code (ErrorJson msg).

(** The error kinds of the contract, as the status codes carry them. *)
Inductive ErrorKind : Type := ValidationError | AuthError | NotFoundError | StorageError.

Definition error_kind (r : Response) : option ErrorKind :=
  if status r =? 400 then Some ValidationError
  else if status r =? 401 then Some AuthError
  else if status r =? 404 then Some NotFoundError
  else if status r =? 500 then Some StorageError
  else None.

(** The local time zone, as [Date] reads it: [LocalTZA(t, true)], the offset
    of local time from UTC, in milliseconds, at the time value [t], and
    [LocalTZA(t, false)], the offset at the local time that [t] stands for;
    for a local time that a clock change skips or repeats, the language
    asks for the offset before the change. *)
Record Zone : Type := mkZone {
  LocalTZA_utc : Z -> Z;
  LocalTZA_local : Z -> Z
}.

(** A zone without clock changes, [minutes] ahead of UTC.  A number of
    minutes stands for that zone. *)
Definition fixed_zone (minutes : Z) : Zone :=
  mkZone (fun _ => minutes * 60000) (fun _ => minutes * 60000).

Coercion fixed_zone : Z >-> Zone.

(** What a handler reads from its surroundings. *)
Record Env : Type := mkEnv {
  Date_now : Z;            (* Date.now(), milliseconds *)
  uuid_file : string;      (* uuidv4() in saveBase64Image *)
  uuid_row : string;       (* uuidv4() for the id of the new row *)
  writeFile_ok : bool;     (* fs.promises.writeFile resolves *)
  utc_offset : Zone        (* the server's local time zone: its offset from UTC *)
}.

(** [Math.floor(Date.now() / 1000)]. *)
Definition now_seconds (env : Env) : Z := Date_now env / 1000.

(** ** The handlers of server.js *)

(** The match of [/^data:(image\/[a-zA-Z]+);base64,(.+)$/]: the mime type
    and the encoded data. *)
Definition match_data_url (s : string) : option (string * string) :=
  match strip_prefix "data:image/" s with
  | None => None
  | Some r =>
      let (letters, r') := span_letters r in
      if (letters =? "")%string then None
      else
        match strip_prefix ";base64," r' with
        | None => None
        | Some data =>
            if (data =? "")%string || has_line_terminator data then None
            else Some ("image/" ++ letters, data)
        end
  end.

(** [saveBase64Image(dataUrl)]: the public path of the saved file or null;
    [None] when the write rejects. *)
Definition saveBase64Image (env : Env) (dataUrl : JsVal) : option JsVal :=
  match dataUrl with
  | JStr s =>
      match match_data_url s with
      | None => Some JNull
      | Some (mime, _) =>
          let ext :=
            if (mime =? "image/png")%string then ".png"
            else if (mime =? "image/jpeg")%string || (mime =? "image/jpg")%string
                 then ".jpg"
            else if (mime =? "image/webp")%string then ".webp"
            else ".jpg" in
          let filename := uuid_file env ++ ext in
          if writeFile_ok env then Some (JStr ("/uploads/" ++ filename)) else None
      end
  | _ => Some JNull
  end.

(** [checkin_time ? parseInt(checkin_time, 10) : Math.floor(Date.now() / 1000)];
    [None] is NaN. *)
Definition checkin_of (env : Env) (checkin_time : JsVal) : option Z :=
  if truthy checkin_time then parseInt checkin_time else Some (now_seconds env).

(** [photoUrl ? (photoUrl.startsWith('http') ? photoUrl : base + photoUrl) : null]. *)
Definition photoAbsolute (base : string) (photoUrl : JsVal) : JsVal :=
  match photoUrl with
  | JStr p =>
      if (p =? "")%string then JNull
      else if startsWith p "http" then photoUrl else JStr (base ++ p)
  | _ => JNull
  end.

Section Server.

(** [jwt.verify(token, JWT_SECRET)]: the [id] of the decoded payload, or
    [None] when it throws. *)
Variable jwt_verify : string -> option JsVal.

(** [authMiddleware]: the response that ends the request, or [None] when
    [next()] is called. *)
Definition authMiddleware (req : Request) : option Response :=
  match authorization req with
  | None => Some (fail 401 "Missing token")
  | Some auth =>
      if negb (startsWith auth "Bearer ") then Some (fail 401 "Missing token")
      else
        match jwt_verify (slice_from 7 auth) with
        | Some _ => None
        | None => Some (fail 401 "Invalid token")
        end
  end.

(** The optional actor of a create request: the try block that leaves
    [created_by] null when there is no bearer token or [jwt.verify] throws. *)
Definition created_by_of (req : Request) : JsVal :=
  match authorization req with
  | None => JNull
  | Some auth =>
      if startsWith auth "Bearer " then
        match jwt_verify (slice_from 7 auth) with
        | Some id => id
        | None => JNull
        end
      else JNull
  end.

(** The photo step of the create handler: [photoUrl], or [None] when
    [saveBase64Image] throws. *)
Definition photoUrl_of (env : Env) (req : Request) : option JsVal :=
  let from_body :=
    match photo (body req) with
    | JStr p =>
        if startsWith p "data:image" then saveBase64Image env (JStr p)
        else Some JNull
    | _ => Some JNull
    end in
  match upload req with
  | MultipartOk (Some f) =>
      if (f =? "")%string then from_body else Some (JStr ("/uploads/" ++ f))
  | _ => from_body
  end.

(** [app.post('/visitors', ...)]. *)
Definition post_visitors (env : Env) (req : Request) (db : Table)
  : Response * Table :=
  match upload req with
  | MultipartErr => (fail 500 "internal error", db)
  | _ =>
      let b := body req in
      if negb (truthy (name b)) then (fail 400 "name required", db)
      else
        match photoUrl_of env req with
        | None => (fail 500 "internal error", db)
        | Some photoUrl =>
            let id := uuid_row env in
            let checkin := checkin_of env (checkin_time b) in
            let created_by := created_by_of req in
            match insert_visitor id (name b) (js_or (phone b) (JStr ""))
                    (js_or (address b) (JStr "")) (js_or (purpose b) (JStr ""))
                    (js_or (company b) (JStr "")) (js_or (personToMeet b) (JStr ""))
                    (js_or photoUrl (JStr "")) checkin created_by db,
                  checkin with
            | Some db', Some c =>
                (ok (CreatedJson id (name b) (phone b) (address b) (purpose b)
                       (company b) (personToMeet b)
                       (photoAbsolute (base req) photoUrl) c), db')
            | _, _ => (fail 500 "internal error", db)
            end
        end
  end.

(** [app.post('/visitors/:id/checkout', authMiddleware, ...)]. *)
Definition post_checkout (env : Env) (req : Request) (db : Table)
  : Response * Table :=
  match authMiddleware req with
  | Some rejected => (rejected, db)
  | None =>
      let id := params_id req in
      let checkout_time := now_seconds env in
      (ok (CheckoutJson id checkout_time), update_checkout checkout_time id db)
  end.

(** [req.query.x || d]. *)
Definition query_or (q : option string) (d : string) : string :=
  match q with
  | Some s => if (s =? "")%string then d else s
  | None => d
  end.

(** The photo of a listed row: [r.photo || null], made absolute unless it
    starts with [http]. *)
Definition resolve_photo (base : string) (r : Visitor) : VisitorJson :=
  mkVisitorJson r
    match row_photo r with
    | Some p =>
        if (p =? "")%string then None
        else if negb (startsWith p "http") then Some (base ++ p) else Some p
    | None => None
    end.

(** [app.get('/visitors', authMiddleware, ...)]. *)
Definition get_visitors (env : Env) (req : Request) (db : Table) : Response :=
  match authMiddleware req with
  | Some rejected => rejected
  | None =>
      let from := parseInt_string (query_or (q_from (query req)) "0") in
      let to := parseInt_string
                  (query_or (q_to (query req)) (Number_toString (now_seconds env))) in
      let rows := select_between from to db in
      ok (VisitorsJson (map (resolve_photo (base req)) rows))
  end.

(** The calls that write to the table, and a server handling a sequence of
    them.  The GET handlers return a response only. *)
Inductive Call : Type :=
| Create (env : Env) (req : Request)
| Checkout (env : Env) (req : Request).

Definition handle (c : Call) (db : Table) : Response * Table :=
  match c with
  | Create env req => post_visitors env req db
  | Checkout env req => post_checkout env req db
  end.

Definition serve (calls : list Call) (db : Table) : Table :=
  fold_left (fun db c => snd (handle c db)) calls db.

Definition is_checkout_of (id : string) (c : Call) : bool :=
  match c with
  | Checkout _ req => (params_id req =? id)%string
  | Create _ _ => false
  end.

End Server.

(** ** Dates

    The calendar of [Date] over a day number (days since 1970-01-01) in the
    proleptic Gregorian calendar, by eras of 400 years; local time is read
    through the zone. *)

Definition msPerDay : Z := 86400000.

(** The years of an era start on 1 March; [year_start yoe] is the first day
    of year [yoe] of its era and [yoe_of_doe] the year a day of the era is in. *)
Definition year_start (yoe : Z) : Z := 365 * yoe + yoe / 4 - yoe / 100.

Definition yoe_of_doe (doe : Z) : Z :=
  (doe - doe / 1460 + doe / 36524 - doe / 146096) / 365.

(** The first day, counted from 1 March, of month [mp] (0 is March). *)
Definition month_start (mp : Z) : Z := (153 * mp + 2) / 5.

(** Year, month 1..12 and day of the month of the day [doe] of an era; the
    year is the one of the era, plus one in January and February. *)
Definition civil_of_doe (doe : Z) : Z * Z * Z :=
  let yoe := yoe_of_doe doe in
  let doy := doe - year_start yoe in
  let mp := (5 * doy + 2) / 153 in
  let d := doy - month_start mp + 1 in
  let m := if mp <? 10 then mp + 3 else mp - 9 in
  (yoe + (if m <=? 2 then 1 else 0), m, d).

Definition civil_from_days (z : Z) : Z * Z * Z :=
  let z' := z + 719468 in
  let '(y, m, d) := civil_of_doe (z' mod 146097) in
  (y + 400 * (z' / 146097), m, d).

Definition doe_of_civil (yoe m d : Z) : Z :=
  year_start yoe + month_start (if 2 <? m then m - 3 else m + 9) + d - 1.

Definition days_from_civil (y m d : Z) : Z :=
  let y' := if m <=? 2 then y - 1 else y in
  y' / 400 * 146097 + doe_of_civil (y' mod 400) m d - 719468.

(** MakeDay(year, month, date), [month] counted from 0 and of any size. *)
Definition MakeDay (year month date : Z) : Z :=
  days_from_civil (year + month / 12) (month mod 12 + 1) 1 + date - 1.

(** [s.padStart(n, '0')]. *)
Definition padStart0 (n : nat) (s : string) : string :=
  String.concat "" (repeat "0" (n - String.length s)) ++ s.

(** [pad] of server.js. *)
Definition pad (n : Z) : string := padStart0 2 (Number_toString n).

Section Dates.

Variable zone : Zone.

(** LocalTime(t) and UTC(t). *)
Definition LocalTime (t : Z) : Z := t + LocalTZA_utc zone t.
Definition UTC (t : Z) : Z := t - LocalTZA_local zone t.

(** The day number of the local date of the time value [t]. *)
Definition local_day (t : Z) : Z := LocalTime t / msPerDay.

Definition getFullYear (t : Z) : Z := fst (fst (civil_from_days (local_day t))).
Definition getMonth (t : Z) : Z := snd (fst (civil_from_days (local_day t))) - 1.
Definition getDate (t : Z) : Z := snd (civil_from_days (local_day t)).

(** [new Date(year, month, date, hours, minutes, seconds).getTime()]: the
    local time made of the fields, taken to UTC with the offset in force at
    that local time. *)
Definition new_Date (year month date hours minutes seconds : Z) : Z :=
  let yr := if (0 <=? year) && (year <=? 99) then 1900 + year else year in
  UTC ((MakeDay yr month date * 86400 + hours * 3600 + minutes * 60 + seconds) * 1000).

End Dates.

(** [d.toISOString().slice(0, 10)]: the UTC date, with the year on four
    digits, or signed on six outside 0..9999. *)
Definition toISOString_slice_0_10 (t : Z) : string :=
  let '(y, m, d) := civil_from_days (t / msPerDay) in
  let year :=
    if (0 <=? y) && (y <=? 9999) then padStart0 4 (Number_toString y)
    else (if y <? 0 then "-" else "+") ++ padStart0 6 (Number_toString (Z.abs y)) in
  String.substring 0 10 (year ++ "-" ++ pad m ++ "-" ++ pad d).

(** ** The reports of server.js *)

(** [Math.min(hi, Math.max(1, parseInt(q || d, 10)))]; [None] is NaN. *)
Definition window_size (q : option string) (d : string) (hi : Z) : option Z :=
  option_map (fun n => Z.min hi (Z.max 1 n)) (parseInt_string (query_or q d)).

(** The values of [i] in [for (let i = n - 1; i >= 0; i--)]. *)
Fixpoint countdown (n : nat) : list Z :=
  match n with
  | O => []
  | S k => Z.of_nat k :: countdown k
  end.

Definition loop_indices (n : option Z) : list Z :=
  match n with
  | Some n => countdown (Z.to_nat n)
  | None => []
  end.

(** The body of the loop of [/reports/daily]. *)
Definition daily_entry (env : Env) (db : Table) (i : Z) : string * Z :=
  let tz := utc_offset env in
  let now := Date_now env in
  let d := new_Date tz (getFullYear tz now) (getMonth tz now) (getDate tz now - i) 0 0 0 in
  let start := new_Date tz (getFullYear tz d) (getMonth tz d) (getDate tz d) 0 0 0 / 1000 in
  let end_ := new_Date tz (getFullYear tz d) (getMonth tz d) (getDate tz d) 23 59 59 / 1000 in
  (toISOString_slice_0_10 d, count_between start end_ db).

(** The body of the loop of [/reports/monthly]. *)
Definition monthly_entry (env : Env) (db : Table) (i : Z) : string * Z :=
  let tz := utc_offset env in
  let now := Date_now env in
  let d := new_Date tz (getFullYear tz now) (getMonth tz now - i) 1 0 0 0 in
  let start := new_Date tz (getFullYear tz d) (getMonth tz d) 1 0 0 0 / 1000 in
  let end_ := new_Date tz (getFullYear tz d) (getMonth tz d + 1) 0 23 59 59 / 1000 in
  let label := Number_toString (getFullYear tz d) ++ "-" ++ pad (getMonth tz d + 1) in
  (label, count_between start end_ db).

Section Reports.

Variable jwt_verify : string -> option JsVal.

(** [app.get('/reports/daily', authMiddleware, ...)]. *)
Definition get_reports_daily (env : Env) (req : Request) (db : Table) : Response :=
  match authMiddleware jwt_verify req with
  | Some rejected => rejected
  | None =>
      let days := window_size (q_days (query req)) "7" 30 in
      ok (DailyJson (map (daily_entry env db) (loop_indices days)))
  end.

(** [app.get('/reports/monthly', authMiddleware, ...)]. *)
Definition get_reports_monthly (env : Env) (req : Request) (db : Table) : Response :=
  match authMiddleware jwt_verify req with
  | Some rejected => rejected
  | None =>
      let months := window_size (q_months (query req)) "6" 24 in
      ok (MonthlyJson (map (monthly_entry env db) (loop_indices months)))
  end.

End Reports.

(** ** loadVisitors of App.jsx: the normalisation of the two timestamps *)

Section Client.

(** [new Date(s).getTime()] in milliseconds; [None] is NaN. *)
Variable Date_parse : string -> option Z.

(** [Math.floor(new Date(s).getTime() / 1000)]. *)
Definition seconds_of_date_string (s : string) : JsVal :=
  match Date_parse s with
  | Some ms => JNum (ms / 1000)
  | None => JNaN
  end.

(** The [checkin_time] of the parsed item: [ck || 0] after the branches on
    [typeof ck]. *)
Definition normalize_checkin_time (v : JsVal) : JsVal :=
  let ck :=
    match v with
    | JStr s => seconds_of_date_string s
    | JNum n => if 10000000000 <? n then JNum (n / 1000) else v
    | _ => v
    end in
  js_or ck (JNum 0).

(** The [checkout_time] of the parsed item: [co || null] after the branches
    guarded by [if (co)]. *)
Definition normalize_checkout_time (v : JsVal) : JsVal :=
  let co :=
    if truthy v then
      match v with
      | JStr s => seconds_of_date_string s
      | JNum n => if 10000000000 <? n then JNum (n / 1000) else v
      | _ => v
      end
    else v in
  js_or co JNull.

End Client.

(** ** The vocabulary of the statements *)

(** The same request without its Authorization header. *)
Definition without_authorization (req : Request) : Request :=
  mkRequest None (upload req) (body req) (params_id req) (query req) (base req).

(** The bound that a query parameter, or its default, gives to the list. *)
Definition bound_of (q : option string) (default : Z) : option Z :=
  match q with
  | Some s => if (s =? "")%string then Some default else parseInt_string s
  | None => Some default
  end.

(** Rows in descending order of check-in time. *)
Definition desc (x y : Visitor) : Prop := row_checkin_time y <= row_checkin_time x.

(** The label of the month of index [j] (twelve times the year, plus the
    month counted from 0), and the day number of its first day. *)
Definition label_of (j : Z) : string :=
  Number_toString (j / 12) ++ "-" ++ pad (j mod 12 + 1).

Definition month_day (j : Z) : Z := days_from_civil (j / 12) (j mod 12 + 1) 1.

(** The first and the last second of the local day [day] of a zone, and of
    the month of index [j], in epoch seconds: local 00:00:00 and local
    23:59:59, each taken to UTC with the offset in force at that local time. *)
Definition day_first (z : Zone) (day : Z) : Z := UTC z (day * msPerDay) / 1000.
Definition day_last (z : Zone) (day : Z) : Z := UTC z (day * msPerDay + 86399000) / 1000.

Definition month_first (z : Zone) (j : Z) : Z := day_first z (month_day j).
Definition month_last (z : Zone) (j : Z) : Z := day_last z (month_day (j + 1) - 1).

(** The local midnight of [day], made a time value, is a time of that day.
    It is not where a clock change leaves out the whole day. *)
Definition day_kept (z : Zone) (day : Z) : Prop :=
  local_day z (UTC z (day * msPerDay)) = day.

(** The days from [first] to [last] follow one another: none ends before it
    starts, and each starts one second after the one before has ended, as
    it does unless the clock changes between 23:59:59 and midnight. *)
Definition days_follow (z : Zone) (first last : Z) : Prop :=
  forall j, first <= j <= last ->
    day_first z j <= day_last z j + 1 /\
    (j < last -> day_last z j + 1 = day_first z (j + 1)).

(** The same for the months of index [first] to [last]. *)
Definition months_follow (z : Zone) (first last : Z) : Prop :=
  forall j, first <= j <= last ->
    month_first z j <= month_last z j + 1 /\
    (j < last -> month_last z j + 1 = month_first z (j + 1)).

(** The date, as [toISOString] writes it, of day number [day]. *)
Definition iso_date (day : Z) : string := toISOString_slice_0_10 (day * msPerDay).

(** Labels in strictly increasing order, as strings. *)
Definition label_lt (a b : string * Z) : Prop := String.compare (fst a) (fst b) = Lt.

Fixpoint forall_from (n : nat) (z : Z) (p : Z -> bool) : bool :=
  match n with
  | O => true
  | S k => p z && forall_from k (z + 1) p
  end.

(** The numerals of two successive years have the same length, four, and
    are in order. *)
Definition year_step_ok (y : Z) : bool :=
  match String.compare (Number_toString y) (Number_toString (y + 1)) with
  | Lt => true
  | _ => false
  end
  && Nat.eqb (String.length (Number_toString y)) 4
  && Nat.eqb (String.length (Number_toString (y + 1))) 4.

(** ** Sample data

    A verifier that accepts one token, a clock, and a few requests, for the
    concrete runs below. *)

Definition sample_verify (token : string) : option JsVal :=
  if (token =? "good")%string then Some (JStr "u1") else None.

Definition sample_env : Env := mkEnv 1700000000123 "f-1" "v-1" true 0.

Definition no_query : Query := mkQuery None None None None.

Definition body_named (n : JsVal) (checkin_time : JsVal) : Body :=
  mkBody n (JStr "555-1111") JUndefined JUndefined JUndefined JUndefined
    JUndefined checkin_time.

Definition create_request (auth : option string) (b : Body) : Request :=
  mkRequest auth NotMultipart b "" no_query "http://localhost:4000".

Definition checkout_request (auth : option string) (id : string) : Request :=
  mkRequest auth NotMultipart
    (body_named JUndefined JUndefined) id no_query "http://localhost:4000".

Definition list_request (auth : option string) (q : Query) : Request :=
  mkRequest auth NotMultipart
    (body_named JUndefined JUndefined) "" q "http://localhost:4000".

Definition alice : Visitor :=
  mkVisitor "a-1" "Alice" (Some "555-1111") (Some "") (Some "") (Some "")
    (Some "") (Some "") 1700000000 None None.

(** A date parser that reads nothing, for the concrete runs below. *)
Definition no_Date_parse (s : string) : option Z := None.

(** A server five and a half hours ahead of UTC, at 10:00 local time on
    15 January 2024 (04:30 UTC), and a visitor who checks in at that moment. *)
Definition east_env : Env := mkEnv 1705293000000 "f-1" "v-1" true 330.

Definition today_visitor : Visitor :=
  mkVisitor "t-1" "Tara" (Some "") (Some "") (Some "") (Some "") (Some "")
    (Some "") 1705293000 None None.

Definition report_request (days months : option string) : Request :=
  list_request (Some "Bearer good") (mkQuery None None days months).

(** New York by the rules of 2023 and 2024: five hours behind UTC, and
    four from 12 March 2023 to 5 November 2023 and from 10 March 2024 to
    3 November 2024, each time from 07:00 UTC (02:00 local, which becomes
    03:00) to 06:00 UTC (02:00 local, which becomes 01:00).  A local time
    that is left out or comes twice has the offset before the change. *)
Definition new_york : Zone :=
  mkZone
    (fun t => if (1678604400000 <=? t) && (t <? 1699164000000)
                 || (1710054000000 <=? t) && (t <? 1730613600000)
              then -240 * 60000 else -300 * 60000)
    (fun t => if (1678590000000 <=? t) && (t <? 1699149600000)
                 || (1710039600000 <=? t) && (t <? 1730599200000)
              then -240 * 60000 else -300 * 60000).

(** A server in New York at noon on 11 March 2024 (16:00 UTC), the day after
    the clocks went forward, with a visitor at 23:30 on 8 March (04:30 UTC on
    the 9th) and one at 00:30 on 11 March (04:30 UTC); and the same server at
    10:00 on 15 January 2024 (15:00 UTC), with a visitor at 00:30 on
    1 July 2023 (04:30 UTC). *)
Definition march_env : Env := mkEnv 1710172800000 "f-1" "v-1" true new_york.

Definition march_visitors : Table :=
  [mkVisitor "m-1" "Mia" (Some "") (Some "") (Some "") (Some "") (Some "")
     (Some "") 1709958600 None None;
   mkVisitor "m-2" "Max" (Some "") (Some "") (Some "") (Some "") (Some "")
     (Some "") 1710131400 None None].

Definition january_env : Env := mkEnv 1705330800000 "f-1" "v-1" true new_york.

Definition july_visitor : Visitor :=
  mkVisitor "j-1" "Jo" (Some "") (Some "") (Some "") (Some "") (Some "")
    (Some "") 1688185800 None None.

(** ** More vocabulary: sums of counts, and requests and rows with one field
    changed *)

(** The sum of the counts of a report. *)
Definition sum_counts (entries : list (string * Z)) : Z :=
  fold_right (fun e acc => snd e + acc) 0 entries.

(** The same request with another [photo] in its body. *)
Definition with_photo (p : JsVal) (req : Request) : Request :=
  mkRequest (authorization req) (upload req)
    (mkBody (name (body req)) (phone (body req)) (address (body req))
       (purpose (body req)) (company (body req)) (personToMeet (body req))
       p (checkin_time (body req)))
    (params_id req) (query req) (base req).

(** A listed visitor after [UPDATE visitors SET checkout_time = t WHERE id = id]. *)
Definition listed_after_checkout (t : Z) (id : string) (v : VisitorJson) : VisitorJson :=
  mkVisitorJson
    (if (row_id (row v) =? id)%string then set_checkout t (row v) else row v)
    (photo_url v).

(** A JSON value for a text or null. *)
Definition json_of_text (s : option string) : JsVal :=
  match s with
  | Some s => JStr s
  | None => JNull
  end.

(** ** Accounts and one-time codes: the /auth routes of server.js and
    scripts/reset-password.js *)

(** A row of [users] and a row of [otps] (migrations.sql).  [created_at]
    holds the text of [new Date().toISOString()]. *)
Record User : Type := mkUser {
  user_id : string;
  user_username : string;
  user_password_hash : string;
  user_created_at : string
}.

Record Otp : Type := mkOtp {
  otp_id : string;
  otp_phone : string;
  otp_otp : string;
  otp_expires_at : Z;
  otp_used : bool;
  otp_created_at : string
}.

Record AuthDb : Type := mkAuthDb {
  users : list User;
  otps : list Otp
}.

(** The fields that the /auth handlers read from [req.body]; [None] is a
    request whose [req.body] is undefined. *)
Record AuthBody : Type := mkAuthBody {
  username : JsVal;
  password : JsVal;
  auth_phone : JsVal;
  auth_otp : JsVal
}.

Record AuthEnv : Type := mkAuthEnv {
  auth_now : Z;           (* Date.now(), milliseconds *)
  auth_iso : string;      (* new Date().toISOString() *)
  auth_uuid : string;     (* uuidv4() *)
  auth_salt : string;     (* the salt that bcrypt.hash draws *)
  auth_code : string      (* Math.floor(100000 + Math.random() * 900000).toString() *)
}.

Inductive AuthJson : Type :=
| AuthErrorJson (error : string)
| SessionJson (id : string) (username : JsVal) (token : string)
| OtpJson (message : string) (otp : string) (expires_at : Z).

Record AuthResponse : Type := mkAuthResponse {
  auth_status : Z;
  auth_json : AuthJson
}.

Definition auth_ok (j : AuthJson) : AuthResponse := mkAuthResponse 200 j.
Definition auth_fail (code : Z) (msg : string) : AuthResponse :=
  mkAuthResponse code (AuthErrorJson msg).

(** [SELECT ... FROM users WHERE username = ?]: the row with that username,
    if any ([username] is UNIQUE); no row for a NULL parameter. *)
Definition find_user (username : JsVal) (us : list User) : option User :=
  match bind_text username with
  | Some s => find (fun u => (user_username u =? s)%string) us
  | None => None
  end.

(** [INSERT INTO users (id, username, password_hash, created_at) VALUES ...];
    it fails on the PRIMARY KEY of [id], on the UNIQUE of [username] and on a
    NULL username. *)
Definition insert_user (id : string) (username : JsVal) (password_hash created_at : string)
    (us : list User) : option (list User) :=
  match bind_text username with
  | Some s =>
      if existsb (fun u => (user_id u =? id)%string || (user_username u =? s)%string) us
      then None
      else Some (us ++ [mkUser id s password_hash created_at])%list
  | None => None
  end.

(** [UPDATE users SET password_hash = ? WHERE id = ?]. *)
Definition update_password_hash (h id : string) (us : list User) : list User :=
  map (fun u => if (user_id u =? id)%string
                then mkUser (user_id u) (user_username u) h (user_created_at u)
                else u) us.

(** [INSERT INTO otps (id, phone, otp, expires_at, used, created_at)
     VALUES (?, ?, ?, ?, 0, ?)]; it fails on the PRIMARY KEY of [id] and on a
    NULL phone. *)
Definition insert_otp (id : string) (phone : JsVal) (code : string) (expires_at : Z)
    (created_at : string) (os : list Otp) : option (list Otp) :=
  match bind_text phone with
  | Some p =>
      if existsb (fun o => (otp_id o =? id)%string) os then None
      else Some (os ++ [mkOtp id p code expires_at false created_at])%list
  | None => None
  end.

(** The later of two rows by [created_at], the first one on a tie. *)
Definition later_otp (best : option Otp) (o : Otp) : option Otp :=
  match best with
  | None => Some o
  | Some b =>
      match String.compare (otp_created_at b) (otp_created_at o) with
      | Lt => Some o
      | _ => best
      end
  end.

(** [SELECT id, otp, expires_at, used FROM otps WHERE phone = ?
     ORDER BY created_at DESC LIMIT 1].  Which of several rows with the same
    [created_at] comes first is left open by the statement; here it is the
    one inserted first. *)
Definition latest_otp (phone : JsVal) (os : list Otp) : option Otp :=
  match bind_text phone with
  | Some p =>
      fold_left later_otp (filter (fun o => (otp_phone o =? p)%string) os) None
  | None => None
  end.

(** [UPDATE otps SET used = 1 WHERE id = ?]. *)
Definition mark_used (id : string) (os : list Otp) : list Otp :=
  map (fun o => if (otp_id o =? id)%string
                then mkOtp (otp_id o) (otp_phone o) (otp_otp o) (otp_expires_at o)
                       true (otp_created_at o)
                else o) os.

Section Auth.

(** [bcrypt.hash(data, 10)] with the salt it draws, and
    [bcrypt.compare(data, hash)]; [None] when the promise rejects. *)
Variable bcrypt_hash : string -> JsVal -> option string.
Variable bcrypt_compare : JsVal -> string -> option bool.

(** [signToken({ id, username })] at a given time. *)
Variable signToken : Z -> string -> JsVal -> string.

(** [OTP_TTL_SECONDS], a number of seconds. *)
Variable OTP_TTL_SECONDS : Z.

(** [app.post('/auth/register', ...)]. *)
Definition auth_register (env : AuthEnv) (body : option AuthBody) (db : AuthDb)
  : AuthResponse * AuthDb :=
  match body with
  | None => (auth_fail 500 "internal error", db)
  | Some b =>
      if negb (truthy (username b)) || negb (truthy (password b))
      then (auth_fail 400 "username & password required", db)
      else
        match find_user (username b) (users db) with
        | Some _ => (auth_fail 400 "username already exists", db)
        | None =>
            match bcrypt_hash (auth_salt env) (password b) with
            | None => (auth_fail 500 "internal error", db)
            | Some password_hash =>
                let id := auth_uuid env in
                match insert_user id (username b) password_hash (auth_iso env)
                        (users db) with
                | None => (auth_fail 500 "internal error", db)
                | Some us =>
                    (auth_ok (SessionJson id (username b)
                                (signToken (auth_now env) id (username b))),
                     mkAuthDb us (otps db))
                end
            end
        end
  end.

(** [app.post('/auth/login', ...)]; it writes nothing. *)
Definition auth_login (env : AuthEnv) (body : option AuthBody) (db : AuthDb)
  : AuthResponse :=
  match body with
  | None => auth_fail 500 "internal error"
  | Some b =>
      if negb (truthy (username b)) || negb (truthy (password b))
      then auth_fail 400 "username & password required"
      else
        match find_user (username b) (users db) with
        | None => auth_fail 400 "invalid credentials"
        | Some user =>
            match bcrypt_compare (password b) (user_password_hash user) with
            | None => auth_fail 500 "internal error"
            | Some false => auth_fail 400 "invalid credentials"
            | Some true =>
                auth_ok (SessionJson (user_id user) (JStr (user_username user))
                           (signToken (auth_now env) (user_id user)
                              (JStr (user_username user))))
            end
        end
  end.

(** [app.post('/auth/send-otp', ...)]. *)
Definition auth_send_otp (env : AuthEnv) (body : option AuthBody) (db : AuthDb)
  : AuthResponse * AuthDb :=
  match body with
  | None => (auth_fail 500 "internal error", db)
  | Some b =>
      if negb (truthy (auth_phone b)) then (auth_fail 400 "phone required", db)
      else
        let otp := auth_code env in
        let now := auth_now env / 1000 in
        let expires_at := now + OTP_TTL_SECONDS in
        match insert_otp (auth_uuid env) (auth_phone b) otp expires_at (auth_iso env)
                (otps db) with
        | None => (auth_fail 500 "internal error", db)
        | Some os =>
            (auth_ok (OtpJson "OTP generated (DEV)" otp expires_at),
             mkAuthDb (users db) os)
        end
  end.

(** [app.post('/auth/verify-otp', ...)]. *)
Definition auth_verify_otp (env : AuthEnv) (body : option AuthBody) (db : AuthDb)
  : AuthResponse * AuthDb :=
  match body with
  | None => (auth_fail 500 "internal error", db)
  | Some b =>
      if negb (truthy (auth_phone b)) || negb (truthy (auth_otp b))
      then (auth_fail 400 "phone & otp required", db)
      else
        let now := auth_now env / 1000 in
        match latest_otp (auth_phone b) (otps db) with
        | None => (auth_fail 400 "no otp found", db)
        | Some row =>
            if otp_used row then (auth_fail 400 "otp already used", db)
            else if otp_expires_at row <? now then (auth_fail 400 "otp expired", db)
            else if negb (otp_otp row =? ToString (auth_otp b))%string
                 then (auth_fail 400 "invalid otp", db)
            else
              let os := mark_used (otp_id row) (otps db) in
              match find_user (auth_phone b) (users db) with
              | Some user =>
                  (auth_ok (SessionJson (user_id user) (JStr (user_username user))
                              (signToken (auth_now env) (user_id user)
                                 (JStr (user_username user)))),
                   mkAuthDb (users db) os)
              | None =>
                  let id := auth_uuid env in
                  match insert_user id (auth_phone b) "" (auth_iso env) (users db) with
                  | None => (auth_fail 500 "internal error", mkAuthDb (users db) os)
                  | Some us =>
                      (auth_ok (SessionJson id (auth_phone b)
                                  (signToken (auth_now env) id (auth_phone b))),
                       mkAuthDb us os)
                  end
              end
        end
  end.

(** [main] of scripts/reset-password.js on [process.argv.slice(2)]: the exit
    code and the tables. *)
Definition reset_password (env : AuthEnv) (args : list string) (db : AuthDb)
  : Z * AuthDb :=
  match args with
  | username :: newPassword :: _ =>
      match find_user (JStr username) (users db) with
      | None => (2, db)
      | Some user =>
          match bcrypt_hash (auth_salt env) (JStr newPassword) with
          | None => (3, db)
          | Some hash =>
              (0, mkAuthDb (update_password_hash hash (user_id user) (users db))
                    (otps db))
          end
      end
  | _ => (1, db)
  end.

End Auth.

(** A password check that stores the password itself, a signer, and a few
    bodies, for the concrete runs below. *)
Definition sample_hash (salt : string) (data : JsVal) : option string :=
  match data with
  | JStr p => Some p
  | _ => None
  end.

Definition sample_compare (data : JsVal) (hash : string) : option bool :=
  match data with
  | JStr p => Some (p =? hash)%string
  | _ => None
  end.

Definition sample_sign (now : Z) (id : string) (username : JsVal) : string :=
  id ++ "." ++ ToString username.

Definition sample_auth_env : AuthEnv :=
  mkAuthEnv 1700000000123 "2023-11-14T22:13:20.123Z" "u-9" "salt" "428913".

Definition later_auth_env : AuthEnv :=
  mkAuthEnv 1700000200000 "2023-11-14T22:16:40.000Z" "u-10" "salt" "771204".

Definition credentials (u p : string) : option AuthBody :=
  Some (mkAuthBody (JStr u) (JStr p) JUndefined JUndefined).

Definition phone_and_code (phone code : JsVal) : option AuthBody :=
  Some (mkAuthBody JUndefined JUndefined phone code).

Definition no_accounts : AuthDb := mkAuthDb [] [].

(** ** pagination.jsx *)

(** The values of [i] in [for (let i = start; i <= end; i++)]. *)
Definition count_up (start end_ : Z) : list Z :=
  map (fun k => start + Z.of_nat k) (seq 0 (Z.to_nat (end_ - start + 1))).

(** The page buttons of [Pagination]. *)
Definition Pagination_pages (page totalPages : Z) : list Z :=
  let start := Z.max 1 (page - 2) in
  let end_ := Z.min totalPages (start + 4) in
  count_up start end_.

(** The page that the Prev and the Next button ask for, and whether the
    button is disabled. *)
Definition Pagination_prev (page : Z) : Z := Z.max 1 (page - 1).
Definition Pagination_next (page totalPages : Z) : Z := Z.min totalPages (page + 1).
Definition Pagination_prev_disabled (page : Z) : bool := page =? 1.
Definition Pagination_next_disabled (page totalPages : Z) : bool := page =? totalPages.

(** ** The pages of the list of App.jsx *)

(** [Array.prototype.slice(start, end)]: a negative index counts from the
    end, and both are clamped to the array. *)
Definition Array_slice {A : Type} (start end_ : Z) (l : list A) : list A :=
  let len := Z.of_nat (List.length l) in
  let k := if start <? 0 then Z.max (len + start) 0 else Z.min start len in
  let final := if end_ <? 0 then Z.max (len + end_) 0 else Z.min end_ len in
  firstn (Z.to_nat (Z.max (final - k) 0)) (skipn (Z.to_nat k) l).

Definition perPage : Z := 8.

(** [Math.ceil(a / b)] for integers [a] and a positive [b]. *)
Definition Math_ceil_div (a b : Z) : Z := - ((- a) / b).

(** [Math.max(1, Math.ceil(visible.length / perPage))]. *)
Definition totalPages {A : Type} (visible : list A) : Z :=
  Z.max 1 (Math_ceil_div (Z.of_nat (List.length visible)) perPage).

(** [visible.slice((page - 1) * perPage, page * perPage)]. *)
Definition paged {A : Type} (page : Z) (visible : list A) : list A :=
  Array_slice ((page - 1) * perPage) (page * perPage) visible.

(** ** The client: apiFetch, the check-in wizard, loadVisitors, loadStats
    and loadAll of App.jsx

    The browser's [Date.now()], the token of [localStorage], the state of the
    form and of the photo are inputs.  A request reaches the server as the
    client built it, and the answer reaches the client as the server sent
    it; a fetch that fails on the network is left out. *)

(** The Authorization header that [apiFetch] adds: [Bearer <token>] when
    [localStorage.getItem("token")] is truthy.  No caller passes headers. *)
Definition apiFetch_authorization (token : option string) : option string :=
  match token with
  | Some t => if (t =? "")%string then None else Some ("Bearer " ++ t)
  | None => None
  end.

(** What [apiFetch] gives its caller: the parsed body of an answer whose
    status is 2xx, or the message of the error that it throws. *)
Definition apiFetch_result (res : Response) : Json + string :=
  if (200 <=? status res) && (status res <=? 299) then inl (json res)
  else inr match json res with
           | ErrorJson e => if (e =? "")%string then "Request failed" else e
           | _ => "Request failed"
           end.

(** The text fields of the check-in form. *)
Record Form : Type := mkForm {
  form_name : string;
  form_phone : string;
  form_company : string;
  form_personToMeet : string;
  form_purpose : string;
  form_address : string;
  form_checkin_time : string
}.

(** [!s || !String(s).trim()] for a string [s]: what [trim] leaves is empty
    exactly when what is left after the leading white space is. *)
Definition blank (s : string) : bool :=
  negb (truthy (JStr s)) || negb (truthy (JStr (trim_start s))).

(** [nextFromDetails]: whether the wizard goes on to its second step. *)
Definition nextFromDetails (form : Form) : bool :=
  negb (blank (form_name form) || blank (form_phone form)).

(** The payload of [submitCheckin]; [photo] is the photo state, null or a
    data URL. *)
Definition payload_of (Date_now : Z) (form : Form) (photo : option string) : Body :=
  mkBody (JStr (form_name form)) (JStr (form_phone form)) (JStr (form_address form))
    (JStr (form_purpose form)) (JStr (form_company form))
    (JStr (form_personToMeet form))
    (js_or (match photo with Some p => JStr p | None => JNull end) JNull)
    (JNum (Date_now / 1000)).

(** [submitCheckin] up to its fetch: the request that it sends, or the
    message of the error that it throws before sending one. *)
Definition submitCheckin_request (Date_now : Z) (token : option string)
    (base : string) (form : Form) (photo : option string) : Request + string :=
  let payload := payload_of Date_now form photo in
  if negb (truthy (name payload)) || negb (truthy (phone payload))
  then inr "Name and phone required"
  else inl (mkRequest (apiFetch_authorization token) NotMultipart payload ""
              (mkQuery None None None None) base).

(** An item of the array that [GET /visitors] answers, as the client reads
    its two timestamps. *)
Definition item_checkin_time (x : VisitorJson) : JsVal := JNum (row_checkin_time (row x)).

Definition item_checkout_time (x : VisitorJson) : JsVal :=
  match row_checkout_time (row x) with
  | Some c => JNum c
  | None => JNull
  end.

(** [{ ...it, checkin_time, checkout_time }]. *)
Record ClientVisitor : Type := mkClientVisitor {
  it : VisitorJson;
  cv_checkin_time : JsVal;
  cv_checkout_time : JsVal
}.

(** [Array.prototype.sort(comparefn)]: a stable sort; [x] goes behind [h]
    when [comparefn(x, h) > 0], and a NaN counts as 0.  [None] is NaN. *)
Definition sorts_after {A : Type} (comparefn : A -> A -> option Z) (x h : A) : bool :=
  match comparefn x h with
  | Some d => 0 <? d
  | None => false
  end.

Fixpoint sort_insert {A : Type} (comparefn : A -> A -> option Z) (x : A) (l : list A)
  : list A :=
  match l with
  | [] => [x]
  | h :: t => if sorts_after comparefn x h then h :: sort_insert comparefn x t else x :: l
  end.

Definition Array_sort {A : Type} (comparefn : A -> A -> option Z) (l : list A) : list A :=
  fold_right (sort_insert comparefn) [] l.

(** The statistics of the sidebar. *)
Record Stats : Type := mkStats {
  stats_today : Z;
  stats_in : Z;
  stats_out : Z
}.

Section ClientLists.

(** [new Date(s).getTime()] and [Number(s)] on a string; [None] is NaN. *)
Variable Date_parse : string -> option Z.
Variable StringToNumber : string -> option Z.

(** ToNumber. *)
Definition ToNumber (v : JsVal) : option Z :=
  match v with
  | JUndefined | JNaN => None
  | JNull => Some 0
  | JBool b => Some (if b then 1 else 0)
  | JNum n => Some n
  | JStr s => StringToNumber s
  end.

(** [Number(v) || 0]. *)
Definition Number_or_0 (v : JsVal) : Z :=
  match ToNumber v with
  | Some n => n
  | None => 0
  end.

(** [(a, b) => (b.checkin_time || 0) - (a.checkin_time || 0)]. *)
Definition by_checkin_desc (a b : ClientVisitor) : option Z :=
  match ToNumber (js_or (cv_checkin_time b) (JNum 0)),
        ToNumber (js_or (cv_checkin_time a) (JNum 0)) with
  | Some x, Some y => Some (x - y)
  | _, _ => None
  end.

(** The item that the [map] of [loadVisitors] makes of [it]. *)
Definition parsed_item (x : VisitorJson) : ClientVisitor :=
  mkClientVisitor x
    (normalize_checkin_time Date_parse (item_checkin_time x))
    (normalize_checkout_time Date_parse (item_checkout_time x)).

(** [loadVisitors]: the list that it sets and returns, or the message of the
    error that it throws again. *)
Definition loadVisitors (res : Response) : list ClientVisitor + string :=
  match apiFetch_result res with
  | inl (VisitorsJson v) => inl (Array_sort by_checkin_desc (map parsed_item v))
  | inl _ => inl []
  | inr e => inr e
  end.

(** The [checkin_time] of an item of [loadAll] of the reports page:
    [Number(c) || (c ? Math.floor(new Date(c).getTime() / 1000) : null)].  A
    truthy [c] whose [Number] is 0 or NaN is a string. *)
Definition loadAll_checkin_time (c : JsVal) : JsVal :=
  let other :=
    if truthy c then
      match c with
      | JStr s => seconds_of_date_string Date_parse s
      | _ => JNull
      end
    else JNull in
  match ToNumber c with
  | Some n => if n =? 0 then other else JNum n
  | None => other
  end.

(** The visitors that [loadAll] sets from the array [v]. *)
Definition loadAll_visitors (v : list VisitorJson) : list ClientVisitor :=
  Array_sort by_checkin_desc
    (map (fun x => mkClientVisitor x (loadAll_checkin_time (item_checkin_time x))
                     (item_checkout_time x)) v).

(** The statistics that [loadStats] sets from the array [v], at the
    browser's time [now] in the browser's zone. *)
Definition loadStats (zone : Zone) (now : Z) (v : list VisitorJson) : Stats :=
  let start :=
    new_Date zone (getFullYear zone now) (getMonth zone now)
      (getDate zone now) 0 0 0 / 1000 in
  let end_ :=
    new_Date zone (getFullYear zone now) (getMonth zone now)
      (getDate zone now) 23 59 59 / 1000 in
  let count (p : VisitorJson -> bool) := Z.of_nat (List.length (filter p v)) in
  mkStats
    (count (fun x => (start <=? Number_or_0 (item_checkin_time x))
                     && (Number_or_0 (item_checkin_time x) <=? end_)))
    (count (fun x => negb (truthy (item_checkout_time x))))
    (count (fun x => truthy (item_checkout_time x))).

End ClientLists.

(** The check-in time that the list of the dashboard shows for a stored
    time, and the order of the list. *)
Definition seconds_of (t : Z) : Z := if 10000000000 <? t then t / 1000 else t.

Definition shown_checkin (x : ClientVisitor) : Z :=
  match cv_checkin_time x with
  | JNum n => n
  | _ => 0
  end.

(** An item whose check-in time is a number or null. *)
Definition number_or_null (x : ClientVisitor) : Prop :=
  cv_checkin_time x = JNull \/ exists n, cv_checkin_time x = JNum n.

Definition newest_first (a b : ClientVisitor) : Prop := shown_checkin b <= shown_checkin a.

Definition sample_form : Form :=
  mkForm "Alice" "555-0100" "Acme" "Bob" "Meeting" "1 Main St" "2023-11-14T22:13".

Definition no_StringToNumber (s : string) : option Z := None.

(** ** The session of the client: [submit] of the login page of App.jsx *)

(** The token of [localStorage] after [submit] got the answer [res]:
    [localStorage.setItem("token", res.token)] when the status is 2xx, and
    the token as it was when [apiFetch] throws.  [setItem] stores the text
    of its argument. *)
Definition Login_submit (res : AuthResponse) (token : option string) : option string :=
  if (200 <=? auth_status res) && (auth_status res <=? 299) then
    match auth_json res with
    | SessionJson _ _ t => Some t
    | _ => Some (ToString JUndefined)
    end
  else token.

(** ** toasts.jsx: the toasts on screen

    The state is the counter [_toastId] of the module, the array [toasts] of
    the hook and the timeouts that [push] has set and that have not fired.
    An event is a call of [push] or of [dismiss], or a timeout that fires. *)

Record Toast : Type := mkToast {
  toast_id : Z;
  toast_msg : JsVal;
  toast_detail : JsVal;
  toast_stay : bool;
  toast_duration : JsVal;
  toast_type : JsVal
}.

(** The fields that [push] reads from [opts]. *)
Record ToastOpts : Type := mkToastOpts {
  opt_detail : JsVal;
  opt_stay : JsVal;
  opt_duration : JsVal;
  opt_type : JsVal
}.

Record ToastState : Type := mkToastState {
  next_toastId : Z;
  toasts : list Toast;
  timeouts : list Z          (* the [id] of each pending timeout *)
}.

(** [t.filter((x) => x.id !== id)]. *)
Definition without_toast (id : Z) (t : list Toast) : list Toast :=
  filter (fun x => negb (toast_id x =? id)) t.

(** [push(msg, opts)]: the id that it returns, and the state. *)
Definition push (msg : JsVal) (opts : ToastOpts) (s : ToastState) : Z * ToastState :=
  let id := next_toastId s in
  let toast :=
    mkToast id msg (js_or (opt_detail opts) (JStr "")) (truthy (opt_stay opts))
      (js_or (opt_duration opts) (JNum 3500)) (js_or (opt_type opts) (JStr "info")) in
  (id, mkToastState (id + 1) (toasts s ++ [toast])
         (if negb (toast_stay toast) then timeouts s ++ [id] else timeouts s)).

(** [dismiss(id)]. *)
Definition dismiss (id : Z) (s : ToastState) : ToastState :=
  mkToastState (next_toastId s) (without_toast id (toasts s)) (timeouts s).

(** The callback of the timeout that [push] set for [id]; it runs once. *)
Definition timeout_fires (id : Z) (s : ToastState) : ToastState :=
  if existsb (Z.eqb id) (timeouts s) then
    mkToastState (next_toastId s) (without_toast id (toasts s))
      (filter (fun x => negb (x =? id)) (timeouts s))
  else s.

Inductive ToastEvent : Type :=
| Push (msg : JsVal) (opts : ToastOpts)
| Dismiss (id : Z)
| TimeoutFires (id : Z).

Definition toast_step (s : ToastState) (e : ToastEvent) : ToastState :=
  match e with
  | Push msg opts => snd (push msg opts s)
  | Dismiss id => dismiss id s
  | TimeoutFires id => timeout_fires id s
  end.

(** The state when the module is loaded and the hook is mounted. *)
Definition no_toasts : ToastState := mkToastState 1 [] [].

Definition toast_run (events : list ToastEvent) : ToastState :=
  fold_left toast_step events no_toasts.

(** What holds of the toasts after any events. *)
Definition toasts_ok (s : ToastState) : Prop :=
  NoDup (map toast_id (toasts s)) /\
  (forall t, In t (toasts s) ->
     1 <= toast_id t < next_toastId s /\
     (toast_stay t = false <-> In (toast_id t) (timeouts s))) /\
  (forall id, In id (timeouts s) -> id < next_toastId s) /\
  1 <= next_toastId s.

(** ** downloadCSV of App.jsx *)

(** An object with own enumerable string keys, in the order of
    [Object.keys], and [r[c]]. *)
Definition JsObject : Type := list (string * JsVal).

Definition get_property (r : JsObject) (c : string) : JsVal :=
  match find (fun kv => (fst kv =? c)%string) r with
  | Some kv => snd kv
  | None => JUndefined
  end.

(** [v ?? d]. *)
Definition nullish_or (v d : JsVal) : JsVal :=
  match v with
  | JUndefined | JNull => d
  | _ => v
  end.

Definition quote : ascii := "034"%char.
Definition comma : ascii := ","%char.
Definition newline : ascii := "010"%char.

(** [s.replace] with the pattern of one quote, global, and the text of two
    quotes: each quote is written twice. *)
Fixpoint double_quotes (s : string) : string :=
  match s with
  | EmptyString => EmptyString
  | String a r =>
      if Ascii.eqb a quote then String quote (String quote (double_quotes r))
      else String a (double_quotes r)
  end.

(** [l.join(sep)] for an array of strings. *)
Definition Array_join (sep : ascii) (l : list string) : string :=
  String.concat (String sep EmptyString) l.

(** The cell of row [r] in column [c]. *)
Definition csv_cell (r : JsObject) (c : string) : string :=
  double_quotes (ToString (nullish_or (get_property r c) (JStr EmptyString))).

(** [downloadCSV(filename, rows)]: the name and the text of the file that it
    offers, or [None] when it returns at once. *)
Definition downloadCSV (filename : string) (rows : list JsObject)
  : option (string * string) :=
  match rows with
  | [] => None
  | first :: _ =>
      let cols := map fst first in
      let csv :=
        Array_join newline
          (Array_join comma cols
           :: map (fun r => Array_join comma (map (csv_cell r) cols)) rows) in
      Some (filename, csv)
  end.

(** Reading a text back: its pieces between the occurrences of [sep]. *)
Fixpoint split_on (sep : ascii) (s : string) : list string :=
  match s with
  | EmptyString => [EmptyString]
  | String a r =>
      if Ascii.eqb a sep then EmptyString :: split_on sep r
      else
        match split_on sep r with
        | h :: t => String a h :: t
        | [] => [String a EmptyString]
        end
  end.

Fixpoint contains (c : ascii) (s : string) : bool :=
  match s with
  | EmptyString => false
  | String a r => Ascii.eqb a c || contains c r
  end.

(** A text that can stand in a line of the file as it is. *)
Definition plain (s : string) : Prop := contains comma s = false /\ contains newline s = false.

(** * Properties *)

(** ** Numerals *)

Lemma digit_val_digit (k : Z) : 0 <= k <= 9 -> digit_val (digit k) = Some k.
Proof.
  intros H.
  assert (k = 0 \/ k = 1 \/ k = 2 \/ k = 3 \/ k = 4 \/ k = 5 \/ k = 6 \/ k = 7
          \/ k = 8 \/ k = 9) as D by lia.
  repeat (destruct D as [-> | D]; [reflexivity |]); subst; reflexivity.
Qed.

Lemma digit_plain (k : Z) :
  0 <= k <= 9 ->
  is_space (digit k) = false /\ digit k <> "-"%char /\ digit k <> "+"%char.
Proof.
  intros H.
  assert (k = 0 \/ k = 1 \/ k = 2 \/ k = 3 \/ k = 4 \/ k = 5 \/ k = 6 \/ k = 7
          \/ k = 8 \/ k = 9) as D by lia.
  repeat (destruct D as [-> | D]; [repeat split; discriminate |]);
    subst; repeat split; discriminate.
Qed.

Lemma digits_acc_S (f : nat) (n : Z) (acc : string) :
  digits_acc (S f) n acc =
  if n <? 10 then String (digit (n mod 10)) acc
  else digits_acc f (n / 10) (String (digit (n mod 10)) acc).
Proof. reflexivity. Qed.

Lemma digits_acc_parse (f : nat) :
  forall n rest, 0 <= n < 10 ^ Z.of_nat (S f) ->
    parse_digits (digits_acc (S f) n rest) None = parse_digits rest (Some n).
Proof.
  induction f as [| f IH]; intros n rest Hn.
  - change (10 ^ Z.of_nat 1) with 10 in Hn.
    rewrite digits_acc_S. destruct (Z.ltb_spec n 10); [| lia].
    rewrite Z.mod_small by lia. cbn [parse_digits].
    rewrite digit_val_digit by lia. f_equal.
  - rewrite digits_acc_S. destruct (Z.ltb_spec n 10) as [Hlt | Hge].
    + rewrite Z.mod_small by lia. cbn [parse_digits].
      rewrite digit_val_digit by lia. f_equal.
    + assert (0 <= n / 10 < 10 ^ Z.of_nat (S f)) as Hq.
      { rewrite Nat2Z.inj_succ, Z.pow_succ_r in Hn by lia.
        split; [apply Z.div_pos; lia | apply Z.div_lt_upper_bound; lia]. }
      rewrite (IH (n / 10) _ Hq). cbn [parse_digits].
      rewrite digit_val_digit by (pose proof (Z.mod_pos_bound n 10); lia).
      f_equal. f_equal. pose proof (Z.div_mod n 10). lia.
Qed.

Lemma digits_acc_head (f : nat) :
  forall n rest, 0 <= n ->
    exists k r, 0 <= k <= 9 /\ digits_acc (S f) n rest = String (digit k) r.
Proof.
  induction f as [| f IH]; intros n rest Hn; rewrite digits_acc_S.
  - destruct (n <? 10); exists (n mod 10), rest;
      (split; [pose proof (Z.mod_pos_bound n 10); lia | reflexivity]).
  - destruct (n <? 10).
    + exists (n mod 10), rest.
      split; [pose proof (Z.mod_pos_bound n 10); lia | reflexivity].
    + apply IH. apply Z.div_pos; lia.
Qed.

Lemma decimal_fuel (n : Z) : 0 <= n -> n < 10 ^ Z.of_nat (S (Z.to_nat (Z.log2 n))).
Proof.
  intros Hn. rewrite Nat2Z.inj_succ, Z2Nat.id by apply Z.log2_nonneg.
  destruct (Z.eq_dec n 0) as [-> | Hz]; [reflexivity |].
  pose proof (Z.log2_spec n ltac:(lia)) as [_ Hup].
  eapply Z.lt_le_trans; [exact Hup |].
  apply Z.pow_le_mono_l. lia.
Qed.

Lemma parseInt_string_decimal (n : Z) :
  0 <= n -> parseInt_string (decimal n) = Some n.
Proof.
  intros Hn. unfold parseInt_string.
  pose proof (digits_acc_parse (Z.to_nat (Z.log2 n)) n "" (conj Hn (decimal_fuel n Hn))) as P.
  destruct (digits_acc_head (Z.to_nat (Z.log2 n)) n "" Hn) as (k & r & Hk & E).
  unfold decimal. rewrite E in *.
  destruct (digit_plain k Hk) as (Hs & Hm & Hp).
  cbn [trim_start]. rewrite Hs.
  destruct (digit k) as [[] [] [] [] [] [] [] []] eqn:D;
    try exact P; exfalso; (apply Hm; reflexivity) || (apply Hp; reflexivity).
Qed.

(** [parseInt(String(n), 10)] is [n]. *)
Lemma parseInt_Number_toString (n : Z) :
  parseInt_string (Number_toString n) = Some n.
Proof.
  unfold Number_toString. destruct (Z.ltb_spec n 0) as [Hneg | Hpos].
  - pose proof (parseInt_string_decimal (- n) ltac:(lia)) as P.
    destruct (digits_acc_head (Z.to_nat (Z.log2 (- n))) (- n) "" ltac:(lia))
      as (k & r & Hk & E).
    unfold decimal in *. rewrite E in *.
    destruct (digit_plain k Hk) as (Hs & Hm & Hp).
    unfold parseInt_string in *. cbn [append trim_start] in *. rewrite Hs in P.
    change (is_space "-") with false. cbv iota.
    assert (parse_digits (String (digit k) r) None = Some (- n)) as Q.
    { destruct (digit k) as [[] [] [] [] [] [] [] []] eqn:D;
        try exact P; exfalso; (apply Hm; reflexivity) || (apply Hp; reflexivity). }
    rewrite Q. cbn. f_equal. lia.
  - apply parseInt_string_decimal. lia.
Qed.

(** ** The table *)

Lemma has_id_In (id : string) (db : Table) :
  has_id id db = true <-> In id (ids db).
Proof.
  unfold has_id, ids. rewrite existsb_exists, in_map_iff.
  split; intros (r & H1 & H2); exists r.
  - apply String.eqb_eq in H2. auto.
  - subst. rewrite String.eqb_refl. auto.
Qed.

Lemma update_checkout_ids (t : Z) (id : string) (db : Table) :
  ids (update_checkout t id db) = ids db.
Proof.
  unfold ids, update_checkout. rewrite map_map. apply map_ext.
  intros r. destruct (row_id r =? id)%string; reflexivity.
Qed.

Lemma update_checkout_unknown (t : Z) (id : string) (db : Table) :
  has_id id db = false -> update_checkout t id db = db.
Proof.
  unfold has_id, update_checkout. induction db as [| r db IH]; cbn; [reflexivity |].
  intros H. apply orb_false_elim in H as [Hr Hdb].
  rewrite Hr, IH by assumption. reflexivity.
Qed.

Lemma find_update_checkout_same (t : Z) (id : string) (db : Table) (r : Visitor) :
  find_visitor id db = Some r ->
  find_visitor id (update_checkout t id db) = Some (set_checkout t r).
Proof.
  unfold find_visitor, update_checkout. induction db as [| x db IH]; cbn; [discriminate |].
  destruct (row_id x =? id)%string eqn:E.
  - intros [= ->]. cbn. rewrite E. reflexivity.
  - rewrite E. exact IH.
Qed.

Lemma find_update_checkout_other (t : Z) (id id' : string) (db : Table) :
  id' <> id ->
  find_visitor id' (update_checkout t id db) = find_visitor id' db.
Proof.
  intros Hne. unfold find_visitor, update_checkout.
  induction db as [| x db IH]; cbn; [reflexivity |].
  destruct (row_id x =? id)%string eqn:E.
  - apply String.eqb_eq in E. cbn.
    destruct (row_id x =? id')%string eqn:E'.
    + apply String.eqb_eq in E'. congruence.
    + exact IH.
  - destruct (row_id x =? id')%string; [reflexivity | exact IH].
Qed.

Lemma find_visitor_app_old (id : string) (db : Table) (r : Visitor) :
  row_id r <> id -> find_visitor id (db ++ [r]) = find_visitor id db.
Proof.
  intros Hne. unfold find_visitor. induction db as [| x db IH]; cbn.
  - destruct (row_id r =? id)%string eqn:E; [| reflexivity].
    apply String.eqb_eq in E. contradiction.
  - destruct (row_id x =? id)%string; [reflexivity | exact IH].
Qed.

Lemma find_visitor_app_new (db : Table) (r : Visitor) :
  has_id (row_id r) db = false -> find_visitor (row_id r) (db ++ [r]) = Some r.
Proof.
  unfold find_visitor, has_id. induction db as [| x db IH]; cbn.
  - intros _. rewrite String.eqb_refl. reflexivity.
  - intros H. apply orb_false_elim in H as [Hx Hdb]. rewrite Hx. auto.
Qed.

Lemma find_visitor_has_id (id : string) (db : Table) (r : Visitor) :
  find_visitor id db = Some r -> has_id id db = true /\ row_id r = id.
Proof.
  unfold find_visitor, has_id. intros H.
  pose proof (find_some _ _ H) as [Hin E].
  split; [| apply String.eqb_eq; exact E].
  apply existsb_exists. eauto.
Qed.

(** ** Creation *)

Section ServerFacts.

Variable jwt_verify : string -> option JsVal.

Lemma truthy_bind_text (v : JsVal) :
  truthy v = true -> exists s, bind_text v = Some s.
Proof. destruct v; cbn; try discriminate; eauto. Qed.

(** What a create request does, case by case: either the row is appended and
    the answer is 200, or the table is untouched and the answer is 400 or
    500. *)
Lemma post_visitors_cases (env : Env) (req : Request) (db : Table) :
  let out := post_visitors jwt_verify env req db in
  (exists r c photoUrl,
      upload req <> MultipartErr /\
      truthy (name (body req)) = true /\
      photoUrl_of env req = Some photoUrl /\
      has_id (uuid_row env) db = false /\
      checkin_of env (checkin_time (body req)) = Some c /\
      out = (ok (CreatedJson (uuid_row env) (name (body req)) (phone (body req))
                   (address (body req)) (purpose (body req)) (company (body req))
                   (personToMeet (body req)) (photoAbsolute (base req) photoUrl) c),
             (db ++ [r])%list) /\
      row_id r = uuid_row env /\
      bind_text (name (body req)) = Some (row_name r) /\
      row_checkin_time r = c /\
      row_checkout_time r = None /\
      row_created_by r = bind_text (created_by_of jwt_verify req))
  \/ (snd out = db /\ fst out = fail 400 "name required" /\
      truthy (name (body req)) = false /\ upload req <> MultipartErr)
  \/ (snd out = db /\ fst out = fail 500 "internal error" /\
      (upload req = MultipartErr \/
       truthy (name (body req)) = true /\
       (photoUrl_of env req = None \/ has_id (uuid_row env) db = true \/
        checkin_of env (checkin_time (body req)) = None))).
Proof.
  cbv zeta. unfold post_visitors.
  destruct (upload req) eqn:U;
    try (right; right; repeat split; auto; fail).
  all: destruct (truthy (name (body req))) eqn:N; cbn [negb];
    [| right; left; repeat split; auto; discriminate ].
  all: destruct (photoUrl_of env req) as [photoUrl |] eqn:P;
    [| right; right; repeat split; auto ].
  all: destruct (truthy_bind_text _ N) as (s & B).
  all: unfold insert_visitor; rewrite B.
  all: destruct (checkin_of env (checkin_time (body req))) as [c |] eqn:C;
    [| right; right; repeat split; auto ].
  all: destruct (has_id (uuid_row env) db) eqn:H;
    [ right; right; repeat split; auto |].
  all: left; eexists; exists c, photoUrl;
    repeat split; try reflexivity; try discriminate; auto.
Qed.

(** A create request with a truthy name is accepted when its upload, its
    photo step and the insert succeed. *)
Lemma post_visitors_accepts (env : Env) (req : Request) (db : Table) :
  upload req <> MultipartErr ->
  truthy (name (body req)) = true ->
  photoUrl_of env req <> None ->
  has_id (uuid_row env) db = false ->
  checkin_of env (checkin_time (body req)) <> None ->
  status (fst (post_visitors jwt_verify env req db)) = 200.
Proof.
  intros U N P H C.
  destruct (post_visitors_cases env req db)
    as [(r & c & p & _ & _ & _ & _ & _ & E & _)
       | [(_ & _ & N' & _) | (_ & _ & [U' | (_ & [P' | [H' | C']])])]];
    try congruence.
  rewrite E. reflexivity.
Qed.

End ServerFacts.

Section Lifecycle.

Variable jwt_verify : string -> option JsVal.

Lemma find_visitor_app_keep (id : string) (db l : Table) (r : Visitor) :
  find_visitor id db = Some r -> find_visitor id (db ++ l) = Some r.
Proof.
  unfold find_visitor. induction db as [| x db IH]; cbn; [discriminate |].
  destruct (row_id x =? id)%string; auto.
Qed.

Lemma post_visitors_keeps (env : Env) (req : Request) (db : Table)
    (id : string) (r : Visitor) :
  find_visitor id db = Some r ->
  find_visitor id (snd (post_visitors jwt_verify env req db)) = Some r.
Proof.
  intros F.
  destruct (post_visitors_cases jwt_verify env req db)
    as [(r' & c & p & _ & _ & _ & _ & _ & E & _) | [(E & _) | (E & _)]];
    rewrite E; cbn [snd]; auto using find_visitor_app_keep.
Qed.

Lemma post_checkout_authorized (env : Env) (req : Request) (db : Table) :
  authMiddleware jwt_verify req = None ->
  post_checkout jwt_verify env req db =
  (ok (CheckoutJson (params_id req) (now_seconds env)),
   update_checkout (now_seconds env) (params_id req) db).
Proof. intros A. unfold post_checkout. rewrite A. reflexivity. Qed.

Lemma post_checkout_other (env : Env) (req : Request) (db : Table) (id : string) :
  params_id req <> id ->
  find_visitor id (snd (post_checkout jwt_verify env req db)) = find_visitor id db.
Proof.
  intros Hne. unfold post_checkout.
  destruct (authMiddleware jwt_verify req); cbn [snd]; [reflexivity |].
  apply find_update_checkout_other. congruence.
Qed.

Lemma serve_keeps (calls : list Call) :
  forall (db : Table) (id : string) (r : Visitor),
    forallb (fun c => negb (is_checkout_of id c)) calls = true ->
    find_visitor id db = Some r ->
    find_visitor id (serve jwt_verify calls db) = Some r.
Proof.
  induction calls as [| c calls IH]; intros db id r Hno F; cbn; [exact F |].
  cbn in Hno. apply andb_prop in Hno as [Hc Hrest].
  apply IH; [exact Hrest |].
  destruct c as [env req | env req]; cbn [handle].
  - apply post_visitors_keeps. exact F.
  - rewrite post_checkout_other; [exact F |].
    cbn in Hc. apply negb_true_iff in Hc. apply String.eqb_neq. exact Hc.
Qed.

Lemma now_seconds_mono (invoked : Z) (env : Env) :
  invoked <= Date_now env -> invoked / 1000 <= now_seconds env.
Proof. intros H. unfold now_seconds. apply Z.div_le_mono; lia. Qed.

End Lifecycle.

(** ** Claims on creation and checkout *)

(** C1, as the claim states it, fails: a create request that carries
    [checkin_time: 86400] persists 86400, while the server clock reads
    1700000000 seconds, which is what the same request without the field
    persists. *)
Lemma client_checkin_time_is_persisted :
  map row_checkin_time
    (snd (post_visitors sample_verify sample_env
            (create_request None (body_named (JStr "Alice") (JNum 86400))) []))
  = [86400]
  /\ map row_checkin_time
       (snd (post_visitors sample_verify sample_env
               (create_request None (body_named (JStr "Alice") JUndefined)) []))
     = [1700000000]
  /\ now_seconds sample_env = 1700000000.
Proof. repeat split; reflexivity. Qed.

(** C1, amended: an accepted create request persists one new row whose
    [checkin_time] is [parseInt(checkin_time, 10)] when the body carries a
    truthy [checkin_time], and the server time in epoch seconds when it
    carries none (or a falsy one). *)
Theorem post_visitors_checkin_time
    (jwt_verify : string -> option JsVal) (env : Env) (req : Request) (db : Table) :
  status (fst (post_visitors jwt_verify env req db)) = 200 ->
  exists r,
    snd (post_visitors jwt_verify env req db) = (db ++ [r])%list /\
    (truthy (checkin_time (body req)) = true ->
       parseInt (checkin_time (body req)) = Some (row_checkin_time r)) /\
    (truthy (checkin_time (body req)) = false ->
       row_checkin_time r = now_seconds env).
Proof.
  intros S.
  destruct (post_visitors_cases jwt_verify env req db)
    as [(r & c & p & _ & _ & _ & _ & C & E & _ & _ & Rc & _)
       | [(_ & E & _) | (_ & E & _)]];
    try (rewrite E in S; discriminate).
  exists r. rewrite E. cbn [snd]. split; [reflexivity |].
  unfold checkin_of in C. subst c.
  split; intros T; rewrite T in C; congruence.
Qed.

Lemma post_visitors_checkin_time_witness :
  exists r,
    snd (post_visitors sample_verify sample_env
           (create_request None (body_named (JStr "Alice") (JStr "86400"))) [alice])
    = ([alice] ++ [r])%list /\
    (truthy (JStr "86400") = true -> parseInt (JStr "86400") = Some (row_checkin_time r)) /\
    (truthy (JStr "86400") = false -> row_checkin_time r = now_seconds sample_env).
Proof.
  apply (post_visitors_checkin_time sample_verify sample_env
           (create_request None (body_named (JStr "Alice") (JStr "86400"))) [alice]).
  reflexivity.
Defined.

(** C2, as the claim states it, fails: an authenticated checkout of an id
    that no row has is answered 200 with the id and a checkout time, not
    with a NotFoundError. *)
Lemma checkout_unknown_id_succeeds :
  has_id "ghost" [alice] = false /\
  post_checkout sample_verify sample_env
    (checkout_request (Some "Bearer good") "ghost") [alice]
  = (ok (CheckoutJson "ghost" 1700000000), [alice]) /\
  error_kind (ok (CheckoutJson "ghost" 1700000000)) = None.
Proof. repeat split; reflexivity. Qed.

(** C2, amended: for every id that does not identify an existing visitor,
    checkout leaves the table unchanged and never answers NotFoundError: an
    authenticated call succeeds with the id and the server time, any other
    call is refused with an AuthError. *)
Theorem post_checkout_unknown_id
    (jwt_verify : string -> option JsVal) (env : Env) (req : Request) (db : Table) :
  has_id (params_id req) db = false ->
  snd (post_checkout jwt_verify env req db) = db /\
  error_kind (fst (post_checkout jwt_verify env req db)) <> Some NotFoundError /\
  (authMiddleware jwt_verify req = None ->
     fst (post_checkout jwt_verify env req db)
     = ok (CheckoutJson (params_id req) (now_seconds env))) /\
  (authMiddleware jwt_verify req <> None ->
     error_kind (fst (post_checkout jwt_verify env req db)) = Some AuthError).
Proof.
  intros H. unfold post_checkout.
  destruct (authMiddleware jwt_verify req) as [rejected |] eqn:A; cbn [fst snd].
  - unfold authMiddleware in A.
    assert (rejected = fail 401 "Missing token" \/ rejected = fail 401 "Invalid token")
      as R.
    { destruct (authorization req) as [auth |]; [| left; congruence].
      destruct (startsWith auth "Bearer "); cbn [negb] in A; [| left; congruence].
      destruct (jwt_verify (slice_from 7 auth)); [discriminate | right; congruence]. }
    split; [reflexivity |].
    destruct R as [-> | ->]; (split; [cbv; discriminate |]);
      (split; [intros X; discriminate X | intros _; reflexivity]).
  - rewrite update_checkout_unknown by exact H.
    split; [reflexivity |]. split; [cbv; discriminate |].
    split; [reflexivity | congruence].
Qed.

Lemma post_checkout_unknown_id_witness :
  snd (post_checkout sample_verify sample_env
         (checkout_request (Some "Bearer good") "ghost") [alice]) = [alice] /\
  error_kind (fst (post_checkout sample_verify sample_env
         (checkout_request (Some "Bearer good") "ghost") [alice])) <> Some NotFoundError /\
  (authMiddleware sample_verify (checkout_request (Some "Bearer good") "ghost") = None ->
     fst (post_checkout sample_verify sample_env
            (checkout_request (Some "Bearer good") "ghost") [alice])
     = ok (CheckoutJson "ghost" (now_seconds sample_env))) /\
  (authMiddleware sample_verify (checkout_request (Some "Bearer good") "ghost") <> None ->
     error_kind (fst (post_checkout sample_verify sample_env
            (checkout_request (Some "Bearer good") "ghost") [alice])) = Some AuthError).
Proof.
  apply (post_checkout_unknown_id sample_verify sample_env
           (checkout_request (Some "Bearer good") "ghost") [alice]).
  reflexivity.
Defined.

(** C3, as the claim states it, fails: a name of three spaces is accepted
    and a row with that name is persisted. *)
Lemma whitespace_name_is_accepted :
  status (fst (post_visitors sample_verify sample_env
                 (create_request None (body_named (JStr "   ") JUndefined)) [])) = 200
  /\ error_kind (fst (post_visitors sample_verify sample_env
                 (create_request None (body_named (JStr "   ") JUndefined)) [])) = None
  /\ map row_name
       (snd (post_visitors sample_verify sample_env
               (create_request None (body_named (JStr "   ") JUndefined)) []))
     = ["   "].
Proof. repeat split; reflexivity. Qed.

(** C3, amended: for every create request whose name is missing or the
    empty string (a falsy name), nothing is persisted, and the request, unless
    its multipart upload failed first, is refused with the ValidationError
    "name required". *)
Theorem post_visitors_empty_name
    (jwt_verify : string -> option JsVal) (env : Env) (req : Request) (db : Table) :
  truthy (name (body req)) = false ->
  snd (post_visitors jwt_verify env req db) = db /\
  (upload req <> MultipartErr ->
     fst (post_visitors jwt_verify env req db) = fail 400 "name required" /\
     error_kind (fst (post_visitors jwt_verify env req db)) = Some ValidationError).
Proof.
  intros N.
  destruct (post_visitors_cases jwt_verify env req db)
    as [(r & c & p & _ & N' & _) | [(E & F & _) | (E & F & [U | (N' & _)])]];
    try congruence.
  - split; [exact E |]. intros _. rewrite F. split; reflexivity.
  - split; [exact E |]. intros U'. contradiction.
Qed.

Lemma post_visitors_empty_name_witness :
  snd (post_visitors sample_verify sample_env
         (create_request None (body_named (JStr "") JUndefined)) [alice]) = [alice] /\
  (upload (create_request None (body_named (JStr "") JUndefined)) <> MultipartErr ->
     fst (post_visitors sample_verify sample_env
            (create_request None (body_named (JStr "") JUndefined)) [alice])
     = fail 400 "name required" /\
     error_kind (fst (post_visitors sample_verify sample_env
            (create_request None (body_named (JStr "") JUndefined)) [alice]))
     = Some ValidationError).
Proof.
  apply (post_visitors_empty_name sample_verify sample_env
           (create_request None (body_named (JStr "") JUndefined)) [alice]).
  reflexivity.
Defined.

(** C6: checkout is not idempotent.  For every visitor that has already
    been checked out, a further authenticated checkout succeeds and the row
    then holds the server time of that call as its [checkout_time], whatever
    it held before; nothing else in the row changes, and the time is not
    earlier than the stored one when the clock has not gone back. *)
Theorem post_checkout_overwrites
    (jwt_verify : string -> option JsVal) (env : Env) (req : Request)
    (db : Table) (r : Visitor) (t0 : Z) :
  authMiddleware jwt_verify req = None ->
  find_visitor (params_id req) db = Some r ->
  row_checkout_time r = Some t0 ->
  fst (post_checkout jwt_verify env req db)
    = ok (CheckoutJson (params_id req) (now_seconds env)) /\
  error_kind (fst (post_checkout jwt_verify env req db)) = None /\
  find_visitor (params_id req) (snd (post_checkout jwt_verify env req db))
    = Some (set_checkout (now_seconds env) r) /\
  row_checkout_time (set_checkout (now_seconds env) r) = Some (now_seconds env) /\
  (now_seconds env <> t0 -> set_checkout (now_seconds env) r <> r) /\
  (t0 * 1000 <= Date_now env -> t0 <= now_seconds env).
Proof.
  intros A F T. rewrite (post_checkout_authorized jwt_verify env req db A).
  cbn [fst snd]. repeat split.
  - apply find_update_checkout_same. exact F.
  - intros Hne E. apply Hne.
    assert (row_checkout_time (set_checkout (now_seconds env) r) = Some t0) as X
      by (rewrite E; exact T).
    cbn in X. congruence.
  - intros H. unfold now_seconds. apply Z.div_le_lower_bound; lia.
Qed.

Lemma post_checkout_overwrites_witness :
  fst (post_checkout sample_verify (mkEnv 1700000360999 "f-2" "v-2" true 0)
         (checkout_request (Some "Bearer good") "a-1") [set_checkout 1700000300 alice])
    = ok (CheckoutJson "a-1" 1700000360) /\
  find_visitor "a-1"
    (snd (post_checkout sample_verify (mkEnv 1700000360999 "f-2" "v-2" true 0)
            (checkout_request (Some "Bearer good") "a-1") [set_checkout 1700000300 alice]))
    = Some (set_checkout 1700000360 alice).
Proof.
  destruct (post_checkout_overwrites sample_verify
              (mkEnv 1700000360999 "f-2" "v-2" true 0)
              (checkout_request (Some "Bearer good") "a-1")
              [set_checkout 1700000300 alice] (set_checkout 1700000300 alice)
              1700000300 eq_refl eq_refl eq_refl) as (R & _ & F & _).
  split; [exact R | exact F].
Defined.

(** C7: every row that an accepted create request persists carries the
    freshly drawn id, which no earlier row has (so ids stay pairwise
    distinct), and a null [checkout_time]; the row stays as it is through any
    sequence of creates and of checkouts of other ids; and an authenticated
    checkout of its id then sets [checkout_time] to a value that is at least
    the time, in epoch seconds, at which that call was invoked. *)
Theorem created_visitor_lifecycle
    (jwt_verify : string -> option JsVal) (env : Env) (req : Request) (db : Table) :
  status (fst (post_visitors jwt_verify env req db)) = 200 ->
  exists r,
    snd (post_visitors jwt_verify env req db) = (db ++ [r])%list /\
    row_id r = uuid_row env /\
    ~ In (row_id r) (ids db) /\
    (NoDup (ids db) -> NoDup (ids (db ++ [r]))) /\
    row_checkout_time r = None /\
    (forall calls,
        forallb (fun c => negb (is_checkout_of (row_id r) c)) calls = true ->
        find_visitor (row_id r) (serve jwt_verify calls (db ++ [r])) = Some r) /\
    (forall calls env' req' invoked,
        forallb (fun c => negb (is_checkout_of (row_id r) c)) calls = true ->
        params_id req' = row_id r ->
        authMiddleware jwt_verify req' = None ->
        invoked <= Date_now env' ->
        exists t,
          find_visitor (row_id r)
            (snd (post_checkout jwt_verify env' req'
                    (serve jwt_verify calls (db ++ [r]))))
          = Some (set_checkout t r) /\
          row_checkout_time (set_checkout t r) = Some t /\
          invoked / 1000 <= t).
Proof.
  intros S.
  destruct (post_visitors_cases jwt_verify env req db)
    as [(r & c & p & _ & _ & _ & Hfresh & _ & E & Rid & _ & _ & Rco & _)
       | [(_ & E & _) | (_ & E & _)]];
    try (rewrite E in S; discriminate).
  exists r. rewrite E. cbn [snd].
  assert (~ In (row_id r) (ids db)) as Hnot.
  { rewrite Rid, <- has_id_In, Hfresh. discriminate. }
  assert (has_id (row_id r) db = false) as Hfresh' by (rewrite Rid; exact Hfresh).
  assert (forall calls,
             forallb (fun c => negb (is_checkout_of (row_id r) c)) calls = true ->
             find_visitor (row_id r) (serve jwt_verify calls (db ++ [r])) = Some r)
    as Hkeep.
  { intros calls Hno. apply serve_keeps; [exact Hno |].
    apply find_visitor_app_new. exact Hfresh'. }
  repeat split; auto.
  - intros ND. unfold ids. rewrite map_app. cbn [map].
    apply NoDup_app; auto.
    + constructor; [intros [] | constructor].
    + intros a Ha [<- | []]. contradiction.
  - intros calls env' req' invoked Hno Hid A Hinv.
    exists (now_seconds env').
    rewrite (post_checkout_authorized jwt_verify env' req' _ A). cbn [snd].
    rewrite Hid. repeat split.
    + apply find_update_checkout_same. apply Hkeep. exact Hno.
    + apply now_seconds_mono. exact Hinv.
Qed.

Lemma created_visitor_lifecycle_witness :
  exists r,
    snd (post_visitors sample_verify sample_env
           (create_request None (body_named (JStr "Bob") JUndefined)) [alice])
    = ([alice] ++ [r])%list /\
    row_id r = "v-1" /\
    row_checkout_time r = None /\
    exists t,
      find_visitor (row_id r)
        (snd (post_checkout sample_verify (mkEnv 1700000360999 "f-2" "v-2" true 0)
                (checkout_request (Some "Bearer good") (row_id r))
                (serve sample_verify
                   [Checkout sample_env (checkout_request (Some "Bearer good") "a-1")]
                   ([alice] ++ [r]))))
      = Some (set_checkout t r) /\
      1700000360000 / 1000 <= t.
Proof.
  destruct (created_visitor_lifecycle sample_verify sample_env
              (create_request None (body_named (JStr "Bob") JUndefined)) [alice]
              eq_refl) as (r & E & Rid & _ & _ & Rco & _ & Hout).
  exists r. repeat split; auto.
  destruct (Hout [Checkout sample_env (checkout_request (Some "Bearer good") "a-1")]
              (mkEnv 1700000360999 "f-2" "v-2" true 0)
              (checkout_request (Some "Bearer good") (row_id r)) 1700000360000)
    as (t & F & _ & Ht).
  - cbn. rewrite Rid. reflexivity.
  - reflexivity.
  - reflexivity.
  - cbn. lia.
  - exists t. split; [exact F | exact Ht].
Defined.

(** C10: a create request whose bearer token fails verification is served
    exactly as the same request without a token: the failure is swallowed, the
    answer is never an AuthError, and when the request is otherwise acceptable
    (a truthy name, the photo step and the insert succeed) the visitor is
    created and persisted with a null [created_by]. *)
Theorem post_visitors_swallows_token_error
    (jwt_verify : string -> option JsVal) (env : Env) (req : Request) (db : Table)
    (token : string) :
  authorization req = Some ("Bearer " ++ token) ->
  jwt_verify token = None ->
  post_visitors jwt_verify env req db
    = post_visitors jwt_verify env (without_authorization req) db /\
  error_kind (fst (post_visitors jwt_verify env req db)) <> Some AuthError /\
  (upload req <> MultipartErr ->
   truthy (name (body req)) = true ->
   photoUrl_of env req <> None ->
   has_id (uuid_row env) db = false ->
   checkin_of env (checkin_time (body req)) <> None ->
   exists r,
     status (fst (post_visitors jwt_verify env req db)) = 200 /\
     snd (post_visitors jwt_verify env req db) = (db ++ [r])%list /\
     row_created_by r = None).
Proof.
  intros A V.
  assert (created_by_of jwt_verify req = JNull) as CB.
  { unfold created_by_of. rewrite A.
    change (startsWith ("Bearer " ++ token) "Bearer ") with (String.prefix "" token).
    change (slice_from 7 ("Bearer " ++ token)) with token.
    rewrite V. destruct (String.prefix "" token); reflexivity. }
  split; [| split].
  - unfold post_visitors. rewrite CB. reflexivity.
  - destruct (post_visitors_cases jwt_verify env req db)
      as [(r & c & p & _ & _ & _ & _ & _ & E & _) | [(_ & E & _) | (_ & E & _)]];
      rewrite E; cbv; discriminate.
  - intros U N P H C.
    destruct (post_visitors_cases jwt_verify env req db)
      as [(r & c & p & _ & _ & _ & _ & _ & E & _ & _ & _ & _ & Rcb)
         | [(_ & _ & N' & _) | (_ & _ & [U' | (_ & [P' | [H' | C']])])]];
      try congruence.
    exists r. rewrite E. cbn [fst snd]. repeat split.
    rewrite Rcb, CB. reflexivity.
Qed.

Lemma post_visitors_swallows_token_error_witness :
  post_visitors sample_verify sample_env
    (create_request (Some "Bearer expired") (body_named (JStr "Carol") JUndefined)) [alice]
  = post_visitors sample_verify sample_env
      (without_authorization
         (create_request (Some "Bearer expired") (body_named (JStr "Carol") JUndefined)))
      [alice]
  /\ exists r,
       snd (post_visitors sample_verify sample_env
              (create_request (Some "Bearer expired")
                 (body_named (JStr "Carol") JUndefined)) [alice])
       = ([alice] ++ [r])%list /\
       row_created_by r = None.
Proof.
  destruct (post_visitors_swallows_token_error sample_verify sample_env
              (create_request (Some "Bearer expired")
                 (body_named (JStr "Carol") JUndefined))
              [alice] "expired" eq_refl eq_refl) as (E & _ & C).
  split; [exact E |].
  destruct C as (r & _ & D & B); try discriminate; try reflexivity.
  exists r. split; [exact D | exact B].
Defined.

(** ** The list *)

Lemma insert_desc_perm (r : Visitor) (l : list Visitor) :
  Permutation (r :: l) (insert_desc r l).
Proof.
  induction l as [| h t IH]; cbn; [reflexivity |].
  destruct (row_checkin_time h <=? row_checkin_time r); [reflexivity |].
  rewrite perm_swap. apply perm_skip. exact IH.
Qed.

Lemma order_by_checkin_desc_perm (l : list Visitor) :
  Permutation l (order_by_checkin_desc l).
Proof.
  induction l as [| r l IH]; cbn; [reflexivity |].
  rewrite <- insert_desc_perm. apply perm_skip. exact IH.
Qed.

Lemma insert_desc_sorted (r : Visitor) (l : list Visitor) :
  StronglySorted desc l -> StronglySorted desc (insert_desc r l).
Proof.
  induction l as [| h t IH]; intros S; cbn.
  - repeat constructor.
  - apply StronglySorted_inv in S as [St Hh].
    destruct (Z.leb_spec (row_checkin_time h) (row_checkin_time r)) as [Hle | Hgt].
    + constructor; [constructor; assumption |].
      constructor; [exact Hle |].
      eapply Forall_impl; [| exact Hh]. unfold desc. intros a Ha. lia.
    + constructor; [apply IH; exact St |].
      eapply Permutation_Forall; [apply insert_desc_perm |].
      constructor; [unfold desc; lia | exact Hh].
Qed.

Lemma order_by_checkin_desc_sorted (l : list Visitor) :
  StronglySorted desc (order_by_checkin_desc l).
Proof.
  induction l as [| r l IH]; cbn; [constructor |].
  apply insert_desc_sorted. exact IH.
Qed.

Lemma parseInt_query_or (q : option string) (d : Z) :
  parseInt_string (query_or q (Number_toString d)) = bound_of q d.
Proof.
  unfold query_or, bound_of. destruct q as [s |].
  - destruct (s =? "")%string; [apply parseInt_Number_toString | reflexivity].
  - apply parseInt_Number_toString.
Qed.

(** C5, as the claim states it, fails: a visitor created with a check-in
    time in milliseconds is stored as given; its normalised check-in time,
    1700000000, lies in the default bounds [0, now], and the list leaves it
    out. *)
Lemma list_compares_stored_times :
  let db := snd (post_visitors sample_verify sample_env
                   (create_request None
                      (body_named (JStr "Alice") (JNum 1700000000000))) []) in
  map row_checkin_time db = [1700000000000] /\
  normalize_checkin_time no_Date_parse (JNum 1700000000000) = JNum 1700000000 /\
  0 <= 1700000000 <= now_seconds sample_env /\
  get_visitors sample_verify sample_env
    (list_request (Some "Bearer good") no_query) db
  = ok (VisitorsJson []).
Proof. cbv zeta. repeat split; try reflexivity; cbv; discriminate. Qed.

(** C5, amended: the list returns exactly the visitors whose stored
    [checkin_time], as it is in the table and not normalised, lies within the
    inclusive bounds [from, to] (0 and now when a bound is omitted), in
    descending order of [checkin_time]. *)
Theorem get_visitors_between
    (jwt_verify : string -> option JsVal) (env : Env) (req : Request) (db : Table)
    (from to : Z) :
  authMiddleware jwt_verify req = None ->
  bound_of (q_from (query req)) 0 = Some from ->
  bound_of (q_to (query req)) (now_seconds env) = Some to ->
  exists rows,
    get_visitors jwt_verify env req db
      = ok (VisitorsJson (map (resolve_photo (base req)) rows)) /\
    map row (map (resolve_photo (base req)) rows) = rows /\
    Permutation rows
      (filter (fun r => (from <=? row_checkin_time r) && (row_checkin_time r <=? to)) db) /\
    (forall r, In r rows <-> In r db /\ from <= row_checkin_time r <= to) /\
    StronglySorted desc rows.
Proof.
  intros A F T. unfold get_visitors. rewrite A.
  change "0" with (Number_toString 0). rewrite !parseInt_query_or, F, T.
  exists (select_between (Some from) (Some to) db).
  assert (Permutation (select_between (Some from) (Some to) db)
            (filter (fun r => (from <=? row_checkin_time r)
                              && (row_checkin_time r <=? to)) db)) as P.
  { symmetry. apply order_by_checkin_desc_perm. }
  split; [reflexivity |]. split; [| split; [exact P | split]].
  - rewrite map_map. cbn. apply map_id.
  - intros r. split.
    + intros Hin. apply (Permutation_in _ P) in Hin.
      apply filter_In in Hin as [Hin Hb]. split; [exact Hin | lia].
    + intros [Hin Hb]. apply (Permutation_in _ (Permutation_sym P)).
      apply filter_In. split; [exact Hin | lia].
  - apply order_by_checkin_desc_sorted.
Qed.

Lemma get_visitors_between_witness :
  exists rows,
    get_visitors sample_verify sample_env
      (list_request (Some "Bearer good") (mkQuery (Some "1700000000") None None None))
      [set_checkout 5 alice; alice]
      = ok (VisitorsJson (map (resolve_photo "http://localhost:4000") rows)) /\
    (forall r, In r rows <->
               In r [set_checkout 5 alice; alice] /\
               1700000000 <= row_checkin_time r <= 1700000000).
Proof.
  destruct (get_visitors_between sample_verify sample_env
              (list_request (Some "Bearer good") (mkQuery (Some "1700000000") None None None))
              [set_checkout 5 alice; alice] 1700000000 1700000000
              eq_refl eq_refl eq_refl) as (rows & E & _ & _ & I & _).
  exists rows. split; [exact E | exact I].
Defined.

(** ** The normalisation of timestamps *)

(** C4, as the claim states it, fails on a checkout time: the number 0,
    which is at most 10,000,000,000, is not returned unchanged but
    normalised to null. *)
Lemma checkout_time_zero_becomes_null :
  0 <= 10000000000 /\
  normalize_checkout_time no_Date_parse (JNum 0) = JNull /\
  JNull <> JNum 0.
Proof. repeat split; [cbv; discriminate | discriminate]. Qed.

Lemma normalize_checkin_time_seconds (Date_parse : string -> option Z) (t : Z) :
  t <= 10000000000 -> normalize_checkin_time Date_parse (JNum t) = JNum t.
Proof.
  intros Hle. unfold normalize_checkin_time, js_or.
  assert ((10000000000 <? t) = false) as L by (apply Z.ltb_ge; lia).
  rewrite L. cbn [truthy].
  destruct (Z.eqb_spec t 0) as [-> | Hnz]; reflexivity.
Qed.

Lemma normalize_checkout_time_seconds (Date_parse : string -> option Z) (t : Z) :
  t <= 10000000000 ->
  normalize_checkout_time Date_parse (JNum t) = if t =? 0 then JNull else JNum t.
Proof.
  intros Hle. unfold normalize_checkout_time, js_or.
  assert ((10000000000 <? t) = false) as L by (apply Z.ltb_ge; lia).
  rewrite L. cbn [truthy].
  destruct (Z.eqb_spec t 0) as [-> | Hnz]; cbn [negb truthy]; [reflexivity |].
  destruct (Z.eqb_spec t 0); [contradiction | reflexivity].
Qed.

(** C4, amended: for every numeric timestamp [t] with [t <= 10,000,000,000],
    normalising it as a check-in time returns [t] unchanged, and normalising
    it as a checkout time returns [t] unchanged unless [t] is 0, which becomes
    null; for every numeric [t > 10,000,000,000] both normalisations yield
    [floor(t / 1000)].  Hence a value that is at most 10,000,000,000 is left as
    it is by a further normalisation. *)
Theorem normalize_number (Date_parse : string -> option Z) (t : Z) :
  (t <= 10000000000 ->
     normalize_checkin_time Date_parse (JNum t) = JNum t /\
     (t <> 0 -> normalize_checkout_time Date_parse (JNum t) = JNum t) /\
     (t = 0 -> normalize_checkout_time Date_parse (JNum t) = JNull) /\
     normalize_checkin_time Date_parse (normalize_checkin_time Date_parse (JNum t))
       = normalize_checkin_time Date_parse (JNum t)) /\
  (10000000000 < t ->
     normalize_checkin_time Date_parse (JNum t) = JNum (t / 1000) /\
     normalize_checkout_time Date_parse (JNum t) = JNum (t / 1000)).
Proof.
  split.
  - intros Hle.
    rewrite !normalize_checkin_time_seconds, normalize_checkout_time_seconds by exact Hle.
    repeat split.
    + intros Hnz. destruct (Z.eqb_spec t 0); [contradiction | reflexivity].
    + intros ->. reflexivity.
  - intros Hgt. unfold normalize_checkin_time, normalize_checkout_time, js_or.
    assert ((10000000000 <? t) = true) as L by (apply Z.ltb_lt; lia).
    assert ((t =? 0) = false) as Z by (apply Z.eqb_neq; lia).
    assert ((t / 1000 =? 0) = false) as Q.
    { apply Z.eqb_neq.
      assert (10000000 <= t / 1000) by (apply Z.div_le_lower_bound; lia). lia. }
    cbn [truthy]. rewrite L, Z. cbn [negb truthy]. rewrite Q. split; reflexivity.
Qed.

Lemma normalize_number_witness :
  normalize_checkin_time no_Date_parse (JNum 1700000000) = JNum 1700000000 /\
  normalize_checkout_time no_Date_parse (JNum 1700000000) = JNum 1700000000 /\
  normalize_checkin_time no_Date_parse (JNum 1700000000123) = JNum 1700000000 /\
  normalize_checkout_time no_Date_parse (JNum 1700000000123) = JNum 1700000000.
Proof.
  destruct (normalize_number no_Date_parse 1700000000) as [Hs _].
  destruct (normalize_number no_Date_parse 1700000000123) as [_ Hm].
  assert (1700000000 <= 10000000000) as Hle by lia.
  assert (10000000000 < 1700000000123) as Hgt by lia.
  destruct (Hs Hle) as (A & B & _).
  destruct (Hm Hgt) as (C & D).
  split; [exact A | split; [apply B; lia | split; [exact C | exact D]]].
Defined.

(** A second normalisation does change a result that is still above the
    threshold: 10^14 becomes 10^11 and then 10^8. *)
Lemma normalize_twice_above_threshold :
  normalize_checkin_time no_Date_parse (JNum 100000000000000) = JNum 100000000000 /\
  normalize_checkin_time no_Date_parse (JNum 100000000000) = JNum 100000000.
Proof. split; reflexivity. Qed.

(** ** The calendar *)

Lemma yoe_of_doe_year_start (yoe doy : Z) :
  0 <= yoe < 400 -> 0 <= doy <= 364 -> yoe_of_doe (year_start yoe + doy) = yoe.
Proof.
  intros Hy Hd. unfold yoe_of_doe, year_start. Z.div_mod_to_equations; lia.
Qed.

Lemma doy_range (doe : Z) :
  0 <= doe < 146097 -> 0 <= doe - year_start (yoe_of_doe doe) <= 365.
Proof.
  intros H. unfold yoe_of_doe, year_start. Z.div_mod_to_equations; lia.
Qed.

Lemma year_start_range (yoe : Z) :
  0 <= yoe < 400 -> 0 <= year_start yoe /\ year_start yoe + 364 < 146097.
Proof.
  intros H. unfold year_start. Z.div_mod_to_equations; lia.
Qed.

Lemma month_start_inverse (mp : Z) :
  0 <= mp <= 11 ->
  0 <= month_start mp <= 337 /\ (5 * month_start mp + 2) / 153 = mp.
Proof.
  intros H. unfold month_start. Z.div_mod_to_equations; lia.
Qed.

(** The month of any day is one of the twelve. *)
Lemma civil_from_days_month (z : Z) :
  1 <= snd (fst (civil_from_days z)) <= 12.
Proof.
  unfold civil_from_days.
  pose proof (Z.mod_pos_bound (z + 719468) 146097 ltac:(lia)) as Hdoe.
  pose proof (doy_range _ Hdoe) as Hdoy.
  unfold civil_of_doe. cbv zeta. cbn [fst snd].
  set (doy := (z + 719468) mod 146097 - year_start (yoe_of_doe ((z + 719468) mod 146097))) in *.
  assert (0 <= (5 * doy + 2) / 153 <= 11) as Hmp
    by (Z.div_mod_to_equations; lia).
  destruct (Z.ltb_spec ((5 * doy + 2) / 153) 10); lia.
Qed.

(** The first day of month [m] of year [yoe] of an era is read back as such. *)
Lemma civil_of_doe_first (yoe m : Z) :
  0 <= yoe < 400 -> 1 <= m <= 12 ->
  0 <= doe_of_civil yoe m 1 < 146097 /\
  civil_of_doe (doe_of_civil yoe m 1) = (yoe + (if m <=? 2 then 1 else 0), m, 1).
Proof.
  intros Hy Hm. unfold doe_of_civil.
  set (mp := if 2 <? m then m - 3 else m + 9).
  assert (0 <= mp <= 11) as Hmp by (subst mp; destruct (Z.ltb_spec 2 m); lia).
  assert ((if mp <? 10 then mp + 3 else mp - 9) = m) as Hback.
  { subst mp. destruct (Z.ltb_spec 2 m);
      match goal with |- context [?a <? 10] => destruct (Z.ltb_spec a 10) end; lia. }
  destruct (month_start_inverse mp Hmp) as [Hms Hinv].
  destruct (year_start_range yoe Hy) as [Hs0 Hs1].
  split; [lia |].
  unfold civil_of_doe. cbv zeta.
  replace (year_start yoe + month_start mp + 1 - 1)
    with (year_start yoe + month_start mp) by lia.
  rewrite yoe_of_doe_year_start by lia.
  replace (year_start yoe + month_start mp - year_start yoe)
    with (month_start mp) by lia.
  rewrite Hinv, Hback. f_equal. lia.
Qed.

(** The first day of a month is read back as that month of that year. *)
Lemma civil_from_days_first (y m : Z) :
  1 <= m <= 12 -> civil_from_days (days_from_civil y m 1) = (y, m, 1).
Proof.
  intros Hm. unfold civil_from_days, days_from_civil. cbv zeta.
  set (y' := if m <=? 2 then y - 1 else y).
  pose proof (Z.mod_pos_bound y' 400 ltac:(lia)) as Hyoe.
  destruct (civil_of_doe_first (y' mod 400) m Hyoe Hm) as [Hdoe Hciv].
  set (doe := doe_of_civil (y' mod 400) m 1) in *.
  replace (y' / 400 * 146097 + doe - 719468 + 719468)
    with (doe + y' / 400 * 146097) by lia.
  rewrite Z.mod_add, Z.div_add by lia.
  rewrite (Z.mod_small doe), (Z.div_small doe) by lia.
  rewrite Hciv. f_equal. f_equal.
  pose proof (Z.div_mod y' 400 ltac:(lia)).
  subst y'. destruct (Z.leb_spec m 2); lia.
Qed.

Section DateFacts.

Variable zone : Zone.

Lemma new_Date_value (year month date h mi s : Z) :
  ~ (0 <= year <= 99) ->
  new_Date zone year month date h mi s
  = UTC zone ((MakeDay year month date * 86400 + h * 3600 + mi * 60 + s) * 1000).
Proof.
  intros Hy. unfold new_Date.
  destruct (Z.leb_spec 0 year); destruct (Z.leb_spec year 99); cbn [andb];
    try reflexivity; lia.
Qed.

Lemma new_Date_midnight (year month date : Z) :
  ~ (0 <= year <= 99) ->
  new_Date zone year month date 0 0 0 = UTC zone (MakeDay year month date * msPerDay).
Proof.
  intros Hy. rewrite new_Date_value by exact Hy. f_equal. unfold msPerDay. lia.
Qed.

Lemma local_day_new_Date (year month date : Z) :
  ~ (0 <= year <= 99) ->
  day_kept zone (MakeDay year month date) ->
  local_day zone (new_Date zone year month date 0 0 0) = MakeDay year month date.
Proof.
  intros Hy K. rewrite new_Date_midnight by exact Hy. exact K.
Qed.

(** The year and the month of [new Date(year, month, 1)], for a month index
    of any size. *)
Lemma new_Date_first_of_month (year month : Z) :
  ~ (0 <= year <= 99) ->
  day_kept zone (MakeDay year month 1) ->
  getFullYear zone (new_Date zone year month 1 0 0 0) = year + month / 12 /\
  getMonth zone (new_Date zone year month 1 0 0 0) = month mod 12.
Proof.
  intros Hy K. unfold getFullYear, getMonth.
  rewrite local_day_new_Date by assumption. unfold MakeDay.
  replace (days_from_civil (year + month / 12) (month mod 12 + 1) 1 + 1 - 1)
    with (days_from_civil (year + month / 12) (month mod 12 + 1) 1) by lia.
  pose proof (Z.mod_pos_bound month 12 ltac:(lia)).
  rewrite civil_from_days_first by lia. cbn [fst snd]. split; lia.
Qed.

Lemma getMonth_range (t : Z) : 0 <= getMonth zone t <= 11.
Proof.
  unfold getMonth. pose proof (civil_from_days_month (local_day zone t)). lia.
Qed.

End DateFacts.

(** A zone without clock changes keeps every day. *)
Lemma day_kept_fixed (minutes day : Z) : day_kept (fixed_zone minutes) day.
Proof.
  unfold day_kept, local_day, LocalTime, UTC, fixed_zone, msPerDay.
  cbn [LocalTZA_utc LocalTZA_local]. Z.div_mod_to_equations; lia.
Qed.

Lemma day_first_fixed (minutes day : Z) :
  day_first (fixed_zone minutes) day = day * 86400 - minutes * 60.
Proof.
  unfold day_first, UTC, fixed_zone, msPerDay. cbn [LocalTZA_local].
  Z.div_mod_to_equations; lia.
Qed.

Lemma day_last_fixed (minutes day : Z) :
  day_last (fixed_zone minutes) day = day * 86400 + 86399 - minutes * 60.
Proof.
  unfold day_last, UTC, fixed_zone, msPerDay. cbn [LocalTZA_local].
  Z.div_mod_to_equations; lia.
Qed.

(** ** The monthly report *)

Section MonthlyFacts.

Variable zone : Zone.

Lemma MakeDay_index (year month date : Z) :
  MakeDay year month date = month_day (12 * year + month) + date - 1.
Proof.
  unfold MakeDay, month_day.
  replace ((12 * year + month) / 12) with (year + month / 12)
    by (Z.div_mod_to_equations; lia).
  replace ((12 * year + month) mod 12) with (month mod 12)
    by (Z.div_mod_to_equations; lia).
  reflexivity.
Qed.

(** The bounds that the monthly report computes for a month are its first
    and its last second. *)
Lemma month_window (year month : Z) :
  ~ (0 <= year <= 99) ->
  new_Date zone year month 1 0 0 0 / 1000 = month_first zone (12 * year + month) /\
  new_Date zone year (month + 1) 0 23 59 59 / 1000
  = month_last zone (12 * year + month).
Proof.
  intros Hy. rewrite !new_Date_value by exact Hy. rewrite !MakeDay_index.
  unfold month_first, month_last, day_first, day_last.
  replace (12 * year + (month + 1)) with (12 * year + month + 1) by lia.
  split; do 2 f_equal; unfold msPerDay; lia.
Qed.

End MonthlyFacts.

Lemma monthly_entry_index (env : Env) (db : Table) (i : Z) :
  let tz := utc_offset env in
  let j := 12 * getFullYear tz (Date_now env) + getMonth tz (Date_now env) - i in
  1970 <= getFullYear tz (Date_now env) ->
  0 <= i <= 23 ->
  day_kept tz (month_day j) ->
  monthly_entry env db i
  = (label_of j, count_between (month_first tz j) (month_last tz j) db).
Proof.
  cbv zeta. intros HY Hi K. unfold monthly_entry. cbv zeta.
  set (tz := utc_offset env) in *. set (Y := getFullYear tz (Date_now env)) in *.
  set (M := getMonth tz (Date_now env)) in *.
  pose proof (getMonth_range tz (Date_now env)) as HM. fold M in HM.
  assert (~ (0 <= Y <= 99)) as HY' by lia.
  assert (day_kept tz (MakeDay Y (M - i) 1)) as K'.
  { rewrite MakeDay_index.
    replace (month_day (12 * Y + (M - i)) + 1 - 1) with (month_day (12 * Y + M - i));
      [exact K |].
    replace (12 * Y + (M - i)) with (12 * Y + M - i) by lia. lia. }
  destruct (new_Date_first_of_month tz Y (M - i) HY' K') as [Ey Em].
  rewrite Ey, Em.
  assert (12 * (Y + (M - i) / 12) + (M - i) mod 12 = 12 * Y + M - i) as Ej
    by (Z.div_mod_to_equations; lia).
  assert (~ (0 <= Y + (M - i) / 12 <= 99)) as Hq
    by (Z.div_mod_to_equations; lia).
  destruct (month_window tz (Y + (M - i) / 12) ((M - i) mod 12) Hq) as [Es Ee].
  rewrite Es, Ee, Ej. unfold label_of.
  replace ((12 * Y + M - i) / 12) with (Y + (M - i) / 12)
    by (Z.div_mod_to_equations; lia).
  replace ((12 * Y + M - i) mod 12) with ((M - i) mod 12)
    by (Z.div_mod_to_equations; lia).
  reflexivity.
Qed.

(** ** The order of the labels *)

Lemma forall_from_spec (p : Z -> bool) (n : nat) :
  forall z k, forall_from n z p = true -> z <= k < z + Z.of_nat n -> p k = true.
Proof.
  induction n as [| n IH]; intros z k H Hk; [lia |].
  cbn [forall_from] in H. apply andb_prop in H as [Hz Hrest].
  destruct (Z.eq_dec k z) as [-> | Hne]; [exact Hz |].
  apply (IH (z + 1)); [exact Hrest | lia].
Qed.

Lemma year_steps : forall_from (Z.to_nat 8031) 1968 year_step_ok = true.
Proof. vm_compute. reflexivity. Qed.

Lemma year_step (y : Z) :
  1968 <= y < 9999 ->
  String.compare (Number_toString y) (Number_toString (y + 1)) = Lt /\
  String.length (Number_toString y) = 4%nat /\
  String.length (Number_toString (y + 1)) = 4%nat.
Proof.
  intros Hy.
  pose proof (forall_from_spec year_step_ok _ 1968 y year_steps ltac:(lia)) as H.
  unfold year_step_ok in H.
  apply andb_prop in H as [H H3]. apply andb_prop in H as [H1 H2].
  apply Nat.eqb_eq in H2, H3.
  destruct (String.compare (Number_toString y) (Number_toString (y + 1)));
    try discriminate. auto.
Qed.

Lemma ascii_compare_refl (c : ascii) : Ascii.compare c c = Eq.
Proof. unfold Ascii.compare. apply N.compare_refl. Qed.

Lemma compare_app_same (p a b : string) :
  String.compare (p ++ a) (p ++ b) = String.compare a b.
Proof.
  induction p as [| c p IH]; cbn; [reflexivity |].
  rewrite ascii_compare_refl. exact IH.
Qed.

Lemma compare_app_lt (a : string) :
  forall b r r', String.compare a b = Lt -> String.length a = String.length b ->
    String.compare (a ++ r) (b ++ r') = Lt.
Proof.
  induction a as [| x a IH]; intros [| y b] r r' H L; cbn in *; try discriminate.
  destruct (Ascii.compare x y); try discriminate; auto.
Qed.

Lemma compare_lt_trans (a : string) :
  forall b c, String.compare a b = Lt -> String.compare b c = Lt ->
    String.compare a c = Lt.
Proof.
  induction a as [| x a IH]; intros [| y b] [| z c] H1 H2; cbn in *;
    try discriminate; try reflexivity.
  unfold Ascii.compare in *.
  destruct (N.compare_spec (N_of_ascii x) (N_of_ascii y)) as [E1 | L1 | G1];
    try discriminate;
    destruct (N.compare_spec (N_of_ascii y) (N_of_ascii z)) as [E2 | L2 | G2];
    try discriminate.
  - rewrite E1, E2, N.compare_refl. eauto.
  - assert ((N_of_ascii x ?= N_of_ascii z)%N = Lt) as ->
      by (apply N.compare_lt_iff; lia). reflexivity.
  - assert ((N_of_ascii x ?= N_of_ascii z)%N = Lt) as ->
      by (apply N.compare_lt_iff; lia). reflexivity.
  - assert ((N_of_ascii x ?= N_of_ascii z)%N = Lt) as ->
      by (apply N.compare_lt_iff; lia). reflexivity.
Qed.

Lemma pad_step (m : Z) :
  1 <= m <= 11 ->
  String.compare ("-" ++ pad m) ("-" ++ pad (m + 1)) = Lt.
Proof.
  intros H.
  assert (m = 1 \/ m = 2 \/ m = 3 \/ m = 4 \/ m = 5 \/ m = 6 \/ m = 7 \/ m = 8
          \/ m = 9 \/ m = 10 \/ m = 11) as D by lia.
  repeat (destruct D as [-> | D]; [reflexivity |]). subst. reflexivity.
Qed.

Lemma pad_length (m : Z) : 1 <= m <= 12 -> String.length ("-" ++ pad m) = 3%nat.
Proof.
  intros H.
  assert (m = 1 \/ m = 2 \/ m = 3 \/ m = 4 \/ m = 5 \/ m = 6 \/ m = 7 \/ m = 8
          \/ m = 9 \/ m = 10 \/ m = 11 \/ m = 12) as D by lia.
  repeat (destruct D as [-> | D]; [reflexivity |]). subst. reflexivity.
Qed.

Lemma append_assoc (a b c : string) : ((a ++ b) ++ c = a ++ (b ++ c))%string.
Proof. induction a as [| x a IH]; cbn; [reflexivity | rewrite IH; reflexivity]. Qed.

Lemma append_length (a b : string) :
  String.length (a ++ b) = (String.length a + String.length b)%nat.
Proof. induction a as [| x a IH]; cbn; [reflexivity | rewrite IH; reflexivity]. Qed.

(** The label of a month is below the label of the next month. *)
Lemma label_of_step (j : Z) :
  1968 * 12 <= j < 9999 * 12 + 11 ->
  String.compare (label_of j) (label_of (j + 1)) = Lt.
Proof.
  intros Hj. unfold label_of.
  destruct (Z.eq_dec (j mod 12) 11) as [E | NE].
  - replace ((j + 1) / 12) with (j / 12 + 1) by (Z.div_mod_to_equations; lia).
    destruct (year_step (j / 12) ltac:(Z.div_mod_to_equations; lia)) as (C & L1 & L2).
    apply compare_app_lt; [exact C | congruence].
  - replace ((j + 1) / 12) with (j / 12) by (Z.div_mod_to_equations; lia).
    replace ((j + 1) mod 12 + 1) with (j mod 12 + 1 + 1)
      by (Z.div_mod_to_equations; lia).
    rewrite compare_app_same. apply pad_step. Z.div_mod_to_equations; lia.
Qed.

Lemma label_of_lt (n : nat) :
  forall j, 1968 * 12 <= j -> j + Z.of_nat (S n) <= 9999 * 12 + 11 ->
    String.compare (label_of j) (label_of (j + Z.of_nat (S n))) = Lt.
Proof.
  induction n as [| n IH]; intros j Hlo Hhi.
  - apply label_of_step. lia.
  - apply compare_lt_trans with (b := label_of (j + Z.of_nat (S n))).
    + apply IH; lia.
    + replace (j + Z.of_nat (S (S n))) with (j + Z.of_nat (S n) + 1) by lia.
      apply label_of_step. lia.
Qed.

(** A label is four digits, a dash and two digits. *)
Lemma label_of_length (j : Z) :
  1968 * 12 <= j <= 9999 * 12 + 11 -> String.length (label_of j) = 7%nat.
Proof.
  intros Hj. unfold label_of. rewrite append_length.
  pose proof (Z.mod_pos_bound j 12 ltac:(lia)).
  rewrite pad_length by lia.
  destruct (Z.eq_dec (j / 12) 9999) as [-> | NE].
  - reflexivity.
  - destruct (year_step (j / 12) ltac:(Z.div_mod_to_equations; lia)) as (_ & L & _).
    rewrite L. reflexivity.
Qed.

(** ** The loop of the reports *)

Lemma countdown_length (n : nat) : List.length (countdown n) = n.
Proof. induction n as [| n IH]; cbn; [reflexivity | rewrite IH; reflexivity]. Qed.

Lemma countdown_nth (n : nat) :
  forall k d, (k < n)%nat -> nth k (countdown n) d = Z.of_nat n - 1 - Z.of_nat k.
Proof.
  induction n as [| n IH]; intros k d Hk; [lia |].
  cbn [countdown]. destruct k as [| k]; cbn [nth]; [lia |].
  rewrite IH by lia. lia.
Qed.

Lemma countdown_In (n : nat) (i : Z) : In i (countdown n) -> 0 <= i < Z.of_nat n.
Proof.
  induction n as [| n IH]; cbn; [intros [] |].
  intros [<- | H]; [lia | apply IH in H; lia].
Qed.

Lemma countdown_sorted {A : Type} (R : A -> A -> Prop) (f : Z -> A) (n : nat) :
  (forall i i', 0 <= i < i' -> i' < Z.of_nat n -> R (f i') (f i)) ->
  StronglySorted R (map f (countdown n)).
Proof.
  induction n as [| n IH]; intros H; cbn; [constructor |].
  constructor.
  - apply IH. intros i i' Hi Hi'. apply H; lia.
  - apply Forall_forall. intros x Hx. apply in_map_iff in Hx as (i & <- & Hi).
    apply countdown_In in Hi. apply H; lia.
Qed.

Lemma loop_entries_nth {A : Type} (f : Z -> A) (size k : Z) (d : A) :
  0 <= k < size ->
  nth (Z.to_nat k) (map f (countdown (Z.to_nat size))) d = f (size - 1 - k).
Proof.
  intros Hk.
  rewrite (nth_indep _ d (f 0)) by (rewrite length_map, countdown_length; lia).
  rewrite map_nth, countdown_nth by lia. f_equal. lia.
Qed.

Lemma count_between_none (a b : Z) (db : Table) :
  (forall r, In r db -> ~ (a <= row_checkin_time r <= b)) -> count_between a b db = 0.
Proof.
  intros H. unfold count_between.
  replace (filter (between (Some a) (Some b)) db) with (@nil Visitor); [reflexivity |].
  symmetry. induction db as [| r db IH]; cbn; [reflexivity |].
  destruct (Z.leb_spec a (row_checkin_time r));
    destruct (Z.leb_spec (row_checkin_time r) b); cbn [andb];
    try (apply IH; intros x Hx; apply H; right; exact Hx).
  exfalso. apply (H r); [left; reflexivity | lia].
Qed.

Lemma window_size_bound (q : option string) (d hi n : Z) :
  bound_of q d = Some n ->
  window_size q (Number_toString d) hi = Some (Z.min hi (Z.max 1 n)).
Proof.
  intros B. unfold window_size. rewrite parseInt_query_or, B. reflexivity.
Qed.

(** C9: for every requested window size the monthly report clamps it into
    [1, 24] and returns exactly that many entries, one for each of the
    calendar months that end with the current month of the server's local
    time, oldest first; the labels are YYYY-MM and strictly increasing; each
    count is the number of visitors checked in from the first to the last
    second of the month, each bound at the offset from UTC in force in the
    server's zone at that local time, so a month without visitors is there
    with count 0.  The year of the server's clock is taken between 1970 and
    9999; the number of entries holds in every zone, and the months, labels
    and counts in every zone that keeps the first day of each of the
    months. *)
Theorem get_reports_monthly_window
    (jwt_verify : string -> option JsVal) (env : Env) (req : Request) (db : Table)
    (n : Z) :
  let tz := utc_offset env in
  let Y := getFullYear tz (Date_now env) in
  let M := getMonth tz (Date_now env) in
  let size := Z.min 24 (Z.max 1 n) in
  let first := 12 * Y + M - (size - 1) in
  authMiddleware jwt_verify req = None ->
  bound_of (q_months (query req)) 6 = Some n ->
  1970 <= Y <= 9999 ->
  exists entries,
    get_reports_monthly jwt_verify env req db = ok (MonthlyJson entries) /\
    1 <= size <= 24 /\
    Z.of_nat (List.length entries) = size /\
    ((forall k, 0 <= k < size -> day_kept tz (month_day (first + k))) ->
     (forall k, 0 <= k < size ->
        nth (Z.to_nat k) entries (EmptyString, 0)
        = (label_of (first + k),
           count_between (month_first tz (first + k)) (month_last tz (first + k)) db) /\
        String.length (label_of (first + k)) = 7%nat /\
        ((forall r, In r db ->
            ~ (month_first tz (first + k) <= row_checkin_time r
               <= month_last tz (first + k))) ->
         snd (nth (Z.to_nat k) entries (EmptyString, 0)) = 0)) /\
     label_of (first + (size - 1)) = (Number_toString Y ++ "-" ++ pad (M + 1))%string /\
     StronglySorted label_lt entries).
Proof.
  cbv zeta. intros A B HY.
  set (tz := utc_offset env) in *. set (Y := getFullYear tz (Date_now env)) in *.
  set (M := getMonth tz (Date_now env)) in *.
  set (size := Z.min 24 (Z.max 1 n)) in *.
  pose proof (getMonth_range tz (Date_now env)) as HM. fold M in HM.
  assert (1 <= size <= 24) as Hsize by (subst size; lia).
  exists (map (monthly_entry env db) (countdown (Z.to_nat size))).
  split; [| split; [exact Hsize | split]].
  - unfold get_reports_monthly. rewrite A.
    change "6" with (Number_toString 6).
    rewrite (window_size_bound _ 6 24 n B). reflexivity.
  - rewrite length_map, countdown_length. lia.
  - intros HK.
    assert (forall i, 0 <= i < size ->
              monthly_entry env db i
              = (label_of (12 * Y + M - i),
                 count_between (month_first tz (12 * Y + M - i))
                   (month_last tz (12 * Y + M - i)) db)) as Hentry.
    { intros i Hi. apply monthly_entry_index; fold tz; fold Y; fold M; [lia | lia |].
      replace (12 * Y + M - i) with (12 * Y + M - (size - 1) + (size - 1 - i)) by lia.
      apply HK. lia. }
    assert (forall k, 0 <= k < size ->
              nth (Z.to_nat k) (map (monthly_entry env db) (countdown (Z.to_nat size)))
                (EmptyString, 0)
              = (label_of (12 * Y + M - (size - 1) + k),
                 count_between (month_first tz (12 * Y + M - (size - 1) + k))
                   (month_last tz (12 * Y + M - (size - 1) + k)) db)) as Hnth.
    { intros k Hk. rewrite loop_entries_nth by exact Hk.
      rewrite Hentry by lia.
      replace (12 * Y + M - (size - 1 - k)) with (12 * Y + M - (size - 1) + k) by lia.
      reflexivity. }
    split; [| split].
    + intros k Hk. rewrite (Hnth k Hk). cbn [snd]. split; [reflexivity | split].
      * apply label_of_length. lia.
      * apply count_between_none.
    + replace (12 * Y + M - (size - 1) + (size - 1)) with (12 * Y + M) by lia.
      unfold label_of.
      replace ((12 * Y + M) / 12) with Y by (Z.div_mod_to_equations; lia).
      replace ((12 * Y + M) mod 12) with M by (Z.div_mod_to_equations; lia).
      reflexivity.
    + apply countdown_sorted. intros i i' Hi Hi'. unfold label_lt.
      rewrite !Hentry by lia. cbn [fst].
      replace (12 * Y + M - i)
        with (12 * Y + M - i' + Z.of_nat (S (Z.to_nat (i' - i - 1)))) by lia.
      apply label_of_lt; lia.
Qed.

Lemma get_reports_monthly_window_witness :
  exists entries,
    get_reports_monthly sample_verify january_env (report_request None (Some "7"))
      [july_visitor]
    = ok (MonthlyJson entries) /\
    Z.of_nat (List.length entries) = 7 /\
    nth 0 entries (EmptyString, 0)
    = (label_of (12 * 2023 + 6),
       count_between (month_first new_york (12 * 2023 + 6))
         (month_last new_york (12 * 2023 + 6)) [july_visitor]) /\
    StronglySorted label_lt entries.
Proof.
  destruct (get_reports_monthly_window sample_verify january_env
              (report_request None (Some "7")) [july_visitor] 7)
    as (entries & E & _ & L & H).
  - reflexivity.
  - reflexivity.
  - split; vm_compute; discriminate.
  - destruct H as (N & _ & S).
    + intros k Hk. change (0 <= k < 7) in Hk.
      assert (k = 0 \/ k = 1 \/ k = 2 \/ k = 3 \/ k = 4 \/ k = 5 \/ k = 6)
        as [-> | [-> | [-> | [-> | [-> | [-> | ->]]]]]] by lia; vm_compute; reflexivity.
    + exists entries. split; [exact E | split; [exact L | split; [| exact S]]].
      apply (N 0). split; vm_compute; [discriminate | reflexivity].
Defined.

(** On a server in New York in January the report of seven months starts
    July at 04:00 UTC, the local midnight of a day on which the clocks are an
    hour forward, and not at 05:00 UTC as the offset of January would have
    it: a visitor at 00:30 local time on 1 July is counted in July. *)
Lemma monthly_report_in_new_york :
  month_first new_york (12 * 2023 + 6) = 1688184000 /\
  get_reports_monthly sample_verify january_env (report_request None (Some "7"))
    [july_visitor]
  = ok (MonthlyJson [("2023-07", 1); ("2023-08", 0); ("2023-09", 0); ("2023-10", 0);
                     ("2023-11", 0); ("2023-12", 0); ("2024-01", 0)]).
Proof. split; reflexivity. Qed.

(** ** The daily report *)

Lemma yoe_of_doe_range (doe : Z) :
  0 <= doe < 146097 -> 0 <= yoe_of_doe doe < 400.
Proof.
  intros H. unfold yoe_of_doe. Z.div_mod_to_equations; lia.
Qed.

(** A day number is the first day of its month, plus its day of the month
    less one. *)
Lemma days_from_civil_from_days (z : Z) :
  days_from_civil (fst (fst (civil_from_days z))) (snd (fst (civil_from_days z))) 1
  + snd (civil_from_days z) - 1 = z.
Proof.
  pose proof (civil_from_days_month z) as Hm. revert Hm.
  unfold civil_from_days, days_from_civil. cbv zeta.
  pose proof (Z.mod_pos_bound (z + 719468) 146097 ltac:(lia)) as Hdoe.
  pose proof (Z.div_mod (z + 719468) 146097 ltac:(lia)) as Hz.
  set (doe := (z + 719468) mod 146097) in *.
  set (era := (z + 719468) / 146097) in *.
  pose proof (yoe_of_doe_range doe Hdoe) as Hyoe.
  pose proof (doy_range doe Hdoe) as Hdoy.
  unfold civil_of_doe. cbv zeta. cbn [fst snd].
  set (yoe := yoe_of_doe doe) in *.
  set (doy := doe - year_start yoe) in *.
  set (mp := (5 * doy + 2) / 153).
  assert (0 <= mp <= 11) as Hmp by (subst mp; Z.div_mod_to_equations; lia).
  set (m := if mp <? 10 then mp + 3 else mp - 9).
  assert ((if 2 <? m then m - 3 else m + 9) = mp) as Hback.
  { subst m. destruct (Z.ltb_spec mp 10);
      match goal with |- context [2 <? ?a] => destruct (Z.ltb_spec 2 a) end; lia. }
  intros Hm.
  assert ((if m <=? 2 then yoe + (if m <=? 2 then 1 else 0) + 400 * era - 1
           else yoe + (if m <=? 2 then 1 else 0) + 400 * era) = yoe + era * 400) as Hy
    by (destruct (m <=? 2); lia).
  rewrite Hy. rewrite Z.div_add, Z.mod_add by lia.
  rewrite Z.div_small, Z.mod_small by lia.
  unfold doe_of_civil. rewrite Hback. subst doy. lia.
Qed.

Lemma civil_from_days_year (z : Z) :
  0 <= z -> 1600 <= fst (fst (civil_from_days z)).
Proof.
  intros Hz. unfold civil_from_days. cbv zeta.
  pose proof (Z.mod_pos_bound (z + 719468) 146097 ltac:(lia)) as Hdoe.
  pose proof (yoe_of_doe_range _ Hdoe) as Hyoe.
  unfold civil_of_doe. cbv zeta. cbn [fst snd].
  assert (4 <= (z + 719468) / 146097) by (Z.div_mod_to_equations; lia).
  match goal with |- context [if ?c then 1 else 0] => destruct c end; lia.
Qed.

Lemma MakeDay_local (zone : Zone) (t i : Z) :
  MakeDay (getFullYear zone t) (getMonth zone t) (getDate zone t - i)
  = local_day zone t - i.
Proof.
  unfold MakeDay, getFullYear, getMonth, getDate.
  pose proof (civil_from_days_month (local_day zone t)) as Hm.
  pose proof (days_from_civil_from_days (local_day zone t)) as Hd.
  set (c := civil_from_days (local_day zone t)) in *.
  replace ((snd (fst c) - 1) / 12) with 0 by (Z.div_mod_to_equations; lia).
  replace ((snd (fst c) - 1) mod 12 + 1) with (snd (fst c))
    by (Z.div_mod_to_equations; lia).
  rewrite Z.add_0_r. lia.
Qed.

Lemma toISOString_day (t : Z) : toISOString_slice_0_10 t = iso_date (t / msPerDay).
Proof.
  unfold iso_date, toISOString_slice_0_10.
  rewrite Z.div_mul by (unfold msPerDay; lia). reflexivity.
Qed.

Lemma getFullYear_no_quirk (zone : Zone) (t : Z) :
  0 <= local_day zone t -> ~ (0 <= getFullYear zone t <= 99).
Proof.
  intros H. unfold getFullYear. pose proof (civil_from_days_year _ H). lia.
Qed.

(** The bounds that the daily report and the sidebar compute for the day of
    a time [t], [i] days back, are the first and the last second of that
    day. *)
Lemma day_window (zone : Zone) (t i : Z) :
  0 <= local_day zone t ->
  new_Date zone (getFullYear zone t) (getMonth zone t) (getDate zone t - i) 0 0 0
  = UTC zone ((local_day zone t - i) * msPerDay) /\
  new_Date zone (getFullYear zone t) (getMonth zone t) (getDate zone t - i) 0 0 0 / 1000
  = day_first zone (local_day zone t - i) /\
  new_Date zone (getFullYear zone t) (getMonth zone t) (getDate zone t - i) 23 59 59 / 1000
  = day_last zone (local_day zone t - i).
Proof.
  intros H. pose proof (getFullYear_no_quirk zone t H) as Hq.
  rewrite !new_Date_value by exact Hq. rewrite MakeDay_local.
  unfold day_first, day_last.
  split; [| split]; [f_equal | do 2 f_equal | do 2 f_equal]; unfold msPerDay; lia.
Qed.

(** The entry of the daily report for [i] days ago counts the visitors of
    the local day [i] days before today, from its first to its last second,
    and is labelled with the UTC date of the first instant of that day. *)
Lemma daily_entry_day (env : Env) (db : Table) (i : Z) :
  let tz := utc_offset env in
  let today := local_day tz (Date_now env) in
  0 <= i <= today ->
  day_kept tz (today - i) ->
  daily_entry env db i
  = (iso_date (UTC tz ((today - i) * msPerDay) / msPerDay),
     count_between (day_first tz (today - i)) (day_last tz (today - i)) db).
Proof.
  cbv zeta. intros Hi K. unfold daily_entry. cbv zeta.
  set (tz := utc_offset env) in *. set (now := Date_now env) in *.
  set (today := local_day tz now) in *.
  destruct (day_window tz now i ltac:(fold today; lia)) as (Hd & _ & _).
  fold today in Hd.
  set (d := new_Date tz (getFullYear tz now) (getMonth tz now) (getDate tz now - i) 0 0 0)
    in *.
  assert (local_day tz d = today - i) as Hday by (rewrite Hd; exact K).
  replace (getDate tz d) with (getDate tz d - 0) by lia.
  destruct (day_window tz d 0 ltac:(rewrite Hday; lia)) as (_ & Hs & He).
  rewrite Hs, He, Z.sub_0_r, Hday, toISOString_day, Hd. reflexivity.
Qed.

(** Where local time is ahead of UTC at the midnight of its day, the label
    of an entry is the date of the day before the day the entry counts;
    where it is not, it is the date of that day. *)
Lemma daily_entry_label (env : Env) (db : Table) (i : Z) :
  let tz := utc_offset env in
  let today := local_day tz (Date_now env) in
  let ahead := LocalTZA_local tz ((today - i) * msPerDay) in
  0 <= i <= today ->
  day_kept tz (today - i) ->
  (0 < ahead <= msPerDay -> fst (daily_entry env db i) = iso_date (today - i - 1)) /\
  (- msPerDay < ahead <= 0 -> fst (daily_entry env db i) = iso_date (today - i)).
Proof.
  cbv zeta. intros Hi K. rewrite daily_entry_day by assumption. cbn [fst].
  unfold UTC.
  split; intros Htz; f_equal; unfold msPerDay in *; Z.div_mod_to_equations; lia.
Qed.

(** The daily report has as many entries as the clamped window size. *)
Lemma get_reports_daily_length
    (jwt_verify : string -> option JsVal) (env : Env) (req : Request) (db : Table)
    (n : Z) :
  authMiddleware jwt_verify req = None ->
  bound_of (q_days (query req)) 7 = Some n ->
  exists entries,
    get_reports_daily jwt_verify env req db = ok (DailyJson entries) /\
    Z.of_nat (List.length entries) = Z.min 30 (Z.max 1 n).
Proof.
  intros A B. unfold get_reports_daily. rewrite A.
  change "7" with (Number_toString 7). rewrite (window_size_bound _ 7 30 n B).
  eexists. split; [reflexivity |].
  cbn [loop_indices]. rewrite length_map, countdown_length. lia.
Qed.

(** C8 fails on the code where the server's local time is ahead of UTC.  At
    10:00 on 15 January 2024 in a zone five and a half hours ahead, the report
    of one day counts the visitors of the local day 15 January, from its first
    to its last second, and labels the entry 2024-01-14: the label is the UTC
    date of the local midnight.  The monthly report at the same moment takes
    its label from the local date. *)
Theorem daily_label_is_a_day_early_east_of_utc :
  let now := Date_now east_env in
  (getFullYear 330 now, getMonth 330 now + 1, getDate 330 now) = (2024, 1, 15) /\
  get_reports_daily sample_verify east_env (report_request (Some "1") None)
    [today_visitor]
  = ok (DailyJson [("2024-01-14", 1)]) /\
  new_Date 330 2024 0 15 0 0 0 / 1000 <= row_checkin_time today_visitor
    <= new_Date 330 2024 0 15 23 59 59 / 1000 /\
  get_reports_monthly sample_verify east_env (report_request None (Some "1"))
    [today_visitor]
  = ok (MonthlyJson [("2024-01", 1)]).
Proof.
  cbv zeta. split; [reflexivity |]. split; [reflexivity |].
  split; [split; vm_compute; discriminate | reflexivity].
Qed.

(** ** Who may call the protected routes *)

Lemma startsWith_append (p s : string) :
  startsWith s p = true -> s = p ++ slice_from (String.length p) s.
Proof.
  unfold startsWith. revert s.
  induction p as [| a p IH]; intros s H; [reflexivity |].
  destruct s as [| b s]; [discriminate H |].
  change (match Ascii.ascii_dec a b with
          | left _ => String.prefix p s
          | right _ => false
          end = true) in H.
  destruct (Ascii.ascii_dec a b) as [-> | Hne]; [| discriminate H].
  cbn [String.length slice_from append]. f_equal. apply IH. exact H.
Qed.

Lemma authMiddleware_rejects
    (jwt_verify : string -> option JsVal) (req : Request) :
  (forall t, authorization req = Some ("Bearer " ++ t) -> jwt_verify t = None) ->
  authMiddleware jwt_verify req = Some (fail 401 "Missing token") \/
  authMiddleware jwt_verify req = Some (fail 401 "Invalid token").
Proof.
  intros H. unfold authMiddleware.
  destruct (authorization req) as [auth |] eqn:A; [| left; reflexivity].
  destruct (startsWith auth "Bearer ") eqn:P; cbn [negb]; [| left; reflexivity].
  apply startsWith_append in P. cbn [String.length] in P.
  rewrite (H (slice_from 7 auth)) by (rewrite <- P; reflexivity).
  right. reflexivity.
Qed.

(** X1: without a bearer token that verifies, the four protected routes
    (checkout, list, daily and monthly report) all answer 401, with "Missing
    token" or "Invalid token", and the checkout leaves the table as it is. *)
Theorem protected_routes_refuse_without_token
    (jwt_verify : string -> option JsVal) (env : Env) (req : Request) (db : Table) :
  (forall t, authorization req = Some ("Bearer " ++ t) -> jwt_verify t = None) ->
  exists msg,
    (msg = "Missing token" \/ msg = "Invalid token") /\
    post_checkout jwt_verify env req db = (fail 401 msg, db) /\
    get_visitors jwt_verify env req db = fail 401 msg /\
    get_reports_daily jwt_verify env req db = fail 401 msg /\
    get_reports_monthly jwt_verify env req db = fail 401 msg.
Proof.
  intros H.
  unfold post_checkout, get_visitors, get_reports_daily, get_reports_monthly.
  destruct (authMiddleware_rejects jwt_verify req H) as [-> | ->];
    eexists; (split; [| repeat split]); auto.
Qed.

Lemma protected_routes_refuse_without_token_witness :
  exists msg,
    (msg = "Missing token" \/ msg = "Invalid token") /\
    post_checkout sample_verify sample_env
      (checkout_request (Some "Bearer stale") "a-1") [alice] = (fail 401 msg, [alice]) /\
    get_visitors sample_verify sample_env
      (checkout_request (Some "Bearer stale") "a-1") [alice] = fail 401 msg.
Proof.
  destruct (protected_routes_refuse_without_token sample_verify sample_env
              (checkout_request (Some "Bearer stale") "a-1") [alice])
    as (msg & M & C & L & _).
  - intros t E. injection E as <-. reflexivity.
  - exists msg. split; [exact M | split; [exact C | exact L]].
Defined.

(** ** Creation, then the list *)

Lemma saveBase64Image_shape (env : Env) (v : JsVal) (out : JsVal) :
  saveBase64Image env v = Some out ->
  out = JNull \/
  exists ext, (ext = ".png" \/ ext = ".jpg" \/ ext = ".webp") /\
              out = JStr ("/uploads/" ++ uuid_file env ++ ext).
Proof.
  unfold saveBase64Image. destruct v; try (intros [= <-]; left; reflexivity).
  destruct (match_data_url s) as [[mime data] |]; [| intros [= <-]; left; reflexivity].
  destruct (writeFile_ok env); [| discriminate].
  intros [= <-]. right.
  destruct (mime =? "image/png")%string; [exists ".png"; auto |].
  destruct ((mime =? "image/jpeg")%string || (mime =? "image/jpg")%string);
    [exists ".jpg"; auto |].
  destruct (mime =? "image/webp")%string; [exists ".webp"; auto | exists ".jpg"; auto].
Qed.

Lemma photoUrl_of_shape (env : Env) (req : Request) (out : JsVal) :
  photoUrl_of env req = Some out ->
  out = JNull \/ exists p, out = JStr ("/uploads/" ++ p).
Proof.
  unfold photoUrl_of.
  assert (match photo (body req) with
          | JStr p => if startsWith p "data:image" then saveBase64Image env (JStr p)
                      else Some JNull
          | _ => Some JNull
          end = Some out -> out = JNull \/ exists p, out = JStr ("/uploads/" ++ p)) as B.
  { destruct (photo (body req)); try (intros [= <-]; left; reflexivity).
    destruct (startsWith s "data:image"); [| intros [= <-]; left; reflexivity].
    intros H. apply saveBase64Image_shape in H as [-> | (ext & _ & ->)]; [left; reflexivity |].
    right. eexists. reflexivity. }
  destruct (upload req) as [| [f |] |]; try exact B.
  destruct (f =? "")%string; [exact B |].
  intros [= <-]. right. eexists. reflexivity.
Qed.

Lemma resolve_photoAbsolute (base : string) (photoUrl : JsVal) (r : Visitor) :
  (photoUrl = JNull \/ exists p, photoUrl = JStr p) ->
  row_photo r = bind_text (js_or photoUrl (JStr "")) ->
  json_of_text (photo_url (resolve_photo base r)) = photoAbsolute base photoUrl.
Proof.
  intros [-> | (p & ->)] R; unfold resolve_photo, photoAbsolute; cbn [photo_url];
    rewrite R.
  - reflexivity.
  - unfold js_or. cbn [truthy].
    destruct (p =? "")%string eqn:E; cbn [negb bind_text].
    + reflexivity.
    + rewrite E. destruct (startsWith p "http"); reflexivity.
Qed.

Lemma filter_map_length {A B : Type} (p : B -> bool) (g : A -> B) (l : list A) :
  List.length (filter p (map g l)) = List.length (filter (fun a => p (g a)) l).
Proof.
  induction l as [| a l IH]; cbn; [reflexivity |].
  destruct (p (g a)); cbn; rewrite IH; reflexivity.
Qed.

Lemma Permutation_filter_length {A : Type} (p : A -> bool) (l l' : list A) :
  Permutation l l' -> List.length (filter p l) = List.length (filter p l').
Proof.
  induction 1 as [| x l l' _ IH | x y l | l l' l'' _ IH1 _ IH2]; cbn.
  - reflexivity.
  - destruct (p x); cbn; rewrite IH; reflexivity.
  - destruct (p x), (p y); reflexivity.
  - congruence.
Qed.

Lemma filter_filter_length {A : Type} (p q : A -> bool) (l : list A) :
  (List.length (filter p (filter q l)) <= List.length (filter p l))%nat /\
  ((forall a, In a l -> q a = true) -> filter p (filter q l) = filter p l).
Proof.
  induction l as [| a l [IH1 IH2]]; cbn; [split; [lia | reflexivity] |].
  split.
  - destruct (q a), (p a) eqn:Pa; cbn; rewrite ?Pa; cbn; lia.
  - intros H. rewrite (H a) by (left; reflexivity). cbn.
    rewrite IH2 by (intros b Hb; apply H; right; exact Hb). reflexivity.
Qed.

Lemma filter_negb_length {A : Type} (p : A -> bool) (l : list A) :
  (List.length (filter (fun a => negb (p a)) l) + List.length (filter p l)
   = List.length l)%nat.
Proof.
  induction l as [| a l IH]; cbn; [reflexivity |].
  destruct (p a); cbn; lia.
Qed.

Lemma filter_none {A : Type} (p : A -> bool) (l : list A) :
  (forall a, In a l -> p a = false) -> filter p l = [].
Proof.
  induction l as [| a l IH]; intros H; cbn [filter]; [reflexivity |].
  rewrite (H a) by (left; reflexivity). apply IH. intros b Hb. apply H. right. exact Hb.
Qed.

Lemma select_between_In (from to : Z) (db : Table) (r : Visitor) :
  In r (select_between (Some from) (Some to) db)
  <-> In r db /\ from <= row_checkin_time r <= to.
Proof.
  unfold select_between.
  pose proof (order_by_checkin_desc_perm (filter (between (Some from) (Some to)) db)) as P.
  split.
  - intros H. apply (Permutation_in _ (Permutation_sym P)) in H.
    apply filter_In in H as [H B]. cbn in B. split; [exact H | lia].
  - intros [H B]. apply (Permutation_in _ P). apply filter_In.
    split; [exact H | cbn; lia].
Qed.

Lemma post_visitors_created
    (jwt_verify : string -> option JsVal) (env : Env) (req : Request)
    (db db' : Table) (j : Json) :
  post_visitors jwt_verify env req db = (ok j, db') ->
  exists photoUrl nm c,
    photoUrl_of env req = Some photoUrl /\
    bind_text (name (body req)) = Some nm /\
    checkin_of env (checkin_time (body req)) = Some c /\
    has_id (uuid_row env) db = false /\
    db' = (db ++ [mkVisitor (uuid_row env) nm
                    (bind_text (js_or (phone (body req)) (JStr "")))
                    (bind_text (js_or (address (body req)) (JStr "")))
                    (bind_text (js_or (purpose (body req)) (JStr "")))
                    (bind_text (js_or (company (body req)) (JStr "")))
                    (bind_text (js_or (personToMeet (body req)) (JStr "")))
                    (bind_text (js_or photoUrl (JStr ""))) c None
                    (bind_text (created_by_of jwt_verify req))])%list /\
    j = CreatedJson (uuid_row env) (name (body req)) (phone (body req))
          (address (body req)) (purpose (body req)) (company (body req))
          (personToMeet (body req)) (photoAbsolute (base req) photoUrl) c.
Proof.
  unfold post_visitors, insert_visitor.
  destruct (upload req); try discriminate.
  all: destruct (truthy (name (body req))); cbn [negb]; try discriminate.
  all: destruct (photoUrl_of env req) as [photoUrl |]; try discriminate.
  all: destruct (bind_text (name (body req))) as [nm |]; try discriminate.
  all: destruct (checkin_of env (checkin_time (body req))) as [c |]; try discriminate.
  all: destruct (has_id (uuid_row env) db); try discriminate.
  all: intros [= <- <-]; exists photoUrl, nm, c; repeat split; reflexivity.
Qed.

(** X2: a visitor that a create request has persisted with a check-in time
    between 0 and now is in the next default list (no [from], no [to]) of an
    authenticated caller: the list has exactly one entry with the id of the
    answer to the create request, and that entry has the check-in time of the
    answer, no checkout time, and, for the same host, the photo address of
    that answer. *)
Theorem created_visitor_is_listed
    (jwt_verify : string -> option JsVal) (env env' : Env) (req lreq : Request)
    (db db' : Table) (id : string) (n ph ad pu co pm photo : JsVal) (c : Z) :
  post_visitors jwt_verify env req db
    = (ok (CreatedJson id n ph ad pu co pm photo c), db') ->
  authMiddleware jwt_verify lreq = None ->
  q_from (query lreq) = None ->
  q_to (query lreq) = None ->
  base lreq = base req ->
  0 <= c <= now_seconds env' ->
  exists rows v,
    get_visitors jwt_verify env' lreq db' = ok (VisitorsJson rows) /\
    In v rows /\
    row_id (row v) = id /\
    row_checkin_time (row v) = c /\
    row_checkout_time (row v) = None /\
    json_of_text (photo_url v) = photo /\
    filter (fun v' => (row_id (row v') =? id)%string) rows = [v].
Proof.
  intros P A F T B C.
  apply post_visitors_created in P
    as (photoUrl & nm & c' & Hp & _ & _ & Hfresh & -> & [= -> -> -> -> -> -> -> -> ->]).
  set (r := mkVisitor _ _ _ _ _ _ _ _ _ _ _).
  unfold get_visitors. rewrite A, F, T. cbn [query_or].
  rewrite parseInt_Number_toString.
  change (parseInt_string "0") with (Some 0).
  exists (map (resolve_photo (base lreq)) (select_between (Some 0) (Some (now_seconds env')) (db ++ [r]))).
  exists (resolve_photo (base lreq) r).
  split; [reflexivity |]. split; [| split; [reflexivity | split; [reflexivity | split; [reflexivity | split]]]].
  - apply in_map. apply select_between_In. split; [| exact C].
    apply in_or_app. right. left. reflexivity.
  - rewrite B. apply resolve_photoAbsolute; [| reflexivity].
    apply photoUrl_of_shape in Hp as [-> | (p & ->)]; [left; reflexivity | right; eauto].
  - assert (forall l, filter (fun v' => (row_id (row v') =? uuid_row env)%string)
                        (map (resolve_photo (base lreq)) l)
                      = map (resolve_photo (base lreq))
                          (filter (fun x => (row_id x =? uuid_row env)%string) l)) as Hm.
    { induction l as [| x l IH]; cbn [map filter resolve_photo row]; [reflexivity |].
      destruct (row_id x =? uuid_row env)%string; cbn [map]; rewrite IH; reflexivity. }
    rewrite Hm. change [resolve_photo (base lreq) r] with (map (resolve_photo (base lreq)) [r]).
    f_equal.
    assert (filter (fun x => (row_id x =? uuid_row env)%string)
              (filter (between (Some 0) (Some (now_seconds env'))) (db ++ [r])) = [r]) as Hf.
    { rewrite !filter_app.
      rewrite (filter_none _ (filter _ db)).
      - cbn [filter between row_checkin_time r app].
        assert ((0 <=? c') && (c' <=? now_seconds env') = true) as ->
          by (apply andb_true_iff; split; apply Z.leb_le; lia).
        cbn [filter row_id r]. rewrite String.eqb_refl. reflexivity.
      - intros x Hx. apply filter_In in Hx as [Hx _].
        destruct (String.eqb_spec (row_id x) (uuid_row env)) as [E | ]; [| reflexivity].
        exfalso. assert (has_id (uuid_row env) db = true) as X.
        { apply has_id_In. unfold ids. rewrite <- E. apply in_map. exact Hx. }
        congruence. }
    unfold select_between.
    set (l := filter (between (Some 0) (Some (now_seconds env'))) (db ++ [r])) in *.
    pose proof (order_by_checkin_desc_perm l) as Pm.
    pose proof (Permutation_filter_length
                  (fun x => (row_id x =? uuid_row env)%string) _ _ Pm) as Hl.
    rewrite Hf in Hl. cbn [List.length] in Hl.
    destruct (filter (fun x => (row_id x =? uuid_row env)%string)
                (order_by_checkin_desc l)) as [| y [| y' t]] eqn:Ey; try discriminate Hl.
    f_equal.
    assert (In y (filter (fun x => (row_id x =? uuid_row env)%string)
                    (order_by_checkin_desc l))) as Hy by (rewrite Ey; left; reflexivity).
    apply filter_In in Hy as [Hy Hid].
    assert (In y [r]) as Hr.
    { rewrite <- Hf. apply filter_In. split; [| exact Hid].
      apply (Permutation_in _ (Permutation_sym Pm)). exact Hy. }
    destruct Hr as [<- | []]. reflexivity.
Qed.

Lemma created_visitor_is_listed_witness :
  exists rows v,
    get_visitors sample_verify (mkEnv 1700000360999 "f-2" "v-2" true 0)
      (list_request (Some "Bearer good") no_query)
      (snd (post_visitors sample_verify sample_env
              (create_request None (body_named (JStr "Bob") JUndefined)) [alice]))
    = ok (VisitorsJson rows) /\
    In v rows /\ row_id (row v) = "v-1" /\ row_checkin_time (row v) = 1700000000.
Proof.
  destruct (created_visitor_is_listed sample_verify sample_env
              (mkEnv 1700000360999 "f-2" "v-2" true 0)
              (create_request None (body_named (JStr "Bob") JUndefined))
              (list_request (Some "Bearer good") no_query)
              [alice]
              (snd (post_visitors sample_verify sample_env
                      (create_request None (body_named (JStr "Bob") JUndefined)) [alice]))
              "v-1" (JStr "Bob") (JStr "555-1111") JUndefined JUndefined JUndefined
              JUndefined JNull 1700000000)
    as (rows & v & E & I & Hid & Hc & _).
  - reflexivity.
  - reflexivity.
  - reflexivity.
  - reflexivity.
  - reflexivity.
  - split; vm_compute; discriminate.
  - exists rows, v. repeat split; assumption.
Defined.

(** ** Checkout, then the list *)

Lemma authMiddleware_status
    (jwt_verify : string -> option JsVal) (req : Request) (rejected : Response) :
  authMiddleware jwt_verify req = Some rejected -> status rejected = 401.
Proof.
  unfold authMiddleware. destruct (authorization req) as [auth |]; [| intros [= <-]; reflexivity].
  destruct (negb (startsWith auth "Bearer ")); [intros [= <-]; reflexivity |].
  destruct (jwt_verify (slice_from 7 auth)); [discriminate | intros [= <-]; reflexivity].
Qed.

Lemma insert_desc_map (f : Visitor -> Visitor) (r : Visitor) (l : list Visitor) :
  (forall x, row_checkin_time (f x) = row_checkin_time x) ->
  insert_desc (f r) (map f l) = map f (insert_desc r l).
Proof.
  intros Hf. induction l as [| h t IH]; cbn; [reflexivity |].
  rewrite !Hf. destruct (row_checkin_time h <=? row_checkin_time r); cbn;
    [reflexivity | rewrite IH; reflexivity].
Qed.

Lemma select_between_map (f : Visitor -> Visitor) (from to : option Z) (db : Table) :
  (forall x, row_checkin_time (f x) = row_checkin_time x) ->
  select_between from to (map f db) = map f (select_between from to db).
Proof.
  intros Hf. unfold select_between, order_by_checkin_desc.
  induction db as [| r db IH]; cbn; [reflexivity |].
  assert (between from to (f r) = between from to r) as ->
    by (unfold between; rewrite Hf; reflexivity).
  destruct (between from to r); cbn; [| exact IH].
  rewrite IH. apply insert_desc_map. exact Hf.
Qed.

(** X3: a checkout changes, in any list asked afterwards, only the checkout
    time of the visitor with that id: the list has the same visitors in the
    same order with the same photos as it would have had without the
    checkout. *)
Theorem list_after_checkout
    (jwt_verify : string -> option JsVal) (cenv env : Env) (creq lreq : Request)
    (db : Table) (rows : list VisitorJson) :
  authMiddleware jwt_verify creq = None ->
  get_visitors jwt_verify env lreq db = ok (VisitorsJson rows) ->
  get_visitors jwt_verify env lreq (snd (post_checkout jwt_verify cenv creq db))
  = ok (VisitorsJson
          (map (listed_after_checkout (now_seconds cenv) (params_id creq)) rows)).
Proof.
  intros A L. rewrite (post_checkout_authorized jwt_verify cenv creq db A). cbn [snd].
  unfold get_visitors in *.
  destruct (authMiddleware jwt_verify lreq) as [rejected |] eqn:AL.
  - apply authMiddleware_status in AL. rewrite L in AL. discriminate.
  - injection L as <-. unfold update_checkout.
    rewrite select_between_map
      by (intros x; destruct (row_id x =? params_id creq)%string; reflexivity).
    rewrite !map_map. f_equal. f_equal. apply map_ext. intros r.
    unfold listed_after_checkout, resolve_photo. cbn [row photo_url].
    destruct (row_id r =? params_id creq)%string; reflexivity.
Qed.

Lemma list_after_checkout_witness :
  get_visitors sample_verify sample_env (list_request (Some "Bearer good") no_query)
    (snd (post_checkout sample_verify sample_env
            (checkout_request (Some "Bearer good") "a-1") [alice]))
  = ok (VisitorsJson
          (map (listed_after_checkout (now_seconds sample_env) "a-1")
             [resolve_photo "http://localhost:4000" alice])).
Proof.
  apply (list_after_checkout sample_verify sample_env sample_env
           (checkout_request (Some "Bearer good") "a-1")
           (list_request (Some "Bearer good") no_query) [alice]
           [resolve_photo "http://localhost:4000" alice]).
  - reflexivity.
  - reflexivity.
Defined.

(** ** The photo of a create request *)

Lemma strip_prefix_append (p : string) :
  forall s r, strip_prefix p s = Some r -> s = p ++ r.
Proof.
  induction p as [| a p IH]; intros s r H; cbn in H.
  - injection H as <-. reflexivity.
  - destruct s as [| b s]; [discriminate |].
    destruct (Ascii.eqb_spec a b) as [<- | Hne]; [| discriminate].
    cbn. f_equal. apply IH. exact H.
Qed.

(** X4: a [photo] in the body that is not a well-formed base64 image address
    (not a string, or a string that the pattern does not match) is ignored:
    the request is served exactly as the same request without a photo.  A
    well-formed one whose file cannot be written is answered 500 and nothing
    is persisted. *)
Theorem photo_of_create_request
    (jwt_verify : string -> option JsVal) (env : Env) (req : Request) (db : Table) :
  ((forall p, photo (body req) = JStr p -> match_data_url p = None) ->
   post_visitors jwt_verify env req db
   = post_visitors jwt_verify env (with_photo JUndefined req) db) /\
  (forall p,
     photo (body req) = JStr p ->
     match_data_url p <> None ->
     upload req = NotMultipart ->
     truthy (name (body req)) = true ->
     writeFile_ok env = false ->
     post_visitors jwt_verify env req db = (fail 500 "internal error", db)).
Proof.
  split.
  - intros H.
    assert (photoUrl_of env req = photoUrl_of env (with_photo JUndefined req)) as E.
    { unfold photoUrl_of, with_photo. cbn [body photo upload].
      destruct (photo (body req)) as [| | | | | p] eqn:P; try reflexivity.
      unfold saveBase64Image. rewrite (H p eq_refl).
      destruct (startsWith p "data:image"); reflexivity. }
    unfold post_visitors. rewrite E. reflexivity.
  - intros p P M U N W.
    assert (startsWith p "data:image" = true) as S.
    { unfold match_data_url in M.
      destruct (strip_prefix "data:image/" p) as [r |] eqn:R; [| congruence].
      apply strip_prefix_append in R. subst p. reflexivity. }
    unfold post_visitors. rewrite U, N. cbn [negb].
    unfold photoUrl_of. rewrite U, P, S. unfold saveBase64Image.
    destruct (match_data_url p) as [[mime data] |]; [| congruence].
    rewrite W. reflexivity.
Qed.

Lemma photo_of_create_request_witness :
  post_visitors sample_verify sample_env
    (with_photo (JStr "data:image/png;base64,")
       (create_request None (body_named (JStr "Bob") JUndefined))) [alice]
  = post_visitors sample_verify sample_env
      (with_photo JUndefined
         (with_photo (JStr "data:image/png;base64,")
            (create_request None (body_named (JStr "Bob") JUndefined)))) [alice]
  /\ post_visitors sample_verify (mkEnv 1700000000123 "f-1" "v-1" false 0)
       (with_photo (JStr "data:image/png;base64,AAAA")
          (create_request None (body_named (JStr "Bob") JUndefined))) [alice]
     = (fail 500 "internal error", [alice]).
Proof.
  split.
  - apply (proj1 (photo_of_create_request sample_verify sample_env
                    (with_photo (JStr "data:image/png;base64,")
                       (create_request None (body_named (JStr "Bob") JUndefined)))
                    [alice])).
    intros p [= <-]. reflexivity.
  - apply (proj2 (photo_of_create_request sample_verify
                    (mkEnv 1700000000123 "f-1" "v-1" false 0)
                    (with_photo (JStr "data:image/png;base64,AAAA")
                       (create_request None (body_named (JStr "Bob") JUndefined)))
                    [alice]) "data:image/png;base64,AAAA");
      try reflexivity. discriminate.
Defined.

(** ** Query parameters that are not numbers *)

(** X5: a query parameter that does not start with a number (after white
    space and a sign) is not refused: an authenticated caller gets an empty
    list for such a [from] or [to], and an empty report for such a [days] or
    [months], each with status 200. *)
Theorem not_a_number_gives_empty_answer
    (jwt_verify : string -> option JsVal) (env : Env) (req : Request) (db : Table) :
  authMiddleware jwt_verify req = None ->
  (bound_of (q_from (query req)) 0 = None \/
   bound_of (q_to (query req)) (now_seconds env) = None ->
   get_visitors jwt_verify env req db = ok (VisitorsJson [])) /\
  (bound_of (q_days (query req)) 7 = None ->
   get_reports_daily jwt_verify env req db = ok (DailyJson [])) /\
  (bound_of (q_months (query req)) 6 = None ->
   get_reports_monthly jwt_verify env req db = ok (MonthlyJson [])).
Proof.
  intros A. unfold get_visitors, get_reports_daily, get_reports_monthly, window_size.
  rewrite A.
  change "0" with (Number_toString 0). change "7" with (Number_toString 7).
  change "6" with (Number_toString 6). rewrite !parseInt_query_or.
  repeat split.
  - intros [-> | ->]; unfold select_between, between.
    + replace (filter _ db) with (@nil Visitor); [reflexivity |].
      symmetry. induction db; cbn; auto.
    + replace (filter _ db) with (@nil Visitor); [reflexivity |].
      symmetry. destruct (bound_of (q_from (query req)) 0); induction db; cbn; auto.
  - intros ->. reflexivity.
  - intros ->. reflexivity.
Qed.

Lemma not_a_number_gives_empty_answer_witness :
  get_visitors sample_verify sample_env
    (list_request (Some "Bearer good") (mkQuery (Some "soon") None (Some "x") (Some "-")))
    [alice] = ok (VisitorsJson []) /\
  get_reports_daily sample_verify sample_env
    (list_request (Some "Bearer good") (mkQuery (Some "soon") None (Some "x") (Some "-")))
    [alice] = ok (DailyJson []) /\
  get_reports_monthly sample_verify sample_env
    (list_request (Some "Bearer good") (mkQuery (Some "soon") None (Some "x") (Some "-")))
    [alice] = ok (MonthlyJson []).
Proof.
  destruct (not_a_number_gives_empty_answer sample_verify sample_env
              (list_request (Some "Bearer good")
                 (mkQuery (Some "soon") None (Some "x") (Some "-")))
              [alice] eq_refl) as (L & D & M).
  split; [apply L; left; reflexivity | split; [apply D | apply M]]; reflexivity.
Defined.

(** ** The windows of the reports *)

Lemma days_from_civil_next_month (y m : Z) :
  1 <= m <= 11 -> days_from_civil y m 1 <= days_from_civil y (m + 1) 1.
Proof.
  intros H.
  unfold days_from_civil, doe_of_civil, year_start, month_start. cbv zeta.
  destruct (Z.leb_spec m 2); destruct (Z.ltb_spec 2 m); try lia;
  destruct (Z.leb_spec (m + 1) 2); destruct (Z.ltb_spec 2 (m + 1)); try lia.
  all: Z.div_mod_to_equations; lia.
Qed.

Lemma days_from_civil_next_year (y : Z) :
  days_from_civil y 12 1 <= days_from_civil (y + 1) 1 1.
Proof.
  unfold days_from_civil, doe_of_civil, year_start, month_start. cbv zeta.
  change (12 <=? 2) with false. change (1 <=? 2) with true.
  change (2 <? 12) with true. change (2 <? 1) with false. cbv iota.
  replace (y + 1 - 1) with y by lia.
  Z.div_mod_to_equations; lia.
Qed.

Lemma month_day_le (j : Z) : month_day j <= month_day (j + 1).
Proof.
  unfold month_day.
  pose proof (Z.mod_pos_bound j 12 ltac:(lia)) as Hm.
  destruct (Z.eq_dec (j mod 12) 11) as [E | NE].
  - replace ((j + 1) / 12) with (j / 12 + 1) by (Z.div_mod_to_equations; lia).
    replace ((j + 1) mod 12) with 0 by (Z.div_mod_to_equations; lia).
    rewrite E. apply days_from_civil_next_year.
  - replace ((j + 1) / 12) with (j / 12) by (Z.div_mod_to_equations; lia).
    replace ((j + 1) mod 12 + 1) with (j mod 12 + 1 + 1) by (Z.div_mod_to_equations; lia).
    apply days_from_civil_next_month. lia.
Qed.

(** In a zone without clock changes the days, and the months, follow one
    another. *)
Lemma days_follow_fixed (minutes first last : Z) :
  days_follow (fixed_zone minutes) first last.
Proof.
  intros j _. rewrite !day_first_fixed, !day_last_fixed. split; [lia | intros _; lia].
Qed.

Lemma months_follow_fixed (minutes first last : Z) :
  months_follow (fixed_zone minutes) first last.
Proof.
  intros j _. unfold month_first, month_last.
  rewrite !day_first_fixed, !day_last_fixed.
  pose proof (month_day_le j). split; [lia | intros _; lia].
Qed.

Lemma count_between_split (a b c : Z) (db : Table) :
  a <= b + 1 -> b <= c ->
  count_between a b db + count_between (b + 1) c db = count_between a c db.
Proof.
  intros Hab Hbc. unfold count_between.
  induction db as [| r db IH]; cbn [filter List.length]; [reflexivity |].
  unfold between in *.
  destruct (Z.leb_spec a (row_checkin_time r));
    destruct (Z.leb_spec (row_checkin_time r) b);
    destruct (Z.leb_spec (b + 1) (row_checkin_time r));
    destruct (Z.leb_spec (row_checkin_time r) c);
    cbn [andb List.length]; lia.
Qed.

Section Windows.

(** Windows [lo j .. hi j] that follow one another up to [last]. *)
Variables lo hi : Z -> Z.

Lemma windows_last_le (a : Z) (n : nat) :
  (forall j, a <= j <= a + Z.of_nat n ->
     lo j <= hi j + 1 /\ (j < a + Z.of_nat n -> hi j + 1 = lo (j + 1))) ->
  hi a <= hi (a + Z.of_nat n).
Proof.
  induction n as [| n IH]; intros H.
  - replace (a + Z.of_nat 0) with a by lia. lia.
  - assert (hi a <= hi (a + Z.of_nat n)) as Hn.
    { apply IH. intros j Hj. destruct (H j ltac:(lia)) as [H1 H2].
      split; [exact H1 | intros Hlt; apply H2; lia]. }
    destruct (H (a + Z.of_nat n) ltac:(lia)) as [_ H2].
    destruct (H (a + Z.of_nat n + 1) ltac:(lia)) as [H1 _].
    specialize (H2 ltac:(lia)).
    replace (a + Z.of_nat (S n)) with (a + Z.of_nat n + 1) by lia. lia.
Qed.

Lemma sum_counts_windows (last : Z) (db : Table) (f : Z -> string * Z) (n : nat) :
  (forall j, last - Z.of_nat n <= j <= last ->
     lo j <= hi j + 1 /\ (j < last -> hi j + 1 = lo (j + 1))) ->
  (forall i, 0 <= i < Z.of_nat (S n) ->
     snd (f i) = count_between (lo (last - i)) (hi (last - i)) db) ->
  sum_counts (map f (countdown (S n)))
  = count_between (lo (last - Z.of_nat n)) (hi last) db.
Proof.
  induction n as [| n IH]; intros F H.
  - change (countdown 1) with [0].
    cbn [map sum_counts fold_right]. rewrite (H 0) by lia.
    replace (last - Z.of_nat 0) with last by lia.
    replace (last - 0) with last by lia. lia.
  - change (countdown (S (S n))) with (Z.of_nat (S n) :: countdown (S n)).
    cbn [map sum_counts fold_right]. fold (sum_counts (map f (countdown (S n)))).
    rewrite IH; [| intros j Hj; apply F; lia | intros i Hi; apply H; lia].
    rewrite (H (Z.of_nat (S n))) by lia.
    destruct (F (last - Z.of_nat (S n)) ltac:(lia)) as [F1 F2].
    specialize (F2 ltac:(lia)).
    replace (last - Z.of_nat (S n) + 1) with (last - Z.of_nat n) in F2 by lia.
    rewrite <- F2. apply count_between_split; [exact F1 |].
    pose proof (windows_last_le (last - Z.of_nat (S n)) (S n)) as L.
    replace (last - Z.of_nat (S n) + Z.of_nat (S n)) with last in L by lia.
    apply L. intros j Hj. apply F. lia.
Qed.

End Windows.



(** On a server in New York on 11 March 2024 the report of three days counts
    the visitor of 23:30 on 8 March in none of its days and the visitor of
    00:30 on 11 March in the last one; 10 March, when the clocks went
    forward, is a day of 23 hours, and the three days together hold one
    visitor. *)
Lemma daily_report_across_a_clock_change :
  get_reports_daily sample_verify march_env (report_request (Some "3") None)
    march_visitors
  = ok (DailyJson [("2024-03-09", 0); ("2024-03-10", 0); ("2024-03-11", 1)]) /\
  day_last new_york 19792 + 1 - day_first new_york 19792 = 23 * 3600 /\
  count_between (day_first new_york 19791) (day_last new_york 19793) march_visitors = 1.
Proof. split; [| split]; reflexivity. Qed.

(** X7: the counts of the daily report add up to the number of visitors
    checked in from the first second of its oldest local day to the last
    second of today, in every zone in which the days of the report are kept
    and follow one another: their windows have no gap and no overlap, also
    across a clock change. *)
Theorem daily_counts_add_up
    (jwt_verify : string -> option JsVal) (env : Env) (req : Request) (db : Table)
    (n : Z) :
  let tz := utc_offset env in
  let today := local_day tz (Date_now env) in
  let size := Z.min 30 (Z.max 1 n) in
  let first := today - (size - 1) in
  authMiddleware jwt_verify req = None ->
  bound_of (q_days (query req)) 7 = Some n ->
  29 <= today ->
  (forall j, first <= j <= today -> day_kept tz j) ->
  days_follow tz first today ->
  exists entries,
    get_reports_daily jwt_verify env req db = ok (DailyJson entries) /\
    sum_counts entries = count_between (day_first tz first) (day_last tz today) db.
Proof.
  cbv zeta. intros A B Htoday HK HF.
  set (tz := utc_offset env) in *. set (today := local_day tz (Date_now env)) in *.
  set (size := Z.min 30 (Z.max 1 n)) in *.
  assert (1 <= size <= 30) as Hsize by (subst size; lia).
  exists (map (daily_entry env db) (countdown (Z.to_nat size))).
  split.
  - unfold get_reports_daily. rewrite A. change "7" with (Number_toString 7).
    rewrite (window_size_bound _ 7 30 n B). reflexivity.
  - replace (Z.to_nat size) with (S (Z.to_nat (size - 1))) by lia.
    rewrite (sum_counts_windows (day_first tz) (day_last tz) today db).
    + f_equal. f_equal. lia.
    + intros j Hj. apply HF. lia.
    + intros i Hi. rewrite daily_entry_day by (fold tz; fold today; first [lia | apply HK; lia]).
      reflexivity.
Qed.

Lemma daily_counts_add_up_witness :
  exists entries,
    get_reports_daily sample_verify march_env (report_request (Some "3") None)
      march_visitors = ok (DailyJson entries) /\
    sum_counts entries
    = count_between (day_first new_york 19791) (day_last new_york 19793) march_visitors.
Proof.
  destruct (daily_counts_add_up sample_verify march_env
              (report_request (Some "3") None) march_visitors 3)
    as (entries & E & S).
  - reflexivity.
  - reflexivity.
  - vm_compute. discriminate.
  - intros j Hj. change (19791 <= j <= 19793) in Hj.
    assert (j = 19791 \/ j = 19792 \/ j = 19793) as [-> | [-> | ->]] by lia;
      vm_compute; reflexivity.
  - intros j Hj. change (19791 <= j <= 19793) in Hj.
    change (local_day (utc_offset march_env) (Date_now march_env)) with 19793.
    assert (j = 19791 \/ j = 19792 \/ j = 19793) as [-> | [-> | ->]] by lia;
      (split; [vm_compute; discriminate | intros Hlt; try lia; vm_compute; reflexivity]).
  - exists entries. split; [exact E | exact S].
Defined.

(** X8: the counts of the monthly report add up to the number of visitors
    checked in from the first second of its oldest month to the last second
    of the current month, in every zone in which the first days of the
    months of the report are kept and the months follow one another. *)
Theorem monthly_counts_add_up
    (jwt_verify : string -> option JsVal) (env : Env) (req : Request) (db : Table)
    (n : Z) :
  let tz := utc_offset env in
  let this_month := 12 * getFullYear tz (Date_now env) + getMonth tz (Date_now env) in
  let size := Z.min 24 (Z.max 1 n) in
  let first := this_month - (size - 1) in
  authMiddleware jwt_verify req = None ->
  bound_of (q_months (query req)) 6 = Some n ->
  1970 <= getFullYear tz (Date_now env) ->
  (forall j, first <= j <= this_month -> day_kept tz (month_day j)) ->
  months_follow tz first this_month ->
  exists entries,
    get_reports_monthly jwt_verify env req db = ok (MonthlyJson entries) /\
    sum_counts entries
    = count_between (month_first tz first) (month_last tz this_month) db.
Proof.
  cbv zeta. intros A B HY HK HF.
  set (tz := utc_offset env) in *.
  set (this_month := 12 * getFullYear tz (Date_now env) + getMonth tz (Date_now env)) in *.
  set (size := Z.min 24 (Z.max 1 n)) in *.
  assert (1 <= size <= 24) as Hsize by (subst size; lia).
  exists (map (monthly_entry env db) (countdown (Z.to_nat size))).
  split.
  - unfold get_reports_monthly. rewrite A. change "6" with (Number_toString 6).
    rewrite (window_size_bound _ 6 24 n B). reflexivity.
  - replace (Z.to_nat size) with (S (Z.to_nat (size - 1))) by lia.
    rewrite (sum_counts_windows (month_first tz) (month_last tz) this_month db).
    + f_equal. f_equal. lia.
    + intros j Hj. apply HF. lia.
    + intros i Hi.
      rewrite monthly_entry_index by (fold tz; fold this_month; first [lia | apply HK; lia]).
      reflexivity.
Qed.

Lemma monthly_counts_add_up_witness :
  exists entries,
    get_reports_monthly sample_verify january_env (report_request None (Some "7"))
      [july_visitor; alice] = ok (MonthlyJson entries) /\
    sum_counts entries
    = count_between (month_first new_york (12 * 2023 + 6))
        (month_last new_york (12 * 2024 + 0)) [july_visitor; alice].
Proof.
  destruct (monthly_counts_add_up sample_verify january_env
              (report_request None (Some "7")) [july_visitor; alice] 7)
    as (entries & E & S).
  - reflexivity.
  - reflexivity.
  - vm_compute. discriminate.
  - intros j Hj. change (24282 <= j <= 24288) in Hj.
    assert (j = 24282 \/ j = 24283 \/ j = 24284 \/ j = 24285 \/ j = 24286 \/ j = 24287
            \/ j = 24288)
      as [-> | [-> | [-> | [-> | [-> | [-> | ->]]]]]] by lia; vm_compute; reflexivity.
  - intros j Hj. change (24282 <= j <= 24288) in Hj.
    change (12 * getFullYear (utc_offset january_env) (Date_now january_env)
            + getMonth (utc_offset january_env) (Date_now january_env)) with 24288.
    assert (j = 24282 \/ j = 24283 \/ j = 24284 \/ j = 24285 \/ j = 24286 \/ j = 24287
            \/ j = 24288)
      as [-> | [-> | [-> | [-> | [-> | [-> | ->]]]]]] by lia;
      (split; [vm_compute; discriminate | intros Hlt; try lia; vm_compute; reflexivity]).
  - exists entries. split; [exact E | exact S].
Defined.

(** ** Accounts *)

Lemma find_user_app_new (username : JsVal) (s : string) (us : list User) (u : User) :
  bind_text username = Some s ->
  find_user username us = None ->
  user_username u = s ->
  find_user username (us ++ [u]) = Some u.
Proof.
  unfold find_user. intros -> F Hu.
  induction us as [| x us IH]; cbn in *.
  - rewrite Hu, String.eqb_refl. reflexivity.
  - destruct (user_username x =? s)%string; [discriminate | auto].
Qed.

Lemma insert_user_inv (id : string) (username : JsVal) (h c : string)
    (us us' : list User) :
  insert_user id username h c us = Some us' ->
  exists s, bind_text username = Some s /\ us' = (us ++ [mkUser id s h c])%list.
Proof.
  unfold insert_user. destruct (bind_text username) as [s |]; [| discriminate].
  destruct (existsb _ us); [discriminate |].
  intros [= <-]. eauto.
Qed.

Section AuthFacts.

Variable bcrypt_hash : string -> JsVal -> option string.
Variable bcrypt_compare : JsVal -> string -> option bool.
Variable signToken : Z -> string -> JsVal -> string.
Variable OTP_TTL_SECONDS : Z.

Lemma auth_register_created (env : AuthEnv) (body : option AuthBody)
    (db db' : AuthDb) (resp : AuthResponse) :
  auth_register bcrypt_hash signToken env body db = (resp, db') ->
  auth_status resp = 200 ->
  exists b s h,
    body = Some b /\
    truthy (username b) = true /\ truthy (password b) = true /\
    bind_text (username b) = Some s /\
    find_user (username b) (users db) = None /\
    bcrypt_hash (auth_salt env) (password b) = Some h /\
    db' = mkAuthDb (users db ++ [mkUser (auth_uuid env) s h (auth_iso env)]) (otps db) /\
    resp = auth_ok (SessionJson (auth_uuid env) (username b)
                      (signToken (auth_now env) (auth_uuid env) (username b))).
Proof.
  unfold auth_register. destruct body as [b |]; [| intros [= <- <-]; discriminate].
  destruct (truthy (username b)) eqn:Tu; cbn [negb orb];
    [| intros [= <- <-]; discriminate].
  destruct (truthy (password b)) eqn:Tp; cbn [negb];
    [| intros [= <- <-]; discriminate].
  destruct (find_user (username b) (users db)) eqn:F; [intros [= <- <-]; discriminate |].
  destruct (bcrypt_hash (auth_salt env) (password b)) as [h |] eqn:H;
    [| intros [= <- <-]; discriminate].
  destruct (insert_user _ _ _ _ _) as [us |] eqn:I; [| intros [= <- <-]; discriminate].
  apply insert_user_inv in I as (s & B & ->).
  intros [= <- <-] _. exists b, s, h. repeat split; auto.
Qed.

End AuthFacts.

(** X9: an account that has been registered can be logged into: after a
    register request is answered 200, a login with the same username and
    password is answered 200 with the id of the new account, provided that
    [bcrypt.compare] accepts a password against the hash that [bcrypt.hash]
    made of it. *)
Theorem register_then_login
    (bcrypt_hash : string -> JsVal -> option string)
    (bcrypt_compare : JsVal -> string -> option bool)
    (signToken : Z -> string -> JsVal -> string)
    (env env' : AuthEnv) (body : option AuthBody) (db db' : AuthDb)
    (resp : AuthResponse) :
  (forall salt p h, bcrypt_hash salt p = Some h -> bcrypt_compare p h = Some true) ->
  auth_register bcrypt_hash signToken env body db = (resp, db') ->
  auth_status resp = 200 ->
  exists b s,
    body = Some b /\
    bind_text (username b) = Some s /\
    resp = auth_ok (SessionJson (auth_uuid env) (username b)
                      (signToken (auth_now env) (auth_uuid env) (username b))) /\
    auth_login bcrypt_compare signToken env' body db'
    = auth_ok (SessionJson (auth_uuid env) (JStr s)
                 (signToken (auth_now env') (auth_uuid env) (JStr s))).
Proof.
  intros Hb R S.
  destruct (auth_register_created _ _ _ _ _ _ _ R S)
    as (b & s & h & -> & Tu & Tp & B & F & H & -> & ->).
  exists b, s. repeat split; auto.
  unfold auth_login. rewrite Tu, Tp. cbn [negb orb users].
  rewrite (find_user_app_new (username b) s (users db)
             (mkUser (auth_uuid env) s h (auth_iso env)) B F eq_refl).
  cbn [user_password_hash user_id user_username].
  rewrite (Hb _ _ _ H). reflexivity.
Qed.

Lemma sample_compare_hash (salt : string) (p : JsVal) (h : string) :
  sample_hash salt p = Some h -> sample_compare p h = Some true.
Proof.
  destruct p; try discriminate. intros [= <-]. cbn. rewrite String.eqb_refl. reflexivity.
Qed.

Lemma register_then_login_witness :
  exists b s,
    credentials "ann" "s3cret" = Some b /\
    bind_text (username b) = Some s /\
    auth_login sample_compare sample_sign later_auth_env (credentials "ann" "s3cret")
      (snd (auth_register sample_hash sample_sign sample_auth_env
              (credentials "ann" "s3cret") no_accounts))
    = auth_ok (SessionJson "u-9" (JStr s)
                 (sample_sign (auth_now later_auth_env) "u-9" (JStr s))).
Proof.
  destruct (register_then_login sample_hash sample_compare sample_sign
              sample_auth_env later_auth_env (credentials "ann" "s3cret")
              no_accounts
              (snd (auth_register sample_hash sample_sign sample_auth_env
                      (credentials "ann" "s3cret") no_accounts))
              (fst (auth_register sample_hash sample_sign sample_auth_env
                      (credentials "ann" "s3cret") no_accounts))
              sample_compare_hash eq_refl eq_refl)
    as (b & s & B & T & _ & L).
  exists b, s. split; [exact B | split; [exact T | exact L]].
Defined.

(** X10: a username can be registered once: a register request that
    follows one answered 200 and whose username is bound to the same text is
    refused with 400 and changes nothing, whatever its password: with
    "username already exists" when its username and its password are truthy,
    and with "username & password required" when one of them is missing or
    falsy.  As nothing changes, so is every such request after it. *)
Theorem register_twice_is_refused
    (bcrypt_hash : string -> JsVal -> option string)
    (signToken : Z -> string -> JsVal -> string)
    (env env' : AuthEnv) (body : option AuthBody) (b' : AuthBody)
    (db db' : AuthDb) (resp : AuthResponse) :
  auth_register bcrypt_hash signToken env body db = (resp, db') ->
  auth_status resp = 200 ->
  (exists b, body = Some b /\ bind_text (username b') = bind_text (username b)) ->
  auth_register bcrypt_hash signToken env' (Some b') db'
  = (auth_fail 400
       (if truthy (username b') && truthy (password b')
        then "username already exists" else "username & password required"),
     db').
Proof.
  intros R S (b0 & E0 & Eu).
  destruct (auth_register_created _ _ _ _ _ _ _ R S)
    as (b & s & h & -> & _ & _ & B & F & _ & -> & _).
  injection E0 as <-.
  unfold auth_register.
  destruct (truthy (username b')) eqn:Tu; [| reflexivity].
  destruct (truthy (password b')) eqn:Tp; [| reflexivity].
  cbn [negb orb andb users].
  assert (find_user (username b') (users db ++ [mkUser (auth_uuid env) s h (auth_iso env)])
          = Some (mkUser (auth_uuid env) s h (auth_iso env))) as X.
  { apply (find_user_app_new _ s); [congruence | | reflexivity].
    unfold find_user in *. rewrite Eu, B. rewrite B in F. exact F. }
  rewrite X. reflexivity.
Qed.

Lemma register_twice_is_refused_witness :
  auth_register sample_hash sample_sign later_auth_env (credentials "ann" "other")
    (snd (auth_register sample_hash sample_sign sample_auth_env
            (credentials "ann" "s3cret") no_accounts))
  = (auth_fail 400 "username already exists",
     snd (auth_register sample_hash sample_sign sample_auth_env
            (credentials "ann" "s3cret") no_accounts)) /\
  auth_register sample_hash sample_sign later_auth_env (credentials "ann" "")
    (snd (auth_register sample_hash sample_sign sample_auth_env
            (credentials "ann" "s3cret") no_accounts))
  = (auth_fail 400 "username & password required",
     snd (auth_register sample_hash sample_sign sample_auth_env
            (credentials "ann" "s3cret") no_accounts)).
Proof.
  split.
  - apply (register_twice_is_refused sample_hash sample_sign sample_auth_env
             later_auth_env (credentials "ann" "s3cret")
             (mkAuthBody (JStr "ann") (JStr "other") JUndefined JUndefined)
             no_accounts _
             (fst (auth_register sample_hash sample_sign sample_auth_env
                     (credentials "ann" "s3cret") no_accounts))).
    + reflexivity.
    + reflexivity.
    + eexists. split; reflexivity.
  - apply (register_twice_is_refused sample_hash sample_sign sample_auth_env
             later_auth_env (credentials "ann" "s3cret")
             (mkAuthBody (JStr "ann") (JStr "") JUndefined JUndefined)
             no_accounts _
             (fst (auth_register sample_hash sample_sign sample_auth_env
                     (credentials "ann" "s3cret") no_accounts))).
    + reflexivity.
    + reflexivity.
    + eexists. split; reflexivity.
Defined.

(** X11: a login with a username and a password is answered 200 exactly
    when an account with that username exists and [bcrypt.compare] accepts the
    password against its hash; an unknown username and a wrong password get
    the same answer, 400 "invalid credentials". *)
Theorem login_answers
    (bcrypt_compare : JsVal -> string -> option bool)
    (signToken : Z -> string -> JsVal -> string)
    (env : AuthEnv) (b : AuthBody) (db : AuthDb) :
  truthy (username b) = true ->
  truthy (password b) = true ->
  (auth_status (auth_login bcrypt_compare signToken env (Some b) db) = 200 <->
   exists user, find_user (username b) (users db) = Some user /\
                bcrypt_compare (password b) (user_password_hash user) = Some true) /\
  (find_user (username b) (users db) = None \/
   (exists user, find_user (username b) (users db) = Some user /\
                 bcrypt_compare (password b) (user_password_hash user) = Some false) ->
   auth_login bcrypt_compare signToken env (Some b) db
   = auth_fail 400 "invalid credentials").
Proof.
  intros Tu Tp. unfold auth_login. rewrite Tu, Tp. cbn [negb orb].
  destruct (find_user (username b) (users db)) as [user |].
  - destruct (bcrypt_compare (password b) (user_password_hash user)) as [[|] |] eqn:C.
    + split; [split; [eauto | reflexivity] |].
      intros [X | (u & [= <-] & X)]; congruence.
    + split; [split; [discriminate | intros (u & [= <-] & X); congruence] |].
      reflexivity.
    + split; [split; [discriminate | intros (u & [= <-] & X); congruence] |].
      intros [X | (u & [= <-] & X)]; congruence.
  - split; [split; [discriminate | intros (u & X & _); discriminate] | reflexivity].
Qed.

Lemma login_answers_witness :
  auth_login sample_compare sample_sign sample_auth_env (credentials "ann" "guess")
    (mkAuthDb [mkUser "u-1" "ann" "s3cret" "2023-01-01T00:00:00.000Z"] [])
  = auth_fail 400 "invalid credentials" /\
  auth_login sample_compare sample_sign sample_auth_env (credentials "bob" "guess")
    (mkAuthDb [mkUser "u-1" "ann" "s3cret" "2023-01-01T00:00:00.000Z"] [])
  = auth_fail 400 "invalid credentials".
Proof.
  split.
  - apply (proj2 (login_answers sample_compare sample_sign sample_auth_env
                    (mkAuthBody (JStr "ann") (JStr "guess") JUndefined JUndefined)
                    (mkAuthDb [mkUser "u-1" "ann" "s3cret" "2023-01-01T00:00:00.000Z"] [])
                    eq_refl eq_refl)).
    right. eexists. split; reflexivity.
  - apply (proj2 (login_answers sample_compare sample_sign sample_auth_env
                    (mkAuthBody (JStr "bob") (JStr "guess") JUndefined JUndefined)
                    (mkAuthDb [mkUser "u-1" "ann" "s3cret" "2023-01-01T00:00:00.000Z"] [])
                    eq_refl eq_refl)).
    left. reflexivity.
Defined.

(** ** One-time codes *)

Lemma fold_later_otp_In (l : list Otp) :
  forall init b, fold_left later_otp l init = Some b -> init = Some b \/ In b l.
Proof.
  induction l as [| o l IH]; intros init b H; cbn in H; [left; exact H |].
  apply IH in H as [H | H]; [| right; right; exact H].
  unfold later_otp in H. destruct init as [x |].
  - destruct (String.compare (otp_created_at x) (otp_created_at o));
      injection H as <-; auto using in_eq.
  - injection H as <-. right. left. reflexivity.
Qed.

Lemma latest_otp_app_new (phone : JsVal) (p id code c : string) (e : Z) (os : list Otp) :
  bind_text phone = Some p ->
  (forall o, In o os -> otp_phone o = p -> String.compare (otp_created_at o) c = Lt) ->
  latest_otp phone (os ++ [mkOtp id p code e false c]) = Some (mkOtp id p code e false c).
Proof.
  intros B Hold. unfold latest_otp. rewrite B, filter_app, fold_left_app.
  cbn [filter otp_phone]. rewrite String.eqb_refl. cbn [fold_left].
  destruct (fold_left later_otp (filter (fun o => (otp_phone o =? p)%string) os) None)
    as [b |] eqn:F; [| reflexivity].
  apply fold_later_otp_In in F as [F | F]; [discriminate |].
  apply filter_In in F as [Hin Hp]. apply String.eqb_eq in Hp.
  cbn [later_otp otp_created_at]. rewrite (Hold b Hin Hp). reflexivity.
Qed.

Lemma fold_later_otp_map (f : Otp -> Otp) (l : list Otp) :
  (forall o, otp_created_at (f o) = otp_created_at o) ->
  forall init, fold_left later_otp (map f l) (option_map f init)
               = option_map f (fold_left later_otp l init).
Proof.
  intros Hf. induction l as [| o l IH]; intros init; cbn [map fold_left]; [reflexivity |].
  rewrite <- IH. f_equal. destruct init as [x |]; cbn; [| reflexivity].
  rewrite !Hf. destruct (String.compare (otp_created_at x) (otp_created_at o)); reflexivity.
Qed.

Lemma filter_phone_map (f : Otp -> Otp) (p : string) (os : list Otp) :
  (forall o, otp_phone (f o) = otp_phone o) ->
  filter (fun o => (otp_phone o =? p)%string) (map f os)
  = map f (filter (fun o => (otp_phone o =? p)%string) os).
Proof.
  intros Hf. induction os as [| o os IH]; cbn; [reflexivity |].
  rewrite Hf. destruct (otp_phone o =? p)%string; cbn; rewrite IH; reflexivity.
Qed.

Lemma latest_otp_mark_used (phone : JsVal) (id : string) (os : list Otp) (row : Otp) :
  latest_otp phone os = Some row ->
  otp_id row = id ->
  exists row', latest_otp phone (mark_used id os) = Some row' /\ otp_used row' = true.
Proof.
  unfold latest_otp, mark_used. destruct (bind_text phone) as [p |]; [| discriminate].
  intros L Hid.
  set (f := fun o => if (otp_id o =? id)%string
                     then mkOtp (otp_id o) (otp_phone o) (otp_otp o) (otp_expires_at o)
                            true (otp_created_at o)
                     else o).
  assert (forall o, otp_created_at (f o) = otp_created_at o) as Hc
    by (intros o; unfold f; destruct (otp_id o =? id)%string; reflexivity).
  rewrite (filter_phone_map f p)
    by (intros o; unfold f; destruct (otp_id o =? id)%string; reflexivity).
  change (@None Otp) with (option_map f None).
  rewrite (fold_later_otp_map f _ Hc), L. cbn [option_map].
  eexists. split; [reflexivity |].
  unfold f. rewrite Hid, String.eqb_refl. reflexivity.
Qed.

Lemma find_user_none_username (phone : JsVal) (s : string) (us : list User) :
  bind_text phone = Some s ->
  find_user phone us = None ->
  existsb (fun u => (user_username u =? s)%string) us = false.
Proof.
  unfold find_user. intros -> F.
  induction us as [| u us IH]; cbn in *; [reflexivity |].
  destruct (user_username u =? s)%string; [discriminate | auto].
Qed.

Lemma truthy_bind (v : JsVal) : truthy v = true -> exists s, bind_text v = Some s.
Proof. destruct v; cbn; try discriminate; eauto. Qed.

Section OtpFacts.

Variable signToken : Z -> string -> JsVal -> string.

(** What a verification that is answered 200 has found and done. *)
Lemma auth_verify_otp_accepted (env : AuthEnv) (body : option AuthBody)
    (db db' : AuthDb) (resp : AuthResponse) :
  auth_verify_otp signToken env body db = (resp, db') ->
  auth_status resp = 200 ->
  exists b row,
    body = Some b /\
    truthy (auth_phone b) = true /\ truthy (auth_otp b) = true /\
    latest_otp (auth_phone b) (otps db) = Some row /\
    otp_used row = false /\
    auth_now env / 1000 <= otp_expires_at row /\
    otp_otp row = ToString (auth_otp b) /\
    otps db' = mark_used (otp_id row) (otps db) /\
    match find_user (auth_phone b) (users db) with
    | Some user =>
        users db' = users db /\
        resp = auth_ok (SessionJson (user_id user) (JStr (user_username user))
                          (signToken (auth_now env) (user_id user)
                             (JStr (user_username user))))
    | None =>
        exists s, bind_text (auth_phone b) = Some s /\
          users db' = (users db ++ [mkUser (auth_uuid env) s "" (auth_iso env)])%list /\
          resp = auth_ok (SessionJson (auth_uuid env) (auth_phone b)
                            (signToken (auth_now env) (auth_uuid env) (auth_phone b)))
    end.
Proof.
  unfold auth_verify_otp. destruct body as [b |]; [| intros [= <- <-]; discriminate].
  destruct (truthy (auth_phone b)) eqn:Tp; cbn [negb orb];
    [| intros [= <- <-]; discriminate].
  destruct (truthy (auth_otp b)) eqn:To; cbn [negb];
    [| intros [= <- <-]; discriminate].
  destruct (latest_otp (auth_phone b) (otps db)) as [row |] eqn:L;
    [| intros [= <- <-]; discriminate].
  destruct (otp_used row) eqn:U; [intros [= <- <-]; discriminate |].
  destruct (Z.ltb_spec (otp_expires_at row) (auth_now env / 1000)) as [Hx | Hx];
    [intros [= <- <-]; discriminate |].
  destruct (otp_otp row =? ToString (auth_otp b))%string eqn:C; cbn [negb];
    [| intros [= <- <-]; discriminate].
  apply String.eqb_eq in C.
  destruct (find_user (auth_phone b) (users db)) as [user |] eqn:F.
  - intros [= <- <-] _. exists b, row. rewrite F. repeat split; auto.
  - destruct (insert_user _ _ _ _ _) as [us |] eqn:I; [| intros [= <- <-]; discriminate].
    apply insert_user_inv in I as (s & B & ->).
    intros [= <- <-] _. exists b, row. rewrite F. repeat split; auto.
    exists s. repeat split; auto.
Qed.

End OtpFacts.

(** X12: a code that has just been sent is accepted: after a send-otp
    request is answered 200, a verify-otp request for the same phone with the
    code of that answer, made no later than [expires_at], is answered 200
    and leaves an account for the phone.  The code sent is taken to be the
    most recent one for the phone, and the id drawn for a new account not to
    be in use. *)
Theorem otp_sent_is_accepted
    (signToken : Z -> string -> JsVal -> string) (OTP_TTL_SECONDS : Z)
    (env env' : AuthEnv) (b b' : AuthBody) (db db1 : AuthDb) (resp : AuthResponse) :
  auth_send_otp OTP_TTL_SECONDS env (Some b) db = (resp, db1) ->
  auth_status resp = 200 ->
  (forall o, In o (otps db) -> Some (otp_phone o) = bind_text (auth_phone b) ->
             String.compare (otp_created_at o) (auth_iso env) = Lt) ->
  truthy (auth_phone b') = true ->
  bind_text (auth_phone b') = bind_text (auth_phone b) ->
  truthy (auth_otp b') = true ->
  ToString (auth_otp b') = auth_code env ->
  auth_now env' / 1000 <= auth_now env / 1000 + OTP_TTL_SECONDS ->
  (forall u, In u (users db) -> user_id u <> auth_uuid env') ->
  resp = auth_ok (OtpJson "OTP generated (DEV)" (auth_code env)
                    (auth_now env / 1000 + OTP_TTL_SECONDS)) /\
  exists resp' db2,
    auth_verify_otp signToken env' (Some b') db1 = (resp', db2) /\
    auth_status resp' = 200 /\
    find_user (auth_phone b') (users db2) <> None.
Proof.
  intros S St Hold Tp Bp To Co Ht Hid.
  unfold auth_send_otp in S.
  destruct (truthy (auth_phone b)) eqn:Tb; cbn [negb] in S;
    [| injection S as <- <-; discriminate].
  destruct (insert_otp _ _ _ _ _ _) as [os |] eqn:I;
    [| injection S as <- <-; discriminate].
  injection S as <- <-. split; [reflexivity |].
  unfold insert_otp in I.
  destruct (bind_text (auth_phone b)) as [p |] eqn:B; [| discriminate].
  destruct (existsb _ (otps db)); [discriminate |]. injection I as <-.
  assert (latest_otp (auth_phone b')
            (otps db ++ [mkOtp (auth_uuid env) p (auth_code env)
                           (auth_now env / 1000 + OTP_TTL_SECONDS) false (auth_iso env)])
          = Some (mkOtp (auth_uuid env) p (auth_code env)
                    (auth_now env / 1000 + OTP_TTL_SECONDS) false (auth_iso env))) as L.
  { apply latest_otp_app_new; [exact Bp |].
    intros o Hin Hp. apply Hold; [exact Hin | rewrite Hp; reflexivity]. }
  unfold auth_verify_otp. rewrite Tp, To. cbn [negb orb otps users].
  rewrite L. cbn [otp_used otp_expires_at otp_otp otp_id].
  destruct (Z.ltb_spec (auth_now env / 1000 + OTP_TTL_SECONDS) (auth_now env' / 1000));
    [lia |].
  rewrite Co, String.eqb_refl. cbn [negb].
  destruct (find_user (auth_phone b') (users db)) as [user |] eqn:F.
  - eexists _, _. split; [reflexivity |]. split; [reflexivity |].
    cbn [users]. rewrite F. discriminate.
  - unfold insert_user. rewrite Bp.
    assert (existsb (fun u => (user_id u =? auth_uuid env')%string
                              || (user_username u =? p)%string) (users db) = false) as E.
    { pose proof (find_user_none_username _ _ _ Bp F) as Hn.
      clear - Hid Hn. induction (users db) as [| u us IH]; cbn in *; [reflexivity |].
      apply orb_false_elim in Hn as [Hu Hn].
      rewrite Hu, IH by (auto; intros; apply Hid; auto).
      assert ((user_id u =? auth_uuid env')%string = false) as ->
        by (apply String.eqb_neq; apply Hid; left; reflexivity).
      reflexivity. }
    rewrite E. eexists _, _. split; [reflexivity |]. split; [reflexivity |].
    cbn [users].
    rewrite (find_user_app_new (auth_phone b') p (users db)
               (mkUser (auth_uuid env') p "" (auth_iso env')) Bp F eq_refl).
    discriminate.
Qed.

Lemma otp_sent_is_accepted_witness :
  exists resp' db2,
    auth_verify_otp sample_sign later_auth_env
      (phone_and_code (JStr "555-1111") (JNum 428913))
      (snd (auth_send_otp 300 sample_auth_env
              (phone_and_code (JStr "555-1111") JUndefined) no_accounts))
    = (resp', db2) /\
    auth_status resp' = 200 /\
    find_user (JStr "555-1111") (users db2) <> None.
Proof.
  destruct (otp_sent_is_accepted sample_sign 300 sample_auth_env later_auth_env
              (mkAuthBody JUndefined JUndefined (JStr "555-1111") JUndefined)
              (mkAuthBody JUndefined JUndefined (JStr "555-1111") (JNum 428913))
              no_accounts
              (snd (auth_send_otp 300 sample_auth_env
                      (phone_and_code (JStr "555-1111") JUndefined) no_accounts))
              (fst (auth_send_otp 300 sample_auth_env
                      (phone_and_code (JStr "555-1111") JUndefined) no_accounts)))
    as (_ & resp' & db2 & V & S & F).
  - reflexivity.
  - reflexivity.
  - intros o [].
  - reflexivity.
  - reflexivity.
  - reflexivity.
  - reflexivity.
  - vm_compute. discriminate.
  - intros u [].
  - exists resp', db2. split; [exact V | split; [exact S | exact F]].
Defined.

(** X13: a code is accepted once: a verify-otp request that follows one
    answered 200 and whose phone is bound to the same text is refused with
    400 and changes nothing, whatever its code and at any time: with "otp
    already used" when its phone and its code are truthy, and with "phone &
    otp required" when one of them is missing or falsy.  As nothing changes,
    so is every such request after it, as long as nothing else is written to
    the tables. *)
Theorem otp_is_single_use
    (signToken : Z -> string -> JsVal -> string)
    (env env' : AuthEnv) (body : option AuthBody) (b' : AuthBody)
    (db db' : AuthDb) (resp : AuthResponse) :
  auth_verify_otp signToken env body db = (resp, db') ->
  auth_status resp = 200 ->
  (exists b, body = Some b /\ bind_text (auth_phone b') = bind_text (auth_phone b)) ->
  auth_verify_otp signToken env' (Some b') db'
  = (auth_fail 400
       (if truthy (auth_phone b') && truthy (auth_otp b')
        then "otp already used" else "phone & otp required"),
     db').
Proof.
  intros V S (b0 & E0 & Bp).
  destruct (truthy (auth_phone b')) eqn:Tp;
    [| unfold auth_verify_otp; rewrite Tp; reflexivity].
  destruct (truthy (auth_otp b')) eqn:To;
    [| unfold auth_verify_otp; rewrite Tp, To; reflexivity].
  cbn [andb].
  destruct (auth_verify_otp_accepted _ _ _ _ _ _ V S)
    as (b & row & -> & _ & _ & L & _ & _ & _ & Hos & _).
  injection E0 as <-.
  assert (latest_otp (auth_phone b') (otps db) = Some row) as L'
    by (unfold latest_otp in *; rewrite Bp; exact L).
  destruct (latest_otp_mark_used _ _ _ _ L' eq_refl) as (row' & L2 & U).
  unfold auth_verify_otp. rewrite Tp, To. cbn [negb orb].
  rewrite Hos, L2, U. reflexivity.
Qed.

Lemma otp_is_single_use_witness :
  auth_verify_otp sample_sign later_auth_env
    (phone_and_code (JStr "555-1111") (JStr "428913"))
    (snd (auth_verify_otp sample_sign later_auth_env
            (phone_and_code (JStr "555-1111") (JStr "428913"))
            (snd (auth_send_otp 300 sample_auth_env
                    (phone_and_code (JStr "555-1111") JUndefined) no_accounts))))
  = (auth_fail 400 "otp already used",
     snd (auth_verify_otp sample_sign later_auth_env
            (phone_and_code (JStr "555-1111") (JStr "428913"))
            (snd (auth_send_otp 300 sample_auth_env
                    (phone_and_code (JStr "555-1111") JUndefined) no_accounts)))).
Proof.
  apply (otp_is_single_use sample_sign later_auth_env later_auth_env
           (phone_and_code (JStr "555-1111") (JStr "428913"))
           (mkAuthBody JUndefined JUndefined (JStr "555-1111") (JStr "428913"))
           (snd (auth_send_otp 300 sample_auth_env
                   (phone_and_code (JStr "555-1111") JUndefined) no_accounts))
           _
           (fst (auth_verify_otp sample_sign later_auth_env
                   (phone_and_code (JStr "555-1111") (JStr "428913"))
                   (snd (auth_send_otp 300 sample_auth_env
                           (phone_and_code (JStr "555-1111") JUndefined) no_accounts))))).
  - reflexivity.
  - reflexivity.
  - eexists. split; reflexivity.
Defined.

(** X14: a verification that is refused with 400 (no code, a used code, an
    expired code, a wrong code, a missing field) changes neither table: a
    wrong guess does not use up the code. *)
Theorem refused_otp_changes_nothing
    (signToken : Z -> string -> JsVal -> string)
    (env : AuthEnv) (body : option AuthBody) (db db' : AuthDb) (resp : AuthResponse) :
  auth_verify_otp signToken env body db = (resp, db') ->
  auth_status resp = 400 ->
  db' = db /\
  exists msg,
    resp = auth_fail 400 msg /\
    (msg = "phone & otp required" \/ msg = "no otp found" \/ msg = "otp already used"
     \/ msg = "otp expired" \/ msg = "invalid otp").
Proof.
  unfold auth_verify_otp. destruct body as [b |]; [| intros [= <- <-]; discriminate].
  destruct (negb (truthy (auth_phone b)) || negb (truthy (auth_otp b)));
    [intros [= <- <-] _; split; [reflexivity | eexists; split; [reflexivity | auto]] |].
  destruct (latest_otp (auth_phone b) (otps db)) as [row |];
    [| intros [= <- <-] _; split; [reflexivity | eexists; split; [reflexivity | auto]]].
  destruct (otp_used row);
    [intros [= <- <-] _; split; [reflexivity | eexists; split; [reflexivity | auto]] |].
  destruct (otp_expires_at row <? auth_now env / 1000);
    [intros [= <- <-] _; split; [reflexivity | eexists; split; [reflexivity | auto 6]] |].
  destruct (negb (otp_otp row =? ToString (auth_otp b))%string);
    [intros [= <- <-] _; split; [reflexivity | eexists; split; [reflexivity | auto 6]] |].
  destruct (find_user (auth_phone b) (users db)); [intros [= <- <-]; discriminate |].
  destruct (insert_user _ _ _ _ _); intros [= <- <-]; discriminate.
Qed.

Lemma refused_otp_changes_nothing_witness :
  snd (auth_verify_otp sample_sign later_auth_env
         (phone_and_code (JStr "555-1111") (JStr "000000"))
         (snd (auth_send_otp 300 sample_auth_env
                 (phone_and_code (JStr "555-1111") JUndefined) no_accounts)))
  = snd (auth_send_otp 300 sample_auth_env
           (phone_and_code (JStr "555-1111") JUndefined) no_accounts).
Proof.
  apply (refused_otp_changes_nothing sample_sign later_auth_env
           (phone_and_code (JStr "555-1111") (JStr "000000"))
           (snd (auth_send_otp 300 sample_auth_env
                   (phone_and_code (JStr "555-1111") JUndefined) no_accounts))
           _
           (fst (auth_verify_otp sample_sign later_auth_env
                   (phone_and_code (JStr "555-1111") (JStr "000000"))
                   (snd (auth_send_otp 300 sample_auth_env
                           (phone_and_code (JStr "555-1111") JUndefined) no_accounts))))).
  - reflexivity.
  - reflexivity.
Defined.

(** X15: a verification that is answered 200 signs the caller into the
    account whose username is the phone, and creates that account only when
    there is none: with an account, the answer carries its id and [users] is
    unchanged; without one, [users] gains exactly one row, with the drawn id,
    the phone as username and an empty password hash. *)
Theorem otp_account
    (signToken : Z -> string -> JsVal -> string)
    (env : AuthEnv) (b : AuthBody) (db db' : AuthDb) (resp : AuthResponse) :
  auth_verify_otp signToken env (Some b) db = (resp, db') ->
  auth_status resp = 200 ->
  (forall user, find_user (auth_phone b) (users db) = Some user ->
     users db' = users db /\
     exists name token, resp = auth_ok (SessionJson (user_id user) name token)) /\
  (find_user (auth_phone b) (users db) = None ->
     exists s, bind_text (auth_phone b) = Some s /\
       users db' = (users db ++ [mkUser (auth_uuid env) s "" (auth_iso env)])%list /\
       exists name token, resp = auth_ok (SessionJson (auth_uuid env) name token)).
Proof.
  intros V S.
  destruct (auth_verify_otp_accepted _ _ _ _ _ _ V S)
    as (b0 & row & [= <-] & _ & _ & _ & _ & _ & _ & _ & H).
  destruct (find_user (auth_phone b) (users db)) as [user |].
  - destruct H as [Hu ->]. split; [| discriminate].
    intros u [= <-]. split; [exact Hu | eauto].
  - destruct H as (s & B & Hu & ->). split; [discriminate |].
    intros _. exists s. repeat split; eauto.
Qed.

Lemma otp_account_witness :
  exists s,
    bind_text (JStr "555-1111") = Some s /\
    users (snd (auth_verify_otp sample_sign later_auth_env
                  (phone_and_code (JStr "555-1111") (JStr "428913"))
                  (snd (auth_send_otp 300 sample_auth_env
                          (phone_and_code (JStr "555-1111") JUndefined) no_accounts))))
    = ([] ++ [mkUser "u-10" s "" "2023-11-14T22:16:40.000Z"])%list.
Proof.
  destruct (otp_account sample_sign later_auth_env
              (mkAuthBody JUndefined JUndefined (JStr "555-1111") (JStr "428913"))
              (snd (auth_send_otp 300 sample_auth_env
                      (phone_and_code (JStr "555-1111") JUndefined) no_accounts))
              (snd (auth_verify_otp sample_sign later_auth_env
                      (phone_and_code (JStr "555-1111") (JStr "428913"))
                      (snd (auth_send_otp 300 sample_auth_env
                              (phone_and_code (JStr "555-1111") JUndefined) no_accounts))))
              (fst (auth_verify_otp sample_sign later_auth_env
                      (phone_and_code (JStr "555-1111") (JStr "428913"))
                      (snd (auth_send_otp 300 sample_auth_env
                              (phone_and_code (JStr "555-1111") JUndefined) no_accounts))))
              eq_refl eq_refl) as [_ N].
  destruct (N eq_refl) as (s & B & U & _).
  exists s. split; [exact B | exact U].
Defined.

(** ** The password reset script *)

Lemma find_user_update_password_hash (username : JsVal) (h : string)
    (us : list User) (user : User) :
  find_user username us = Some user ->
  find_user username (update_password_hash h (user_id user) us)
  = Some (mkUser (user_id user) (user_username user) h (user_created_at user)).
Proof.
  unfold find_user, update_password_hash.
  destruct (bind_text username) as [s |]; [| discriminate].
  induction us as [| x us IH]; cbn; [discriminate |].
  destruct (user_username x =? s)%string eqn:E.
  - intros [= ->]. rewrite String.eqb_refl. cbn. rewrite E. reflexivity.
  - intros F. destruct (user_id x =? user_id user)%string; cbn; rewrite E; auto.
Qed.

(** X16: the reset script ends with code 2 and changes nothing when no
    account has the username; when it ends with code 0, a login with that
    username and the new password (neither of them empty) is answered 200
    with the id of the account, provided that [bcrypt.compare] accepts a
    password against the hash that [bcrypt.hash] made of it; the usernames
    and ids of all accounts and the one-time codes are as before. *)
Theorem reset_password_then_login
    (bcrypt_hash : string -> JsVal -> option string)
    (bcrypt_compare : JsVal -> string -> option bool)
    (signToken : Z -> string -> JsVal -> string)
    (env env' : AuthEnv) (u p : string) (rest : list string) (db : AuthDb) :
  (forall salt p h, bcrypt_hash salt p = Some h -> bcrypt_compare p h = Some true) ->
  u <> "" -> p <> "" ->
  (find_user (JStr u) (users db) = None ->
   reset_password bcrypt_hash env (u :: p :: rest) db = (2, db)) /\
  (forall db',
     reset_password bcrypt_hash env (u :: p :: rest) db = (0, db') ->
     exists user,
       find_user (JStr u) (users db) = Some user /\
       auth_login bcrypt_compare signToken env'
         (Some (mkAuthBody (JStr u) (JStr p) JUndefined JUndefined)) db'
       = auth_ok (SessionJson (user_id user) (JStr u)
                    (signToken (auth_now env') (user_id user) (JStr u))) /\
       map user_id (users db') = map user_id (users db) /\
       map user_username (users db') = map user_username (users db) /\
       otps db' = otps db).
Proof.
  intros Hb Hu Hp. unfold reset_password. split.
  - intros ->. reflexivity.
  - intros db'. destruct (find_user (JStr u) (users db)) as [user |] eqn:F;
      [| discriminate].
    destruct (bcrypt_hash (auth_salt env) (JStr p)) as [h |] eqn:H; [| discriminate].
    intros [= <-]. exists user. split; [reflexivity |].
    assert (user_username user = u) as Eu.
    { unfold find_user in F. cbn in F. apply find_some in F as [_ E].
      apply String.eqb_eq. exact E. }
    repeat split.
    + unfold auth_login. cbn [username password truthy users].
      assert ((u =? "")%string = false) as -> by (apply String.eqb_neq; exact Hu).
      assert ((p =? "")%string = false) as -> by (apply String.eqb_neq; exact Hp).
      cbn [negb orb].
      rewrite (find_user_update_password_hash _ h _ _ F).
      cbn [user_password_hash user_id user_username].
      rewrite (Hb _ _ _ H), Eu. reflexivity.
    + cbn [users]. unfold update_password_hash. rewrite map_map. apply map_ext.
      intros x. destruct (user_id x =? user_id user)%string; reflexivity.
    + cbn [users]. unfold update_password_hash. rewrite map_map. apply map_ext.
      intros x. destruct (user_id x =? user_id user)%string; reflexivity.
Qed.

Lemma reset_password_then_login_witness :
  exists user,
    find_user (JStr "ann")
      [mkUser "u-1" "ann" "old" "2023-01-01T00:00:00.000Z"] = Some user /\
    auth_login sample_compare sample_sign later_auth_env
      (Some (mkAuthBody (JStr "ann") (JStr "fresh") JUndefined JUndefined))
      (snd (reset_password sample_hash sample_auth_env ["ann"; "fresh"]
              (mkAuthDb [mkUser "u-1" "ann" "old" "2023-01-01T00:00:00.000Z"] [])))
    = auth_ok (SessionJson (user_id user) (JStr "ann")
                 (sample_sign (auth_now later_auth_env) (user_id user) (JStr "ann"))).
Proof.
  destruct (reset_password_then_login sample_hash sample_compare sample_sign
              sample_auth_env later_auth_env "ann" "fresh" []
              (mkAuthDb [mkUser "u-1" "ann" "old" "2023-01-01T00:00:00.000Z"] [])
              sample_compare_hash) as [_ R].
  - discriminate.
  - discriminate.
  - destruct (R _ eq_refl) as (user & F & L & _).
    exists user. split; [exact F | exact L].
Defined.

(** ** The page buttons *)

Lemma count_up_In (start end_ p : Z) :
  In p (count_up start end_) <-> start <= p <= end_.
Proof.
  unfold count_up. rewrite in_map_iff. split.
  - intros (k & <- & I). apply in_seq in I. lia.
  - intros H. exists (Z.to_nat (p - start)). split; [lia |].
    apply in_seq. lia.
Qed.

Lemma count_up_length (start end_ : Z) :
  Z.of_nat (List.length (count_up start end_)) = Z.max 0 (end_ - start + 1).
Proof. unfold count_up. rewrite length_map, length_seq. lia. Qed.

Lemma count_up_nth (start end_ : Z) (k : nat) :
  (k < List.length (count_up start end_))%nat ->
  nth k (count_up start end_) 0 = start + Z.of_nat k.
Proof.
  unfold count_up. rewrite length_map, length_seq. intros H.
  rewrite (nth_indep _ 0 (start + Z.of_nat 0)) by (rewrite length_map, length_seq; lia).
  rewrite (map_nth (fun k => start + Z.of_nat k)), seq_nth by lia. reflexivity.
Qed.

(** X17: for a current page between 1 and the number of pages, the buttons
    of [Pagination] are at most five consecutive page numbers, all between 1
    and the number of pages and at most two below the current page, and the
    current page is one of them; the Prev and the Next button, when they
    are not disabled, ask for the page before and the page after, and never
    for a page outside the range. *)
Theorem pagination_window (page total : Z) :
  1 <= page <= total ->
  let pages := Pagination_pages page total in
  In page pages /\
  (List.length pages <= 5)%nat /\
  (forall p, In p pages -> 1 <= p <= total /\ page - 2 <= p <= page + 4) /\
  (forall k, (k < List.length pages)%nat -> nth k pages 0 = nth 0 pages 0 + Z.of_nat k) /\
  1 <= Pagination_prev page <= total /\
  1 <= Pagination_next page total <= total /\
  (Pagination_prev_disabled page = false -> Pagination_prev page = page - 1) /\
  (Pagination_next_disabled page total = false -> Pagination_next page total = page + 1).
Proof.
  intros H pages. subst pages. unfold Pagination_pages. cbv zeta.
  repeat split.
  - apply count_up_In. lia.
  - pose proof (count_up_length (Z.max 1 (page - 2))
                  (Z.min total (Z.max 1 (page - 2) + 4))). lia.
  - apply count_up_In in H0. lia.
  - apply count_up_In in H0. lia.
  - apply count_up_In in H0. lia.
  - apply count_up_In in H0. lia.
  - intros k Hk. rewrite !count_up_nth by lia. lia.
  - unfold Pagination_prev. lia.
  - unfold Pagination_prev. lia.
  - unfold Pagination_next. lia.
  - unfold Pagination_next. lia.
  - unfold Pagination_prev_disabled, Pagination_prev. intros D.
    apply Z.eqb_neq in D. lia.
  - unfold Pagination_next_disabled, Pagination_next. intros D.
    apply Z.eqb_neq in D. lia.
Qed.

Lemma pagination_window_witness :
  In 9 (Pagination_pages 9 10) /\ (List.length (Pagination_pages 9 10) <= 5)%nat.
Proof.
  assert (1 <= 9 <= 10) as H by lia.
  destruct (pagination_window 9 10 H) as (A & B & _).
  split; [exact A | exact B].
Defined.

(** ** The pages of the list *)

Lemma firstn_add {A : Type} (a b : nat) (l : list A) :
  firstn (a + b) l = (firstn a l ++ firstn b (skipn a l))%list.
Proof.
  revert l. induction a as [| a IH]; intros l; [reflexivity |].
  destruct l as [| x l]; cbn; [now rewrite firstn_nil | now rewrite IH].
Qed.

Lemma paged_chunk {A : Type} (page : Z) (l : list A) :
  1 <= page ->
  paged page l = firstn 8 (skipn (8 * Z.to_nat (page - 1)) l).
Proof.
  intros H. unfold paged, Array_slice, perPage. cbv zeta.
  assert (((page - 1) * 8 <? 0) = false) as -> by (apply Z.ltb_ge; lia).
  assert ((page * 8 <? 0) = false) as -> by (apply Z.ltb_ge; lia).
  set (len := Z.of_nat (List.length l)).
  destruct (Z.le_gt_cases len ((page - 1) * 8)) as [Hl | Hl].
  - rewrite !skipn_all2 by lia. now rewrite !firstn_nil.
  - replace (Z.to_nat (Z.min ((page - 1) * 8) len)) with (8 * Z.to_nat (page - 1))%nat by lia.
    destruct (Z.le_gt_cases (page * 8) len) as [Hf | Hf].
    + f_equal. lia.
    + rewrite !firstn_all2; [reflexivity | |]; rewrite length_skipn; lia.
Qed.

Lemma chunks_concat {A : Type} (l : list A) (n : nat) :
  List.concat (map (fun k => firstn 8 (skipn (8 * k) l)) (seq 0 n)) = firstn (8 * n) l.
Proof.
  induction n as [| n IH]; [reflexivity |].
  rewrite seq_S, map_app, concat_app, IH. cbn [map List.concat Nat.add].
  rewrite app_nil_r. replace (8 * S n)%nat with (8 * n + 8)%nat by lia.
  now rewrite firstn_add.
Qed.

Lemma totalPages_bounds {A : Type} (l : list A) :
  1 <= totalPages l /\
  Z.of_nat (List.length l) <= 8 * totalPages l /\
  (l <> [] -> 8 * (totalPages l - 1) < Z.of_nat (List.length l)).
Proof.
  unfold totalPages, Math_ceil_div, perPage.
  assert (l <> [] -> 0 < Z.of_nat (List.length l)) as N.
  { destruct l; [congruence | cbn [List.length]; lia]. }
  repeat split; [lia | Z.div_mod_to_equations; lia |].
  intros H. specialize (N H). Z.div_mod_to_equations. lia.
Qed.

(** X18: the pages of the list cut it without loss or overlap: the pages 1
    to [totalPages], one after the other, are the whole list in its order;
    no page has more than eight entries; every page up to [totalPages] of a
    list that is not empty has an entry, and every page after [totalPages]
    is empty. *)
Theorem pages_partition {A : Type} (visible : list A) :
  List.concat (map (fun p => paged p visible) (count_up 1 (totalPages visible))) = visible /\
  (forall p, (List.length (paged p visible) <= 8)%nat) /\
  (forall p, 1 <= p <= totalPages visible -> visible <> [] -> paged p visible <> []) /\
  (forall p, totalPages visible < p -> paged p visible = []).
Proof.
  destruct (totalPages_bounds visible) as (T1 & T2 & T3).
  repeat split.
  - unfold count_up. rewrite map_map.
    rewrite (map_ext_in _ (fun k => firstn 8 (skipn (8 * k) visible))).
    + rewrite chunks_concat. apply firstn_all2. lia.
    + intros k _. rewrite paged_chunk by lia. do 2 f_equal. lia.
  - intros p. unfold paged, Array_slice, perPage. cbv zeta.
    rewrite length_firstn, length_skipn.
    destruct (p * 8 <? 0) eqn:E1, ((p - 1) * 8 <? 0) eqn:E2;
      try apply Z.ltb_lt in E1; try apply Z.ltb_ge in E1;
      try apply Z.ltb_lt in E2; try apply Z.ltb_ge in E2; lia.
  - intros p Hp Hne. specialize (T3 Hne). rewrite paged_chunk by lia.
    intros E. apply (f_equal (@List.length A)) in E.
    rewrite length_firstn, length_skipn in E. cbn [List.length] in E. lia.
  - intros p Hp. rewrite paged_chunk by lia.
    rewrite skipn_all2 by lia. apply firstn_nil.
Qed.

(** ** The check-in wizard *)

Lemma blank_empty (s : string) : blank s = false -> truthy (JStr s) = true.
Proof. unfold blank. destruct (truthy (JStr s)); [reflexivity | discriminate]. Qed.

(** X19: [submitCheckin] sends no request exactly when the name or the
    phone of the form is empty.  A request that it sends is never answered
    400: the server creates the visitor or answers 500; a form that
    [nextFromDetails] lets through to the second step is sent.  When it is
    answered 200 and the browser's clock is past the first second of the
    epoch, the one new row has the name and the phone of the form and, as
    its check-in time, the browser's time in seconds, whatever the clock of
    the server says. *)
Theorem submitCheckin_creates
    (jwt_verify : string -> option JsVal) (env : Env) (Date_now : Z) (token : option string) (base : string)
    (form : Form) (photo : option string) (db : Table) :
  1000 <= Date_now ->
  (form_name form = "" \/ form_phone form = "" <->
   submitCheckin_request Date_now token base form photo = inr "Name and phone required") /\
  (nextFromDetails form = true ->
   exists req, submitCheckin_request Date_now token base form photo = inl req) /\
  (forall req,
     submitCheckin_request Date_now token base form photo = inl req ->
     let out := post_visitors jwt_verify env req db in
     status (fst out) <> 400 /\
     (status (fst out) = 200 ->
      exists r,
        snd out = (db ++ [r])%list /\
        row_name r = form_name form /\
        row_phone r = Some (form_phone form) /\
        row_checkin_time r = Date_now / 1000 /\
        row_checkout_time r = None)).
Proof.
  intros Hnow.
  assert (nextFromDetails form = true ->
          (form_name form =? "")%string = false /\ (form_phone form =? "")%string = false)
    as Hnext.
  { unfold nextFromDetails. intros H. apply negb_true_iff, orb_false_iff in H as [Hn Hp].
    apply blank_empty in Hn, Hp. cbn [truthy] in Hn, Hp.
    apply negb_true_iff in Hn, Hp. split; assumption. }
  unfold submitCheckin_request. cbv zeta.
  cbn [payload_of name phone truthy].
  destruct (form_name form =? "")%string eqn:N;
    destruct (form_phone form =? "")%string eqn:P; cbn [negb orb].
  1-3: split; [split; [reflexivity |] | split; [| discriminate]].
  1-6: try (intros _;
       repeat match goal with
              | H : (_ =? _)%string = true |- _ => apply String.eqb_eq in H
              end; auto; fail).
  1-3: intros H; destruct (Hnext H); discriminate.
  apply String.eqb_neq in N, P. split.
  { split; [intros [E | E]; contradiction | discriminate]. }
  split; [intros _; eexists; reflexivity |].
  intros req [= <-]. cbv zeta.
  set (req := mkRequest _ _ _ _ _ _).
  assert (0 < Date_now / 1000) as Hs by (Z.div_mod_to_equations; lia).
  assert (checkin_of env (checkin_time (body req)) = Some (Date_now / 1000)) as C.
  { unfold checkin_of. cbn [req body checkin_time payload_of truthy].
    assert ((Date_now / 1000 =? 0) = false) as -> by (apply Z.eqb_neq; lia).
    cbn [negb]. unfold parseInt. cbn [ToString]. apply parseInt_Number_toString. }
  destruct (post_visitors_cases jwt_verify env req db)
    as [(r & c & p & _ & _ & _ & _ & _ & E & _) | [(_ & _ & N' & _) | (_ & E & _)]].
  - rewrite E. cbn [fst snd status ok]. split; [lia |]. intros _.
    destruct (post_visitors_created _ _ _ _ _ _ E)
      as (pu & nm & c' & _ & Bn & C' & _ & D & _).
    apply app_inv_head in D. injection D as ->.
    eexists. split; [reflexivity |].
    cbn [row_name row_phone row_checkin_time row_checkout_time].
    cbn [req body name phone payload_of bind_text] in *.
    repeat split; try congruence.
    unfold js_or. cbn [truthy].
    assert ((form_phone form =? "")%string = false) as -> by (apply String.eqb_neq; exact P).
    reflexivity.
  - cbn [req body name payload_of truthy] in N'.
    apply negb_false_iff, String.eqb_eq in N'. contradiction.
  - rewrite E. cbn. split; [lia | discriminate].
Qed.

Lemma submitCheckin_creates_witness :
  exists req,
    submitCheckin_request 1700000000123 (Some "good") "http://localhost:4000"
      sample_form None = inl req /\
    status (fst (post_visitors sample_verify sample_env req [])) <> 400.
Proof.
  assert (1000 <= 1700000000123) as H by lia.
  destruct (submitCheckin_creates sample_verify sample_env 1700000000123 (Some "good")
              "http://localhost:4000" sample_form None [] H) as (_ & _ & S).
  eexists. split; [reflexivity |].
  exact (proj1 (S _ eq_refl)).
Defined.

(** ** The lists of the client *)

Lemma sort_insert_perm {A : Type} (cmp : A -> A -> option Z) (x : A) (l : list A) :
  Permutation (x :: l) (sort_insert cmp x l).
Proof.
  induction l as [| h t IH]; cbn; [reflexivity |].
  destruct (sorts_after cmp x h); [| reflexivity].
  rewrite perm_swap. apply perm_skip. exact IH.
Qed.

Lemma Array_sort_perm {A : Type} (cmp : A -> A -> option Z) (l : list A) :
  Permutation l (Array_sort cmp l).
Proof.
  induction l as [| x l IH]; cbn; [reflexivity |].
  rewrite <- sort_insert_perm. apply perm_skip. exact IH.
Qed.

Section SortFacts.

Context {A : Type}.
Variable cmp : A -> A -> option Z.
Variable key : A -> Z.
Variable P : A -> Prop.
Hypothesis cmp_key : forall a b, P a -> P b -> cmp a b = Some (key b - key a).

Let R (a b : A) : Prop := key b <= key a.

Lemma sort_insert_sorted (x : A) (l : list A) :
  P x -> Forall P l -> StronglySorted R l -> StronglySorted R (sort_insert cmp x l).
Proof.
  intros Px. induction l as [| h t IH]; intros Pl S; cbn.
  - repeat constructor.
  - apply StronglySorted_inv in S as [St Hh].
    apply Forall_cons_iff in Pl as [Ph Pt].
    unfold sorts_after. rewrite (cmp_key _ _ Px Ph).
    destruct (Z.ltb_spec 0 (key h - key x)) as [Hlt | Hge].
    + constructor; [apply IH; assumption |].
      eapply Permutation_Forall; [apply sort_insert_perm |].
      constructor; [unfold R; lia | exact Hh].
    + constructor; [constructor; assumption |].
      constructor; [unfold R; lia |].
      eapply Forall_impl; [| exact Hh]. unfold R. intros a Ha. lia.
Qed.

Lemma Array_sort_sorted (l : list A) :
  Forall P l -> StronglySorted R (Array_sort cmp l).
Proof.
  induction l as [| x l IH]; intros Pl; cbn; [constructor |].
  apply Forall_cons_iff in Pl as [Px Pl].
  apply sort_insert_sorted; [exact Px | | apply IH; exact Pl].
  eapply Permutation_Forall; [apply Array_sort_perm | exact Pl].
Qed.

Lemma Array_sort_id (l : list A) :
  Forall P l -> StronglySorted R l -> Array_sort cmp l = l.
Proof.
  induction l as [| x l IH]; intros Pl S; cbn; [reflexivity |].
  apply Forall_cons_iff in Pl as [Px Pl].
  apply StronglySorted_inv in S as [St Hx].
  fold (Array_sort cmp l). rewrite (IH Pl St).
  destruct l as [| h t]; [reflexivity |]. cbn.
  apply Forall_cons_iff in Pl as [Ph _]. apply Forall_cons_iff in Hx as [Hh _].
  unfold sorts_after. rewrite (cmp_key _ _ Px Ph).
  destruct (Z.ltb_spec 0 (key h - key x)); [unfold R in Hh; lia | reflexivity].
Qed.

End SortFacts.

Lemma seconds_of_small (t : Z) : t <= 10000000000 -> seconds_of t = t.
Proof.
  intros H. unfold seconds_of.
  destruct (Z.ltb_spec 10000000000 t); [lia | reflexivity].
Qed.

Lemma normalize_checkin_time_number (Date_parse : string -> option Z) (t : Z) :
  normalize_checkin_time Date_parse (JNum t) = JNum (seconds_of t).
Proof.
  unfold normalize_checkin_time, seconds_of, js_or.
  destruct (10000000000 <? t); cbn [truthy].
  - destruct (t / 1000 =? 0) eqn:E; cbn [negb]; [| reflexivity].
    apply Z.eqb_eq in E. rewrite E. reflexivity.
  - destruct (t =? 0) eqn:E; cbn [negb]; [| reflexivity].
    apply Z.eqb_eq in E. rewrite E. reflexivity.
Qed.

Lemma normalize_checkout_time_number (Date_parse : string -> option Z) (c : Z) :
  normalize_checkout_time Date_parse (JNum c)
  = if seconds_of c =? 0 then JNull else JNum (seconds_of c).
Proof.
  unfold normalize_checkout_time, seconds_of, js_or. cbn [truthy].
  destruct (Z.eqb_spec c 0) as [-> | Hc]; cbn [negb]; [reflexivity |].
  destruct (Z.ltb_spec 10000000000 c) as [Hb | Hs]; cbn [truthy].
  - destruct (c / 1000 =? 0); reflexivity.
  - destruct (Z.eqb_spec c 0); [contradiction | reflexivity].
Qed.

Section ListFacts.

Variable Date_parse : string -> option Z.
Variable StringToNumber : string -> option Z.


Lemma by_checkin_desc_key (a b : ClientVisitor) :
  number_or_null a -> number_or_null b ->
  by_checkin_desc StringToNumber a b = Some (shown_checkin b - shown_checkin a).
Proof.
  intros [Ha | [n Ha]] [Hb | [m Hb]]; unfold by_checkin_desc, shown_checkin, js_or;
    rewrite Ha, Hb; cbn [truthy]; try reflexivity.
  - destruct (Z.eqb_spec m 0) as [-> | ?]; reflexivity.
  - destruct (Z.eqb_spec n 0) as [-> | ?]; reflexivity.
  - destruct (Z.eqb_spec n 0) as [-> | ?], (Z.eqb_spec m 0) as [-> | ?]; reflexivity.
Qed.

Lemma parsed_items_numbers (v : list VisitorJson) :
  Forall number_or_null (map (parsed_item Date_parse) v).
Proof.
  apply Forall_forall. intros x Hx. apply in_map_iff in Hx as (y & <- & _).
  right. eexists. unfold parsed_item, item_checkin_time. cbn [cv_checkin_time].
  apply normalize_checkin_time_number.
Qed.

Lemma resolved_sorted (b : string) (rows : list Visitor) :
  (forall r, In r rows -> row_checkin_time r <= 10000000000) ->
  StronglySorted desc rows ->
  StronglySorted newest_first (map (parsed_item Date_parse) (map (resolve_photo b) rows)).
Proof.
  intros Hs S. induction S as [| r rows S IH Hr]; cbn [map]; [constructor |].
  constructor; [apply IH; intros x Hx; apply Hs; right; exact Hx |].
  apply Forall_forall. intros x Hx.
  apply in_map_iff in Hx as (y & <- & Hy). apply in_map_iff in Hy as (z & <- & Hz).
  unfold newest_first, shown_checkin, parsed_item, item_checkin_time.
  cbn [cv_checkin_time resolve_photo row].
  rewrite !normalize_checkin_time_number.
  rewrite !seconds_of_small by (apply Hs; cbn; auto).
  rewrite Forall_forall in Hr. apply Hr. exact Hz.
Qed.

Lemma loadAll_checkin_time_number (t : Z) :
  loadAll_checkin_time Date_parse StringToNumber (JNum t)
  = if t =? 0 then JNull else JNum t.
Proof.
  unfold loadAll_checkin_time. cbn [ToNumber truthy].
  destruct (Z.eqb_spec t 0) as [-> | ?]; reflexivity.
Qed.

End ListFacts.

(** X20: what [loadVisitors] makes of the list.  For a caller whose token
    verifies it returns one item per listed visitor, each with the stored
    check-in time in seconds (a time above 10,000,000,000 divided by 1000)
    and with the checkout time likewise, or null when there is none or it
    is 0, in descending order of the check-in times shown.  When no stored
    check-in time exceeds 10,000,000,000 the items are in the order of the
    server's answer and show the stored check-in times.  A caller that the
    server refuses gets the server's message as the error. *)
Theorem loadVisitors_of_list
    (jwt_verify : string -> option JsVal)
    (Date_parse StringToNumber : string -> option Z)
    (env : Env) (req : Request) (db : Table) :
  let res := get_visitors jwt_verify env req db in
  (authMiddleware jwt_verify req = None ->
   exists rows parsed,
     res = ok (VisitorsJson rows) /\
     loadVisitors Date_parse StringToNumber res = inl parsed /\
     Permutation (map it parsed) rows /\
     StronglySorted newest_first parsed /\
     (forall x, In x parsed ->
        cv_checkin_time x = JNum (seconds_of (row_checkin_time (row (it x)))) /\
        cv_checkout_time x
        = match row_checkout_time (row (it x)) with
          | Some c => if seconds_of c =? 0 then JNull else JNum (seconds_of c)
          | None => JNull
          end) /\
     ((forall r, In r db -> row_checkin_time r <= 10000000000) ->
      map it parsed = rows /\
      map cv_checkin_time parsed = map (fun x => JNum (row_checkin_time (row x))) rows)) /\
  (authMiddleware jwt_verify req <> None ->
   loadVisitors Date_parse StringToNumber res = inr "Missing token" \/
   loadVisitors Date_parse StringToNumber res = inr "Invalid token").
Proof.
  cbv zeta. split.
  - intros Au. unfold get_visitors. rewrite Au.
    set (rs := select_between _ _ db).
    set (rows := map (resolve_photo (base req)) rs).
    exists rows, (Array_sort (by_checkin_desc StringToNumber)
                    (map (parsed_item Date_parse) rows)).
    pose proof (Array_sort_perm (by_checkin_desc StringToNumber)
                  (map (parsed_item Date_parse) rows)) as Pm.
    assert (forall x, In x (map (parsed_item Date_parse) rows) ->
              cv_checkin_time x = JNum (seconds_of (row_checkin_time (row (it x)))) /\
              cv_checkout_time x
              = match row_checkout_time (row (it x)) with
                | Some c => if seconds_of c =? 0 then JNull else JNum (seconds_of c)
                | None => JNull
                end) as Hx.
    { intros x Hx. apply in_map_iff in Hx as (y & <- & _).
      unfold parsed_item, item_checkin_time, item_checkout_time.
      cbn [cv_checkin_time cv_checkout_time it].
      split; [apply normalize_checkin_time_number |].
      destruct (row_checkout_time (row y)); [apply normalize_checkout_time_number |].
      reflexivity. }
    split; [reflexivity |]. split; [reflexivity |]. split; [| split; [| split]].
    + rewrite <- Pm, map_map. cbn [parsed_item it]. rewrite map_id. reflexivity.
    + apply (Array_sort_sorted _ shown_checkin _ (by_checkin_desc_key StringToNumber)).
      apply parsed_items_numbers.
    + intros x I. apply Hx. apply (Permutation_in _ (Permutation_sym Pm)). exact I.
    + intros Hs.
      assert (forall r, In r rs -> row_checkin_time r <= 10000000000) as Hrs.
      { intros r I. apply Hs.
        apply (Permutation_in _ (Permutation_sym (order_by_checkin_desc_perm _))) in I.
        apply filter_In in I. tauto. }
      rewrite (Array_sort_id _ shown_checkin _ (by_checkin_desc_key StringToNumber))
        by (apply parsed_items_numbers || (apply resolved_sorted;
              [exact Hrs | apply order_by_checkin_desc_sorted])).
      rewrite !map_map. cbn [parsed_item it cv_checkin_time]. split; [apply map_id |].
      apply map_ext_in. intros x I. unfold item_checkin_time.
      rewrite normalize_checkin_time_number, seconds_of_small; [reflexivity |].
      apply in_map_iff in I as (r & <- & I). apply Hrs. exact I.
  - intros Au. unfold get_visitors.
    destruct (authMiddleware jwt_verify req) as [rej |] eqn:E; [| congruence].
    unfold authMiddleware in E.
    destruct (authorization req) as [auth |]; [| injection E as <-; left; reflexivity].
    destruct (negb (startsWith auth "Bearer ")); [injection E as <-; left; reflexivity |].
    destruct (jwt_verify (slice_from 7 auth)); [discriminate |].
    injection E as <-. right. reflexivity.
Qed.

(** X21: what [loadAll] of the reports page makes of the list.  Its sort
    leaves the visitors in the order of the server's answer, and every item
    shows the stored check-in time as it is, null in place of 0: unlike the
    list of the dashboard, a time above 10,000,000,000 is not divided by
    1000.  The two pages show the same check-in time for a visitor exactly
    when the stored time is at most 10,000,000,000 and not 0. *)
Theorem loadAll_of_list
    (jwt_verify : string -> option JsVal)
    (Date_parse StringToNumber : string -> option Z)
    (env : Env) (req : Request) (db : Table) :
  authMiddleware jwt_verify req = None ->
  exists rows,
    get_visitors jwt_verify env req db = ok (VisitorsJson rows) /\
    map it (loadAll_visitors Date_parse StringToNumber rows) = rows /\
    (forall x, In x (loadAll_visitors Date_parse StringToNumber rows) ->
       let t := row_checkin_time (row (it x)) in
       cv_checkin_time x = (if t =? 0 then JNull else JNum t) /\
       cv_checkout_time x = item_checkout_time (it x) /\
       (cv_checkin_time x = cv_checkin_time (parsed_item Date_parse (it x))
        <-> t <= 10000000000 /\ t <> 0)).
Proof.
  intros Au. unfold get_visitors. rewrite Au.
  set (rs := select_between _ _ db).
  set (rows := map (resolve_photo (base req)) rs).
  exists rows. split; [reflexivity |].
  set (f := fun x => mkClientVisitor x
                       (loadAll_checkin_time Date_parse StringToNumber (item_checkin_time x))
                       (item_checkout_time x)).
  assert (loadAll_visitors Date_parse StringToNumber rows = map f rows) as ->.
  { unfold loadAll_visitors. fold f.
    apply (Array_sort_id _ shown_checkin _ (by_checkin_desc_key StringToNumber)).
    - apply Forall_forall. intros x Hx. apply in_map_iff in Hx as (y & <- & _).
      unfold f, item_checkin_time, number_or_null. cbn [cv_checkin_time].
      rewrite loadAll_checkin_time_number.
      destruct (row_checkin_time (row y) =? 0); [left | right; eexists]; reflexivity.
    - subst rows. pose proof (order_by_checkin_desc_sorted
                                (filter (between (parseInt_string (query_or (q_from (query req)) "0"))
                                           (parseInt_string (query_or (q_to (query req))
                                              (Number_toString (now_seconds env))))) db)) as S.
      fold (select_between (parseInt_string (query_or (q_from (query req)) "0"))
              (parseInt_string (query_or (q_to (query req))
                 (Number_toString (now_seconds env)))) db) in S.
      fold rs in S. clearbody rs. induction S as [| r l S IH Hr]; cbn [map]; [constructor |].
      constructor; [exact IH |].
      apply Forall_forall. intros x Hx.
      apply in_map_iff in Hx as (y & <- & Hy). apply in_map_iff in Hy as (z & <- & Hz).
      unfold shown_checkin, f, item_checkin_time. cbn [cv_checkin_time resolve_photo row].
      rewrite !loadAll_checkin_time_number.
      rewrite Forall_forall in Hr. specialize (Hr z Hz). unfold desc in Hr.
      destruct (Z.eqb_spec (row_checkin_time z) 0) as [Ez | ?],
               (Z.eqb_spec (row_checkin_time r) 0) as [Er | ?]; lia. }
  split; [rewrite map_map; cbn [f it]; apply map_id |].
  intros x Hx. apply in_map_iff in Hx as (y & <- & _). cbv zeta.
  unfold f, parsed_item, item_checkin_time. cbn [it cv_checkin_time cv_checkout_time].
  rewrite loadAll_checkin_time_number, normalize_checkin_time_number.
  split; [reflexivity | split; [reflexivity |]].
  unfold seconds_of.
  destruct (Z.eqb_spec (row_checkin_time (row y)) 0) as [E | E];
    destruct (Z.ltb_spec 10000000000 (row_checkin_time (row y))) as [B | B].
  - lia.
  - split; [discriminate | lia].
  - split; [| lia]. intros [= Q]. Z.div_mod_to_equations. lia.
  - split; [lia | reflexivity].
Qed.

Lemma loadVisitors_of_list_witness :
  exists parsed,
    loadVisitors no_Date_parse no_StringToNumber
      (get_visitors sample_verify sample_env
         (list_request (Some "Bearer good") no_query) [alice; set_checkout 5 alice])
    = inl parsed /\
    StronglySorted newest_first parsed.
Proof.
  destruct (loadVisitors_of_list sample_verify no_Date_parse no_StringToNumber
              sample_env (list_request (Some "Bearer good") no_query)
              [alice; set_checkout 5 alice]) as [H _].
  destruct (H eq_refl) as (rows & parsed & _ & L & _ & S & _).
  exists parsed. split; [exact L | exact S].
Defined.

Lemma loadAll_of_list_witness :
  exists rows,
    get_visitors sample_verify sample_env
      (list_request (Some "Bearer good") no_query) [alice; set_checkout 5 alice]
    = ok (VisitorsJson rows) /\
    map it (loadAll_visitors no_Date_parse no_StringToNumber rows) = rows.
Proof.
  destruct (loadAll_of_list sample_verify no_Date_parse no_StringToNumber
              sample_env (list_request (Some "Bearer good") no_query)
              [alice; set_checkout 5 alice] eq_refl) as (rows & E & M & _).
  exists rows. split; [exact E | exact M].
Defined.

(** ** The statistics of the sidebar *)

(** X22: the statistics of the sidebar, computed from the default list of a
    caller whose token verifies, by a browser with the clock and the zone
    of the server on a day that is not before 1970.  The visitors in and
    the visitors out add up to the visitors listed.  Where the zone keeps
    the day, the number for today is at most the count of the last entry of
    the daily report, and equal to it when every stored check-in time lies
    between 0 and now. *)
Theorem sidebar_stats
    (jwt_verify : string -> option JsVal) (StringToNumber : string -> option Z)
    (env : Env) (req : Request) (db : Table) :
  authMiddleware jwt_verify req = None ->
  q_from (query req) = None -> q_to (query req) = None ->
  0 <= local_day (utc_offset env) (Date_now env) ->
  exists rows,
    get_visitors jwt_verify env req db = ok (VisitorsJson rows) /\
    let s := loadStats StringToNumber (utc_offset env) (Date_now env) rows in
    let kept := day_kept (utc_offset env) (local_day (utc_offset env) (Date_now env)) in
    stats_in s + stats_out s = Z.of_nat (List.length rows) /\
    (kept -> stats_today s <= snd (daily_entry env db 0)) /\
    ((forall r, In r db -> 0 <= row_checkin_time r <= now_seconds env) ->
     (kept -> stats_today s = snd (daily_entry env db 0)) /\
     List.length rows = List.length db).
Proof.
  intros Au Qf Qt Hday. unfold get_visitors. rewrite Au, Qf, Qt.
  change (query_or None "0") with (Number_toString 0).
  change (query_or None (Number_toString (now_seconds env)))
    with (Number_toString (now_seconds env)).
  rewrite !parseInt_Number_toString.
  eexists. split; [reflexivity |]. cbv zeta.
  unfold loadStats. cbv zeta. cbn [stats_in stats_out stats_today].
  set (tz := utc_offset env) in *. set (now := Date_now env) in *.
  replace (getDate tz now) with (getDate tz now - 0) by lia.
  destruct (day_window tz now 0 Hday) as (_ & Hs & He). rewrite Hs, He.
  set (today := local_day tz now) in *.
  assert (day_kept tz today ->
          snd (daily_entry env db 0)
          = count_between (day_first tz (today - 0)) (day_last tz (today - 0)) db) as Hd.
  { intros K.
    rewrite daily_entry_day
      by (fold tz now today; first [lia | rewrite Z.sub_0_r; exact K]).
    reflexivity. }
  unfold count_between in Hd. rewrite !filter_map_length.
  set (p := fun a : Visitor => _ && _).
  assert (forall l, filter p l
            = filter (between (Some (day_first tz (today - 0)))
                        (Some (day_last tz (today - 0)))) l) as Hp.
  { intros l. apply filter_ext. intros a. unfold p, between, Number_or_0, item_checkin_time.
    cbn [ToNumber resolve_photo row]. reflexivity. }
  unfold select_between.
  set (listed := filter (between (Some 0) (Some (now_seconds env))) db).
  pose proof (order_by_checkin_desc_perm listed) as Pm.
  split; [| split].
  - rewrite length_map, <- (filter_negb_length
                              (fun a => truthy (item_checkout_time
                                                  (resolve_photo (base req) a)))
                              (order_by_checkin_desc listed)).
    lia.
  - intros K. rewrite (Hd K).
    rewrite <- (Permutation_filter_length p _ _ Pm), !Hp.
    pose proof (proj1 (filter_filter_length
                         (between (Some (day_first tz (today - 0)))
                            (Some (day_last tz (today - 0))))
                         (between (Some 0) (Some (now_seconds env))) db)).
    fold listed in H. lia.
  - intros Hall.
    assert (forall a, In a db -> between (Some 0) (Some (now_seconds env)) a = true) as Hb.
    { intros a Ha. specialize (Hall a Ha). unfold between.
      apply andb_true_iff. split; apply Z.leb_le; lia. }
    split.
    + intros K. rewrite (Hd K).
      rewrite <- (Permutation_filter_length p _ _ Pm), !Hp.
      unfold listed.
      rewrite (proj2 (filter_filter_length _ _ db) Hb). reflexivity.
    + rewrite length_map, <- (Permutation_length Pm). unfold listed.
      f_equal. clear - Hb. induction db as [| a l IH]; [reflexivity |].
      cbn [filter]. rewrite (Hb a) by (left; reflexivity).
      f_equal. apply IH. intros b Hb'. apply Hb. right. exact Hb'.
Qed.

Lemma sidebar_stats_witness :
  exists rows,
    get_visitors sample_verify east_env
      (list_request (Some "Bearer good") no_query) [today_visitor]
    = ok (VisitorsJson rows) /\
    stats_today (loadStats no_StringToNumber (utc_offset east_env) (Date_now east_env) rows)
    <= snd (daily_entry east_env [today_visitor] 0).
Proof.
  assert (0 <= local_day (utc_offset east_env) (Date_now east_env)) as H
    by (vm_compute; discriminate).
  destruct (sidebar_stats sample_verify no_StringToNumber east_env
              (list_request (Some "Bearer good") no_query) [today_visitor]
              eq_refl eq_refl eq_refl H) as (rows & E & _ & T & _).
  exists rows. split; [exact E |]. apply T. vm_compute. reflexivity.
Defined.

(** ** The session *)

Lemma startsWith_prefix (p t : string) : startsWith (p ++ t) p = true.
Proof.
  unfold startsWith. induction p as [| a p IH].
  - destruct t; reflexivity.
  - change (match Ascii.ascii_dec a a with
            | left _ => String.prefix p (p ++ t)
            | right _ => false
            end = true).
    destruct (Ascii.ascii_dec a a); [exact IH | contradiction].
Qed.

Lemma authMiddleware_bearer
    (jwt_verify : string -> option JsVal) (t : string) (u : Multer) (b : Body)
    (p : string) (q : Query) (h : string) :
  authMiddleware jwt_verify (mkRequest (Some ("Bearer " ++ t)) u b p q h)
  = match jwt_verify t with
    | Some _ => None
    | None => Some (fail 401 "Invalid token")
    end.
Proof.
  unfold authMiddleware. cbn [authorization].
  rewrite startsWith_prefix.
  reflexivity.
Qed.

Lemma created_by_of_bearer
    (jwt_verify : string -> option JsVal) (t : string) (u : Multer) (b : Body)
    (p : string) (q : Query) (h : string) :
  created_by_of jwt_verify (mkRequest (Some ("Bearer " ++ t)) u b p q h)
  = match jwt_verify t with
    | Some id => id
    | None => JNull
    end.
Proof.
  unfold created_by_of. cbn [authorization].
  rewrite startsWith_prefix.
  reflexivity.
Qed.

(** X23: signing in and checking a visitor in.  When the login is answered
    200, the account of that username exists, and with the token that
    [submit] stores, provided that [jwt.verify] accepts the tokens signed at
    the login for the accounts and gives their id, and that such a token is
    not the empty text:
    every request of [apiFetch] passes [authMiddleware], and a check-in that
    [submitCheckin] sends and the server answers 200 is recorded with the id
    of that account as [created_by].  With no token stored, [apiFetch] sends
    no Authorization header and [authMiddleware] answers 401. *)
Theorem session_of_login
    (bcrypt_compare : JsVal -> string -> option bool)
    (signToken : Z -> string -> JsVal -> string)
    (jwt_verify : string -> option JsVal)
    (aenv : AuthEnv) (b : AuthBody) (adb : AuthDb) (old : option string)
    (env : Env) (Date_now : Z) (base : string) (form : Form) (photo : option string)
    (db : Table) :
  (forall user, In user (users adb) ->
     let t := signToken (auth_now aenv) (user_id user) (JStr (user_username user)) in
     t <> "" /\ jwt_verify t = Some (JStr (user_id user))) ->
  auth_status (auth_login bcrypt_compare signToken aenv (Some b) adb) = 200 ->
  let token := Login_submit (auth_login bcrypt_compare signToken aenv (Some b) adb) old in
  exists user,
    find_user (username b) (users adb) = Some user /\
    (forall u bd p q,
       authMiddleware jwt_verify
         (mkRequest (apiFetch_authorization token) u bd p q base) = None) /\
    (forall req,
       submitCheckin_request Date_now token base form photo = inl req ->
       status (fst (post_visitors jwt_verify env req db)) = 200 ->
       exists r,
         snd (post_visitors jwt_verify env req db) = (db ++ [r])%list /\
         row_created_by r = Some (user_id user)) /\
    (forall u bd p q,
       authMiddleware jwt_verify
         (mkRequest (apiFetch_authorization None) u bd p q base)
       = Some (fail 401 "Missing token")).
Proof.
  intros Hv. unfold auth_login.
  destruct (negb (truthy (username b)) || negb (truthy (password b))); [discriminate |].
  destruct (find_user (username b) (users adb)) as [user |] eqn:F; [| discriminate].
  destruct (bcrypt_compare (password b) (user_password_hash user)) as [[] |];
    try discriminate.
  intros _. unfold Login_submit. cbn [auth_ok auth_status auth_json].
  change ((200 <=? 200) && (200 <=? 299)) with true. cbv iota.
  assert (In user (users adb)) as I.
  { unfold find_user in F. destruct (bind_text (username b)); [| discriminate].
    apply find_some in F. tauto. }
  destruct (Hv user I) as [Hne Hok]. cbv zeta in Hne, Hok.
  set (t := signToken (auth_now aenv) (user_id user) (JStr (user_username user))) in *.
  assert (apiFetch_authorization (Some t) = Some ("Bearer " ++ t)) as Ha.
  { unfold apiFetch_authorization.
    destruct (String.eqb_spec t ""); [contradiction | reflexivity]. }
  exists user. split; [reflexivity |]. rewrite Ha. split; [| split].
  - intros u bd p q. rewrite authMiddleware_bearer, Hok. reflexivity.
  - intros req Hreq Hst.
    assert (req = mkRequest (Some ("Bearer " ++ t)) NotMultipart
                    (payload_of Date_now form photo) ""
                    (mkQuery None None None None) base) as ->.
    { unfold submitCheckin_request in Hreq. cbv zeta in Hreq. rewrite Ha in Hreq.
      destruct (_ || _) in Hreq; congruence. }
    destruct (post_visitors jwt_verify env _ db) as [res db'] eqn:E.
    cbn [fst snd] in *. destruct res as [st j]. cbn [status] in Hst. subst st.
    destruct (post_visitors_created _ _ _ _ _ _ E)
      as (pu & nm & c & _ & _ & _ & _ & -> & _).
    eexists. split; [reflexivity |]. cbn [row_created_by].
    rewrite created_by_of_bearer, Hok. reflexivity.
  - reflexivity.
Qed.

Lemma session_of_login_witness :
  exists user,
    find_user (JStr "ann")
      (users (mkAuthDb [mkUser "u1" "ann" "secret" "2023-01-01T00:00:00.000Z"] []))
    = Some user /\
    forall u bd p q,
      authMiddleware sample_verify
        (mkRequest
           (apiFetch_authorization
              (Login_submit
                 (auth_login sample_compare (fun _ _ _ => "good") sample_auth_env
                    (credentials "ann" "secret")
                    (mkAuthDb [mkUser "u1" "ann" "secret" "2023-01-01T00:00:00.000Z"] []))
                 None)) u bd p q "http://localhost:4000") = None.
Proof.
  destruct (session_of_login sample_compare (fun _ _ _ => "good") sample_verify
              sample_auth_env
              (mkAuthBody (JStr "ann") (JStr "secret") JUndefined JUndefined)
              (mkAuthDb [mkUser "u1" "ann" "secret" "2023-01-01T00:00:00.000Z"] [])
              None sample_env 1700000000123 "http://localhost:4000" sample_form None [])
    as (user & F & A & _).
  - intros user [<- | []]. cbv zeta. split; [discriminate | reflexivity].
  - reflexivity.
  - exists user. split; [exact F | exact A].
Defined.

(** ** The toasts *)

Lemma without_toast_In (id : Z) (l : list Toast) (t : Toast) :
  In t (without_toast id l) <-> In t l /\ toast_id t <> id.
Proof.
  unfold without_toast. rewrite filter_In.
  destruct (Z.eqb_spec (toast_id t) id); cbn; intuition congruence.
Qed.

Lemma without_toast_NoDup (id : Z) (l : list Toast) :
  NoDup (map toast_id l) -> NoDup (map toast_id (without_toast id l)).
Proof.
  induction l as [| x l IH]; cbn; [constructor |].
  intros N. apply NoDup_cons_iff in N as [Nx Nl].
  destruct (negb (toast_id x =? id)); [| apply IH; exact Nl].
  cbn. constructor; [| apply IH; exact Nl].
  intros I. apply Nx. apply in_map_iff in I as (y & E & I).
  apply without_toast_In in I. apply in_map_iff. exists y. tauto.
Qed.

Lemma toast_step_ok (s : ToastState) (e : ToastEvent) :
  toasts_ok s -> toasts_ok (toast_step s e).
Proof.
  intros (N & T & P & L). destruct e as [msg opts | id | id]; cbn [toast_step].
  - unfold push. cbv zeta. cbn [snd toast_stay].
    split; [| split; [| split]]; cbn [toasts next_toastId timeouts]; [| | | lia].
    + rewrite map_app. cbn [map toast_id].
      apply Permutation_NoDup with (l := next_toastId s :: map toast_id (toasts s)).
      * apply Permutation_cons_append.
      * constructor; [| exact N]. intros I. apply in_map_iff in I as (y & E & I).
        destruct (T y I) as [B _]. lia.
    + intros t H. apply in_app_or in H as [I | [<- | []]].
      * destruct (T t I) as [B [Q1 Q2]]. split; [lia |]. split.
        -- intros S. specialize (Q1 S).
           destruct (negb (truthy (opt_stay opts))); [apply in_or_app; left |]; exact Q1.
        -- intros I'. apply Q2.
           destruct (negb (truthy (opt_stay opts))); [| exact I'].
           apply in_app_or in I' as [I' | [E | []]]; [exact I' | exfalso; lia].
      * cbn [toast_stay toast_id]. split; [lia |]. split.
        -- intros S. rewrite S. cbn [negb]. apply in_or_app. right. left. reflexivity.
        -- intros I'. destruct (truthy (opt_stay opts)); [| reflexivity].
           cbn [negb] in I'. specialize (P _ I'). lia.
    + intros id I. destruct (negb (truthy (opt_stay opts))).
      * apply in_app_or in I as [I | [<- | []]]; [specialize (P _ I) |]; lia.
      * specialize (P _ I). lia.
  - unfold dismiss. split; [| split; [| split]]; cbn [toasts next_toastId timeouts]; [| | | lia].
    + apply without_toast_NoDup. exact N.
    + intros t H. apply without_toast_In in H as [I _]. apply (T t I).
    + exact P.
  - unfold timeout_fires.
    destruct (existsb (Z.eqb id) (timeouts s)); [| split; [| split; [| split]]; assumption].
    split; [| split; [| split]]; cbn [toasts next_toastId timeouts]; [| | | lia].
    + apply without_toast_NoDup. exact N.
    + intros t H. apply without_toast_In in H as [I D].
      destruct (T t I) as [B [Q1 Q2]]. split; [exact B |]. split.
      * intros S. apply filter_In.
        split; [apply Q1; exact S |]. apply negb_true_iff, Z.eqb_neq. exact D.
      * intros I'. apply filter_In in I' as [I' _]. apply Q2. exact I'.
    + intros x I. apply filter_In in I as [I _]. apply P. exact I.
Qed.

Lemma toast_run_ok (events : list ToastEvent) : toasts_ok (toast_run events).
Proof.
  unfold toast_run.
  assert (toasts_ok no_toasts) as H.
  { split; [constructor | split; [intros t [] | split; [intros id [] | cbn; lia]]]. }
  revert H. generalize no_toasts.
  induction events as [| e events IH]; intros s H; cbn [fold_left]; [exact H |].
  apply IH. apply toast_step_ok. exact H.
Qed.

(** X24: after any sequence of calls of [push] and [dismiss] and of timeouts
    that fire, the toasts on screen have pairwise distinct ids, all of them
    ids that [push] has handed out; a toast is still waiting for its timeout
    exactly when it was pushed without [stay], so that a toast pushed with
    [stay] leaves the screen only through [dismiss]; and a dismissed toast is
    no longer on screen while every other toast is. *)
Theorem toasts_on_screen (events : list ToastEvent) :
  let s := toast_run events in
  NoDup (map toast_id (toasts s)) /\
  (forall t, In t (toasts s) ->
     1 <= toast_id t < next_toastId s /\
     (toast_stay t = false <-> In (toast_id t) (timeouts s))) /\
  (forall id t,
     In t (toasts (toast_step s (Dismiss id))) <-> In t (toasts s) /\ toast_id t <> id) /\
  (forall id t,
     In t (toasts s) -> toast_stay t = true ->
     In t (toasts (toast_step s (TimeoutFires id)))).
Proof.
  cbv zeta. destruct (toast_run_ok events) as (N & T & P & _).
  split; [exact N |]. split; [exact T |]. split.
  - intros id t. cbn [toast_step dismiss toasts]. apply without_toast_In.
  - intros id t I S. cbn [toast_step]. unfold timeout_fires.
    destruct (existsb (Z.eqb id) (timeouts (toast_run events))) eqn:X; [| exact I].
    cbn [toasts]. apply without_toast_In. split; [exact I |].
    intros E. apply existsb_exists in X as (x & Ix & Ex). apply Z.eqb_eq in Ex. subst x.
    destruct (T t I) as [_ [_ Q]]. rewrite E in Q. specialize (Q Ix). congruence.
Qed.

(** ** The exported file *)

Lemma split_on_plain (sep : ascii) (s : string) :
  contains sep s = false -> split_on sep s = [s].
Proof.
  induction s as [| a r IH]; cbn; [reflexivity |].
  destruct (Ascii.eqb a sep); cbn; [discriminate |].
  intros H. rewrite (IH H). reflexivity.
Qed.

Lemma split_on_app (sep : ascii) (s t : string) :
  contains sep s = false ->
  split_on sep (s ++ String sep t) = s :: split_on sep t.
Proof.
  induction s as [| a r IH]; cbn.
  - rewrite Ascii.eqb_refl. reflexivity.
  - destruct (Ascii.eqb a sep); cbn; [discriminate |].
    intros H. rewrite (IH H). reflexivity.
Qed.

Lemma split_on_join (sep : ascii) (l : list string) :
  l <> [] -> (forall s, In s l -> contains sep s = false) ->
  split_on sep (Array_join sep l) = l.
Proof.
  unfold Array_join. induction l as [| s l IH]; [congruence |].
  intros _ H. destruct l as [| s' l].
  - cbn. apply split_on_plain. apply H. left. reflexivity.
  - change (String.concat (String sep "") (s :: s' :: l))
      with (s ++ String sep (String.concat (String sep "") (s' :: l))).
    rewrite split_on_app by (apply H; left; reflexivity).
    f_equal. apply IH; [discriminate |]. intros x Hx. apply H. right. exact Hx.
Qed.

Lemma contains_app (c : ascii) (s t : string) :
  contains c (s ++ t) = contains c s || contains c t.
Proof.
  induction s as [| a r IH]; cbn; [reflexivity |].
  rewrite IH. apply orb_assoc.
Qed.

Lemma contains_join (c sep : ascii) (l : list string) :
  Ascii.eqb sep c = false ->
  (forall s, In s l -> contains c s = false) ->
  contains c (Array_join sep l) = false.
Proof.
  intros Hs. unfold Array_join. induction l as [| s l IH]; intros H; [reflexivity |].
  destruct l as [| s' l].
  - cbn. apply H. left. reflexivity.
  - change (String.concat (String sep "") (s :: s' :: l))
      with (s ++ String sep (String.concat (String sep "") (s' :: l))).
    rewrite contains_app. cbn [contains]. rewrite Hs.
    rewrite (H s) by (left; reflexivity).
    rewrite IH by (intros x Hx; apply H; right; exact Hx). reflexivity.
Qed.

Lemma contains_double_quotes (c : ascii) (s : string) :
  Ascii.eqb quote c = false ->
  contains c (double_quotes s) = contains c s.
Proof.
  intros Hq. induction s as [| a r IH]; [reflexivity |].
  cbn [double_quotes]. destruct (Ascii.eqb a quote) eqn:E; cbn [contains]; rewrite IH.
  - apply Ascii.eqb_eq in E. subst a. rewrite Hq. reflexivity.
  - reflexivity.
Qed.

(** X25: the file that [downloadCSV] offers can be read back when no text
    in it has a comma or a line feed.  For rows whose first row has a key,
    if the keys of the first row and the texts of all the values under
    these keys are free of commas and line feeds, then splitting the file at
    the line feeds and each line at the commas gives the keys of the first
    row followed, for each row, by the texts of its values under these keys
    with every quote doubled (the empty text for a value that is missing or
    null).  No file is offered for an empty list. *)
Theorem downloadCSV_reads_back
    (filename : string) (first : JsObject) (rest : list JsObject) :
  let rows := first :: rest in
  let cols := map fst first in
  cols <> [] ->
  (forall c, In c cols -> plain c) ->
  (forall r c, In r rows -> In c cols ->
     plain (ToString (nullish_or (get_property r c) (JStr EmptyString)))) ->
  downloadCSV filename [] = None /\
  exists csv,
    downloadCSV filename rows = Some (filename, csv) /\
    map (split_on comma) (split_on newline csv)
    = cols :: map (fun r => map (csv_cell r) cols) rows.
Proof.
  intros rows cols Hne Hc Hv. split; [reflexivity |].
  eexists. split; [reflexivity |]. fold cols. fold rows.
  assert (forall r c, In r rows -> In c cols -> plain (csv_cell r c)) as Hcell.
  { intros r c Hr Hcc. destruct (Hv r c Hr Hcc) as [A B]. unfold plain, csv_cell.
    rewrite !contains_double_quotes by reflexivity. split; assumption. }
  rewrite split_on_join.
  - cbn [map]. f_equal.
    + apply split_on_join; [exact Hne |]. intros s Hs. apply (Hc s Hs).
    + rewrite map_map. apply map_ext_in. intros r Hr.
      apply split_on_join.
      * destruct cols; [congruence | discriminate].
      * intros s Hs. apply in_map_iff in Hs as (c & <- & Hcc).
        apply (Hcell r c Hr Hcc).
  - discriminate.
  - intros s [<- | Hs].
    + apply contains_join; [reflexivity |]. intros c Hcc. apply (Hc c Hcc).
    + apply in_map_iff in Hs as (r & <- & Hr).
      apply contains_join; [reflexivity |]. intros s Hs.
      apply in_map_iff in Hs as (c & <- & Hcc). apply (Hcell r c Hr Hcc).
Qed.

Lemma downloadCSV_reads_back_witness :
  exists csv,
    downloadCSV "visitors.csv"
      [[("id", JStr "v-1"); ("name", JStr "Alice"); ("checkout_time", JNull)];
       [("id", JStr "v-2"); ("name", JStr "Bob"); ("checkout_time", JNum 5)]]
    = Some ("visitors.csv", csv) /\
    map (split_on comma) (split_on newline csv)
    = [["id"; "name"; "checkout_time"]; ["v-1"; "Alice"; ""]; ["v-2"; "Bob"; "5"]].
Proof.
  destruct (downloadCSV_reads_back "visitors.csv"
              [("id", JStr "v-1"); ("name", JStr "Alice"); ("checkout_time", JNull)]
              [[("id", JStr "v-2"); ("name", JStr "Bob"); ("checkout_time", JNum 5)]])
    as (_ & csv & E & R).
  - discriminate.
  - intros c [<- | [<- | [<- | []]]]; split; reflexivity.
  - intros r c [<- | [<- | []]] [<- | [<- | [<- | []]]]; split; reflexivity.
  - exists csv. split; [exact E | exact R].
Defined.
